(** * Garment costing wizard: formula engine, validation, wizard state
      machine, record builder and backup round trip

    A shallow embedding of [src/app.js] and [src/db.js].

    - JavaScript numbers are IEEE 754 binary64 values: they are modelled by
      Rocq's primitive [float], whose [+], [*] and [/] are the same correctly
      rounded operations.  Nothing is idealised to rationals.
    - A wizard field holds a string, a number, [null] or [undefined]; that is
      the type [value].
    - The IndexedDB object stores of [db.js] are finite maps keyed by the
      record id.
    - Every operation that awaits the store may fail; the outcome of each
      request is supplied by an explicit [IO] record, and an event handler
      runs as one step.
    - [Number(v)] on a string is the language's own conversion; the engine
      is stated for an arbitrary [StringToNumber : string -> float]. *)

From Stdlib Require Import ZArith NArith List String Ascii Bool Floats Lia ZifyNat ZifyN.
From stdpp Require Import base gmap strings.

Set Warnings "-inexact-float".
Local Open Scope string_scope.
Local Open Scope Z_scope.

(** Linear arithmetic with division and remainder by constants. *)
Ltac div_lia := zify; Z.to_euclidean_division_equations; lia.

(* ===================================================================== *)
(** ** The JavaScript runtime used by the program *)
(* ===================================================================== *)

Module JS.

(** The values a wizard field can hold. *)
Inductive value : Type :=
| Undefined
| Null
| Num (n : float)
| Str (s : string).

Definition is_nan (x : float) : bool :=
  match Prim2SF x with S754_nan => true | _ => false end.

(** [Number.isFinite] on a number. *)
Definition Number_isFinite (x : float) : bool :=
  match Prim2SF x with
  | S754_nan | S754_infinity _ => false
  | S754_zero _ | S754_finite _ _ _ => true
  end.

(** The float with integer value [k] ([|k| < 2^63]); [neg] chooses the
    sign of a zero result. *)
Definition float_of_Z (neg : bool) (k : Z) : float :=
  let a := PrimFloat.of_uint63 (Uint63.of_Z (Z.abs k)) in
  if neg then PrimFloat.opp a else a.

(** [floor (v + 1/2)] for [v = (-1)^s * m * 2^e] with [e < 0]. *)
Definition round_half_up (s : bool) (m : positive) (e : Z) : Z :=
  let sm := if s then Z.neg m else Z.pos m in
  Z.shiftr (Z.shiftl sm 1 + Z.shiftl 1 (- e)) (1 - e).

(** [Math.round]: NaN, zeros, infinities and integral values are returned
    unchanged; otherwise the closest integer, ties towards +infinity; a
    zero result keeps the sign of the argument. *)
Definition Math_round (x : float) : float :=
  match Prim2SF x with
  | S754_finite s m e =>
      if 0 <=? e then x else float_of_Z s (round_half_up s m e)
  | _ => x
  end.

(** [Math.trunc]. *)
Definition Math_trunc (x : float) : float :=
  match Prim2SF x with
  | S754_finite s m e =>
      if 0 <=? e then x
      else float_of_Z s (Z.quot (if s then Z.neg m else Z.pos m) (Z.shiftl 1 (- e)))
  | _ => x
  end.

(** [Number.isInteger] on a number. *)
Definition Number_isInteger (x : float) : bool :=
  match Prim2SF x with
  | S754_zero _ => true
  | S754_finite _ m e =>
      (0 <=? e) || (Z.pos m mod Z.shiftl 1 (- e) =? 0)
  | _ => false
  end.

(** [Number.EPSILON] is 2^-52. *)
Definition EPSILON : float := 0x1p-52%float.


(** Truthiness of a field value, as used by [||] and [!]. *)
Definition truthy (v : value) : bool :=
  match v with
  | Undefined | Null => false
  | Num n => negb (is_nan n || PrimFloat.eqb n 0%float)
  | Str s => negb (String.eqb s "")
  end.

(** Strings are sequences of code units below 256.  These are the white
    space and line terminator code units that [trim] strips. *)
Definition is_trim_space (c : ascii) : bool :=
  match N_of_ascii c with
  | 9%N | 10%N | 11%N | 12%N | 13%N | 32%N | 160%N => true
  | _ => false
  end.

Fixpoint trim_start (s : string) : string :=
  match s with
  | EmptyString => EmptyString
  | String c r => if is_trim_space c then trim_start r else s
  end.

Fixpoint rev_string (acc s : string) : string :=
  match s with
  | EmptyString => acc
  | String c r => rev_string (String c acc) r
  end.

Definition trim_end (s : string) : string :=
  rev_string "" (trim_start (rev_string "" s)).

(** [String.prototype.trim]. *)
Definition trim (s : string) : string := trim_end (trim_start s).

Fixpoint string_forallb (f : ascii -> bool) (s : string) : bool :=
  match s with
  | EmptyString => true
  | String c r => f c && string_forallb f r
  end.

Fixpoint string_map (f : ascii -> ascii) (s : string) : string :=
  match s with
  | EmptyString => EmptyString
  | String c r => String (f c) (string_map f r)
  end.

End JS.
Export JS.

(* ===================================================================== *)
(** ** Versions and constants (app.js, lines 18-32) *)
(* ===================================================================== *)

Definition APP_VERSION : string := "2.0.0".
Definition CALC_VERSION : string := "factorySheet_v1".
Definition DRAFT_ID : string := "current".
Definition DEFAULT_CURRENCY : string := "$".

Definition FIXED_ROC_PCT : float := 2.5%float.
Definition WEIGHT_GM_PER_LB : float := 453.6%float.
Definition PIECES_PER_DOZEN : float := 12%float.
Definition GM_PER_LB_PER_PIECE_IN_DOZEN : float :=
  (WEIGHT_GM_PER_LB / PIECES_PER_DOZEN)%float.
Definition GAUGE_OPTIONS : list float := [3; 5; 7; 12]%float.

(* ===================================================================== *)
(** ** Data model *)
(* ===================================================================== *)

(** A [Blob]: its bytes and its MIME type. *)
Record Blob : Type := mkBlob {
  blob_bytes : list Byte.byte;
  blob_type : string
}.

(** A photo reference [{ blob, width, height, type }]. *)
Record Photo : Type := mkPhoto {
  ph_blob : option Blob;
  ph_type : string;
  ph_width : value;
  ph_height : value
}.

(** The in-progress draft [wizardState].  Text fields are strings; every
    other field holds whatever the inputs, a stored draft or a duplicated
    record put there. *)
Record WizardState : Type := mkWizardState {
  styleName : string;
  yarnDesc : string;
  composition : string;
  gauge : value;
  weightGm : value;
  photo : option Photo;
  currency : string;
  yarnPricePerLb : value;
  wastagePct : value;
  accessoriesCostDoz : value;
  fabricDoz : value;
  fabricCostDoz : value;
  fabricAttachCostDoz : value;
  timingMin : value;
  cmDoz : value;
  rocPct : value
}.

(** The object returned by [computeAll]; [None] is [null]. *)
Record Computed : Type := mkComputed {
  c_lbsPerDoz : option float;
  c_lbsWithWastage : option float;
  c_yarnCostDoz : option float;
  c_totalDoz : float;
  c_fobPerPc : float;
  c_finalPerPc : float;
  c_rocPct : float
}.

(** A number-or-null slot of a stored record. *)
Definition number_or_null : Type := option float.

(** [product.inputs]. *)
Record Inputs : Type := mkInputs {
  i_yarnPricePerLb : number_or_null;
  i_wastagePct : number_or_null;
  i_accessoriesCostDoz : number_or_null;
  i_fabricDoz : number_or_null;
  i_fabricCostDoz : number_or_null;
  i_fabricAttachCostDoz : number_or_null;
  i_timingMin : number_or_null;
  i_cmDoz : number_or_null;
  i_rocPct : number_or_null
}.

(** [product.computed], the frozen snapshot (it has no [rocPct]). *)
Record Snapshot : Type := mkSnapshot {
  s_lbsPerDoz : number_or_null;
  s_lbsWithWastage : number_or_null;
  s_yarnCostDoz : number_or_null;
  s_totalDoz : number_or_null;
  s_fobPerPc : number_or_null;
  s_finalPerPc : number_or_null
}.

(** A stored costing record [{ id, createdAt, ..., photo, inputs, computed }].
    The type of the photo slot is a parameter: a stored record carries a
    [Photo], an item of a backup file carries the photo as text. *)
Record ProductOf (P : Type) : Type := mkProduct {
  p_id : string;
  p_createdAt : string;
  p_updatedAt : string;
  p_appVersion : string;
  p_calcVersion : string;
  p_styleName : string;
  p_yarnDesc : string;
  p_composition : string;
  p_gauge : number_or_null;
  p_weightGm : number_or_null;
  p_currency : string;
  p_photo : option P;
  p_inputs : Inputs;
  p_computed : Snapshot
}.

Arguments mkProduct {P}.
Arguments p_id {P}.
Arguments p_createdAt {P}.
Arguments p_updatedAt {P}.
Arguments p_appVersion {P}.
Arguments p_calcVersion {P}.
Arguments p_styleName {P}.
Arguments p_yarnDesc {P}.
Arguments p_composition {P}.
Arguments p_gauge {P}.
Arguments p_weightGm {P}.
Arguments p_currency {P}.
Arguments p_photo {P}.
Arguments p_inputs {P}.
Arguments p_computed {P}.

Definition Product : Type := ProductOf Photo.

(** A row of the draft store: [{ id, updatedAt, data }]. *)
Record Draft : Type := mkDraft {
  d_id : string;
  d_updatedAt : string;
  d_data : option WizardState
}.

(* ===================================================================== *)
(** ** Formula engine (app.js, lines 63-79 and 169-201) *)
(* ===================================================================== *)

(** [v === '' || v === null || v === undefined]. *)
Definition is_blank (v : value) : bool :=
  match v with
  | Undefined | Null => true
  | Str s => String.eqb s ""
  | Num _ => false
  end.

(** [round2], on a number. *)
Definition round2 (x : float) : float :=
  if negb (Number_isFinite x) then 0%float
  else (Math_round ((x + EPSILON) * 100) / 100)%float.

(* ===================================================================== *)
(** ** Step schema (app.js, lines 336-392) *)
(* ===================================================================== *)

(** The values of [step.kind]. *)
Inductive StepKind : Type :=
| KStyle | KNumber | KMoneyDoz | KInt | KPercent | KComputed | KPreview.

(** A step descriptor; the [hint] is presentation text and is left out.  A
    descriptor without [required] reads it as falsy. *)
Record Step : Type := mkStep {
  step_id : string;
  kind : StepKind;
  key : option string;
  required : bool;
  title : string
}.

Definition is_int (st : Step) : bool :=
  match kind st with KInt => true | _ => false end.

Definition is_preview (st : Step) : bool :=
  match kind st with KPreview => true | _ => false end.

Definition STEPS : list Step :=
  [ mkStep "styleInfo" KStyle None false "STEP 1: Basic Style Information";
    mkStep "yarnPricePerLb" KNumber (Some "yarnPricePerLb") true "Yarn price / LBS";
    mkStep "weightGm" KNumber (Some "weightGm") true "Garments Weight (grams)";
    mkStep "lbsPerDoz" KComputed None false "Garments Weight (LBS / Doz)";
    mkStep "wastagePct" KPercent (Some "wastagePct") true "Wastage %";
    mkStep "lbsWithWastage" KComputed None false
      "Garments Weight LBS (Including Wastage @ %)";
    mkStep "yarnCostDoz" KComputed None false "Yarn Cost";
    mkStep "accessoriesCostDoz" KMoneyDoz (Some "accessoriesCostDoz") false
      "Accessories Cost";
    mkStep "fabricDoz" KMoneyDoz (Some "fabricDoz") false "Fabric";
    mkStep "fabricCostDoz" KMoneyDoz (Some "fabricCostDoz") false "Fabric Cost";
    mkStep "fabricAttachCostDoz" KMoneyDoz (Some "fabricAttachCostDoz") false
      "Fabric Attachment CM";
    mkStep "timingMin" KInt (Some "timingMin") false "Timing";
    mkStep "cmDoz" KMoneyDoz (Some "cmDoz") true "CM";
    mkStep "fobPerPc" KComputed None false "Costing price / FOB";
    mkStep "rocPct" KComputed None false "Final (ROC 2.50%)";
    mkStep "preview" KPreview None false "Preview & Calculate Final FOB" ].

(** [STEPS.length]. *)
Definition STEPS_length : Z := Z.of_nat (List.length STEPS).

(** [STEPS[i]]; [None] is [undefined]. *)
Definition step_at (i : Z) : option Step :=
  if i <? 0 then None else nth_error STEPS (Z.to_nat i).

(** [STEPS.find(s => s.id === x)]. *)
Definition find_step (x : string) : option Step :=
  List.find (fun st => String.eqb (step_id st) x) STEPS.

Definition defaultWizardState : WizardState :=
  {| styleName := "";
     yarnDesc := "";
     composition := "";
     gauge := Null;
     weightGm := Str "";
     photo := None;
     currency := DEFAULT_CURRENCY;
     yarnPricePerLb := Str "";
     wastagePct := Num 8;
     accessoriesCostDoz := Num 0;
     fabricDoz := Num 0;
     fabricCostDoz := Num 0;
     fabricAttachCostDoz := Num 0;
     timingMin := Num 0;
     cmDoz := Num 0;
     rocPct := Num FIXED_ROC_PCT |}.

(** The result of [validateStep]: [{ ok, message }]. *)
Record Validation : Type := mkValidation {
  ok : bool;
  message : option string
}.

Definition accept : Validation := mkValidation true None.
Definition reject (msg : string) : Validation := mkValidation false (Some msg).

(* ===================================================================== *)
(** ** Persistence (db.js) and application state (app.js, lines 159-164) *)
(* ===================================================================== *)

(** The two object stores, keyed by [id]. *)
Record DB : Type := mkDB {
  products : gmap string Product;
  drafts : gmap string Draft
}.

(** What the environment decides during one event handler: the clock, the
    fresh identifier, and whether each store request completes.  A request
    that fails rejects its promise and leaves its store as it was. *)
Record IO : Type := mkIO {
  now : string;
  uuid : string;
  putDraft_ok : bool;
  getDraft_ok : bool;
  clearDraft_ok : bool;
  putProduct_ok : bool
}.

Inductive View : Type := ViewList | ViewWizard | ViewDetail.

Record App : Type := mkApp {
  wizardState : option WizardState;
  wizardStepIndex : Z;
  wizardError : option string;
  currentDetail : option Product;
  view : View;
  db : DB
}.

Definition set_wizardState (w : option WizardState) (a : App) : App :=
  mkApp w (wizardStepIndex a) (wizardError a) (currentDetail a) (view a) (db a).
Definition set_wizardStepIndex (i : Z) (a : App) : App :=
  mkApp (wizardState a) i (wizardError a) (currentDetail a) (view a) (db a).
Definition set_db (d : DB) (a : App) : App :=
  mkApp (wizardState a) (wizardStepIndex a) (wizardError a) (currentDetail a) (view a) d.
Definition showView (v : View) (a : App) : App :=
  mkApp (wizardState a) (wizardStepIndex a) (wizardError a) (currentDetail a) v (db a).

Definition showWizardError (msg : string) (a : App) : App :=
  mkApp (wizardState a) (wizardStepIndex a) (Some msg) (currentDetail a) (view a) (db a).
Definition clearWizardError (a : App) : App :=
  mkApp (wizardState a) (wizardStepIndex a) None (currentDetail a) (view a) (db a).

(** [GCDB.putProduct], [GCDB.putDraft], [GCDB.clearDraft]: what a request
    that completes does to the stores. *)
Definition putProduct (p : Product) (d : DB) : DB :=
  mkDB (<[p_id p := p]> (products d)) (drafts d).
Definition putDraft (x : Draft) (d : DB) : DB :=
  mkDB (products d) (<[d_id x := x]> (drafts d)).
Definition deleteDraft (k : string) (d : DB) : DB :=
  mkDB (products d) (delete k (drafts d)).

(** [loadDraft]: [d?.data || null], and [null] when the read fails. *)
Definition loadDraft (io : IO) (a : App) : option WizardState :=
  if getDraft_ok io then
    match drafts (db a) !! DRAFT_ID with
    | Some d => d_data d
    | None => None
    end
  else None.

(** [saveDraft]: a failed write is logged and swallowed. *)
Definition saveDraft (io : IO) (state : option WizardState) (a : App) : App :=
  if putDraft_ok io
  then set_db (putDraft (mkDraft DRAFT_ID (now io) state) (db a)) a
  else a.

(** [clearDraft]: a failed delete is logged and swallowed. *)
Definition clearDraft (io : IO) (a : App) : App :=
  if clearDraft_ok io then set_db (deleteDraft DRAFT_ID (db a)) a else a.

(** What [renderWizardStep] does to the state: it clears the error banner;
    the rest is drawing. *)
Definition renderWizardStep (a : App) : App := clearWizardError a.

(** [openDetail]: remembers the record and shows the detail view. *)
Definition openDetail (p : Product) (a : App) : App :=
  mkApp (wizardState a) (wizardStepIndex a) (wizardError a) (Some p) ViewDetail (db a).

(** [x || null] on a field value. *)
Definition or_null (v : value) : value := if truthy v then v else Null.

(** [x || d] on a string. *)
Definition or_default (x d : string) : string :=
  if String.eqb x "" then d else x.

(* ===================================================================== *)
(** ** Backup and restore (app.js, lines 296-303 and 1001-1066) *)
(* ===================================================================== *)

(** *** Base64, as [FileReader.readAsDataURL] writes it and [atob] reads it *)

Definition b64_alphabet : string :=
  "ABCDEFGHIJKLMNOPQRSTUVWXYZabcdefghijklmnopqrstuvwxyz0123456789+/".

Definition b64_char (n : N) : ascii :=
  match String.get (N.to_nat n) b64_alphabet with
  | Some c => c
  | None => "="%char
  end.

Fixpoint index_of (c : ascii) (s : string) (i : N) : option N :=
  match s with
  | EmptyString => None
  | String d r => if Ascii.eqb c d then Some i else index_of c r (N.succ i)
  end.

Definition b64_index (c : ascii) : option N := index_of c b64_alphabet 0%N.

(** The sextets of a byte sequence: three bytes give four sextets, a final
    group of one or two bytes gives two or three. *)
Fixpoint to_sextets (bs : list Byte.byte) : list N :=
  match bs with
  | [] => []
  | [a] =>
      let a := Byte.to_N a in
      [a / 4; (a mod 4) * 16]
  | [a; b] =>
      let a := Byte.to_N a in
      let b := Byte.to_N b in
      [a / 4; (a mod 4) * 16 + b / 16; (b mod 16) * 4]
  | a :: b :: c :: rest =>
      let a := Byte.to_N a in
      let b := Byte.to_N b in
      let c := Byte.to_N c in
      a / 4 :: (a mod 4) * 16 + b / 16 :: (b mod 16) * 4 + c / 64 :: c mod 64
        :: to_sextets rest
  end%N.

(** The [=] signs that complete the last group of four characters. *)
Fixpoint padding (bs : list Byte.byte) : list ascii :=
  match bs with
  | [] => []
  | [_] => ["="; "="]%char
  | [_; _] => ["="%char]
  | _ :: _ :: _ :: rest => padding rest
  end.

Definition base64_encode (bs : list Byte.byte) : string :=
  string_of_list_ascii (map b64_char (to_sextets bs) ++ padding bs).

Definition is_ascii_whitespace (c : ascii) : bool :=
  match N_of_ascii c with
  | 9%N | 10%N | 12%N | 13%N | 32%N => true
  | _ => false
  end.

(** Removes one or two trailing [=]. *)
Definition strip_padding (cs : list ascii) : list ascii :=
  match rev cs with
  | c1 :: r1 =>
      if Ascii.eqb c1 "=" then
        match r1 with
        | c2 :: r2 => if Ascii.eqb c2 "=" then rev r2 else rev r1
        | [] => rev r1
        end
      else cs
  | [] => cs
  end.

Fixpoint sextets (cs : list ascii) : option (list N) :=
  match cs with
  | [] => Some []
  | c :: r =>
      match b64_index c, sextets r with
      | Some n, Some l => Some (n :: l)
      | _, _ => None
      end
  end.

(** Groups of four sextets give three bytes; a final group of three gives
    two bytes and one of two gives one byte, the spare bits being dropped. *)
Fixpoint decode_sextets (l : list N) : list N :=
  match l with
  | s1 :: s2 :: s3 :: s4 :: rest =>
      (s1 * 4 + s2 / 16) :: ((s2 mod 16) * 16 + s3 / 4)
        :: ((s3 mod 4) * 64 + s4) :: decode_sextets rest
  | [s1; s2; s3] => [s1 * 4 + s2 / 16; (s2 mod 16) * 16 + s3 / 4]
  | [s1; s2] => [s1 * 4 + s2 / 16]
  | _ => []
  end%N.

(** [atob]: the decoded binary string, or [None] when it throws. *)
Definition atob (s : string) : option string :=
  let cs := List.filter (fun c => negb (is_ascii_whitespace c)) (list_ascii_of_string s) in
  let cs := if Nat.eqb (Nat.modulo (List.length cs) 4) 0 then strip_padding cs else cs in
  if Nat.eqb (Nat.modulo (List.length cs) 4) 1 then None
  else match sextets cs with
       | Some sx => Some (string_of_list_ascii (map ascii_of_N (decode_sextets sx)))
       | None => None
       end.

(** [blobToDataUrl]: the data URL of a blob; a blob without a type is
    written as [application/octet-stream]. *)
Definition blobToDataUrl (b : Blob) : string :=
  "data:" ++ or_default (blob_type b) "application/octet-stream"
    ++ ";base64," ++ base64_encode (blob_bytes b).

(** [str.split(sep)] for a one-character separator. *)
Fixpoint split (sep : ascii) (s : string) : list string :=
  match s with
  | EmptyString => [""]
  | String c r =>
      if Ascii.eqb c sep then "" :: split sep r
      else match split sep r with
           | h :: t => String c h :: t
           | [] => [String c ""]
           end
  end.

Fixpoint starts_with (pat s : string) : bool :=
  match pat, s with
  | EmptyString, _ => true
  | String a p, String b r => Ascii.eqb a b && starts_with p r
  | String _ _, EmptyString => false
  end.

Fixpoint string_drop (n : nat) (s : string) : string :=
  match n, s with
  | O, _ => s
  | S k, String _ r => string_drop k r
  | S _, EmptyString => EmptyString
  end.

Definition is_line_terminator (c : ascii) : bool :=
  match N_of_ascii c with
  | 10%N | 13%N => true
  | _ => false
  end.

(** The lazy group [(.*?)] followed by [pat]: the shortest run of
    characters other than line terminators after which [pat] follows. *)
Fixpoint lazy_until (pat s : string) : option string :=
  if starts_with pat s then Some ""
  else match s with
       | EmptyString => None
       | String c r =>
           if is_line_terminator c then None
           else match lazy_until pat r with
                | Some g => Some (String c g)
                | None => None
                end
       end.

(** [meta.match(/data:(.*?);base64/)?.[1]]: the group of the leftmost
    match; [None] when there is no match. *)
Fixpoint match_data_base64 (s : string) : option string :=
  match (if starts_with "data:" s then lazy_until ";base64" (string_drop 5 s) else None) with
  | Some g => Some g
  | None =>
      match s with
      | EmptyString => None
      | String _ r => match_data_base64 r
      end
  end.

(** The type a [Blob] constructor keeps: empty when a character lies
    outside U+0020..U+007E, lower case otherwise. *)
Definition lower (c : ascii) : ascii :=
  let n := N_of_ascii c in
  if ((65 <=? n) && (n <=? 90))%N then ascii_of_N (n + 32) else c.

Definition printable (c : ascii) : bool :=
  let n := N_of_ascii c in ((32 <=? n) && (n <=? 126))%N.

Definition normalize_type (t : string) : string :=
  if string_forallb printable t then string_map lower t else "".

(** [dataUrlToBlob]; [None] when [atob] throws. *)
Definition dataUrlToBlob (dataUrl : string) : option Blob :=
  let parts := split ","%char dataUrl in
  let meta := nth 0 parts "" in
  let b64 := nth 1 parts "undefined" in
  let mime := match match_data_base64 meta with
              | Some g => or_default g "application/octet-stream"
              | None => "application/octet-stream"
              end in
  match atob b64 with
  | Some bin =>
      Some {| blob_bytes := map byte_of_ascii (list_ascii_of_string bin);
              blob_type := normalize_type mime |}
  | None => None
  end.

(** *** The backup document *)

(** The photo of an exported item: [{ base64, type, width, height }]. *)
Record ExportedPhoto : Type := mkExportedPhoto {
  e_base64 : string;
  e_type : string;
  e_width : value;
  e_height : value
}.

Definition ExportedItem : Type := ProductOf ExportedPhoto.

Record Backup : Type := mkBackup {
  b_schema : string;
  b_exportedAt : string;
  b_appVersion : string;
  b_calcVersion : string;
  b_items : list ExportedItem
}.

(** [{ ...p, photo: x }]. *)
Definition with_photo {P Q : Type} (p : ProductOf P) (x : option Q) : ProductOf Q :=
  mkProduct (p_id p) (p_createdAt p) (p_updatedAt p) (p_appVersion p)
    (p_calcVersion p) (p_styleName p) (p_yarnDesc p) (p_composition p)
    (p_gauge p) (p_weightGm p) (p_currency p) x (p_inputs p) (p_computed p).

(** One turn of the loop of [exportBackup]. *)
Definition exportItem (p : Product) : ExportedItem :=
  with_photo p
    match p_photo p with
    | Some ph =>
        match ph_blob ph with
        | Some b =>
            Some {| e_base64 := blobToDataUrl b;
                    e_type := or_default (ph_type ph) "image/jpeg";
                    e_width := ph_width ph;
                    e_height := ph_height ph |}
        | None => None
        end
    | None => None
    end.

(** [exportBackup]: the payload built from the records read from the store. *)
Definition exportBackup (exportedAt : string) (items : list Product) : Backup :=
  {| b_schema := "garment-costing-backup-v2";
     b_exportedAt := exportedAt;
     b_appVersion := APP_VERSION;
     b_calcVersion := CALC_VERSION;
     b_items := map exportItem items |}.

(** What [JSON.parse (JSON.stringify x)] returns for the values of a backup:
    a finite number is read back as the same number (a negative zero as
    zero), any other number as [null]; text is read back unchanged; a
    property holding [undefined] is left out. *)
Definition JSON_number (x : float) : number_or_null :=
  if Number_isFinite x
  then Some (if PrimFloat.eqb x 0 then 0%float else x)
  else None.

Definition JSON_slot (x : number_or_null) : number_or_null :=
  match x with Some n => JSON_number n | None => None end.

Definition JSON_value (v : value) : value :=
  match v with
  | Num n => match JSON_number n with Some m => Num m | None => Null end
  | x => x
  end.

Definition JSON_inputs (i : Inputs) : Inputs :=
  {| i_yarnPricePerLb := JSON_slot (i_yarnPricePerLb i);
     i_wastagePct := JSON_slot (i_wastagePct i);
     i_accessoriesCostDoz := JSON_slot (i_accessoriesCostDoz i);
     i_fabricDoz := JSON_slot (i_fabricDoz i);
     i_fabricCostDoz := JSON_slot (i_fabricCostDoz i);
     i_fabricAttachCostDoz := JSON_slot (i_fabricAttachCostDoz i);
     i_timingMin := JSON_slot (i_timingMin i);
     i_cmDoz := JSON_slot (i_cmDoz i);
     i_rocPct := JSON_slot (i_rocPct i) |}.

Definition JSON_snapshot (c : Snapshot) : Snapshot :=
  {| s_lbsPerDoz := JSON_slot (s_lbsPerDoz c);
     s_lbsWithWastage := JSON_slot (s_lbsWithWastage c);
     s_yarnCostDoz := JSON_slot (s_yarnCostDoz c);
     s_totalDoz := JSON_slot (s_totalDoz c);
     s_fobPerPc := JSON_slot (s_fobPerPc c);
     s_finalPerPc := JSON_slot (s_finalPerPc c) |}.

Definition JSON_photo (e : ExportedPhoto) : ExportedPhoto :=
  {| e_base64 := e_base64 e;
     e_type := e_type e;
     e_width := JSON_value (e_width e);
     e_height := JSON_value (e_height e) |}.

Definition JSON_item (p : ExportedItem) : ExportedItem :=
  mkProduct (p_id p) (p_createdAt p) (p_updatedAt p) (p_appVersion p)
    (p_calcVersion p) (p_styleName p) (p_yarnDesc p) (p_composition p)
    (JSON_slot (p_gauge p)) (JSON_slot (p_weightGm p)) (p_currency p)
    (option_map JSON_photo (p_photo p))
    (JSON_inputs (p_inputs p)) (JSON_snapshot (p_computed p)).

(** The backup file written and read again. *)
Definition JSON_roundtrip (b : Backup) : Backup :=
  {| b_schema := b_schema b;
     b_exportedAt := b_exportedAt b;
     b_appVersion := b_appVersion b;
     b_calcVersion := b_calcVersion b;
     b_items := map JSON_item (b_items b) |}.

(** One turn of the loop of [importBackup]; [None] when [dataUrlToBlob]
    throws.  A photo without [base64] is kept as it is read: an object
    without a blob. *)
Definition importItem (raw : ExportedItem) : option Product :=
  match p_photo raw with
  | Some e =>
      if negb (String.eqb (e_base64 e) "") then
        match dataUrlToBlob (e_base64 e) with
        | Some blob =>
            Some (with_photo raw
                    (Some {| ph_blob := Some blob;
                             ph_type := or_default (e_type e) "image/jpeg";
                             ph_width := or_null (e_width e);
                             ph_height := or_null (e_height e) |}))
        | None => None
        end
      else
        Some (with_photo raw
                (Some {| ph_blob := None; ph_type := e_type e;
                         ph_width := e_width e; ph_height := e_height e |}))
  | None => Some (with_photo raw None)
  end.

Fixpoint importItems (l : list ExportedItem) : option (list Product) :=
  match l with
  | [] => Some []
  | raw :: r =>
      match importItem raw with
      | Some p =>
          match importItems r with
          | Some ps => Some (p :: ps)
          | None => None
          end
      | None => None
      end
  end.

(** [importBackup]: the records handed to [GCDB.bulkPut], or [None] when a
    photo cannot be decoded.  A file that does not parse to an object with
    an [items] array is refused before the loop and has no [Backup] here. *)
Definition importBackup (data : Backup) : option (list Product) :=
  importItems (b_items data).

Definition not_comma (c : ascii) : bool := negb (Ascii.eqb c ",").

(** *** Records that a backup file can carry *)

Definition is_negative_zero (x : float) : bool :=
  match Prim2SF x with S754_zero true => true | _ => false end.

(** A number slot that JSON text can carry: [null], or a finite number
    other than negative zero. *)
Definition slot_ok (x : number_or_null) : bool :=
  match x with
  | Some n => Number_isFinite n && negb (is_negative_zero n)
  | None => true
  end.

(** A photo dimension that the restore keeps: [null], or a finite number
    other than zero. *)
Definition dimension_ok (v : value) : bool :=
  match v with
  | Null => true
  | Num n => Number_isFinite n && negb (PrimFloat.eqb n 0)
  | Str s => negb (String.eqb s "")
  | Undefined => false
  end.

(** A blob type that a data URL carries unchanged: not empty, lower case,
    printable, and free of commas and semicolons. *)
Definition plain_type_char (c : ascii) : bool :=
  let n := N_of_ascii c in
  ((32 <=? n) && (n <=? 126) && negb ((65 <=? n) && (n <=? 90))
   && negb (n =? 44) && negb (n =? 59))%N.

Definition plain_type (t : string) : bool :=
  negb (String.eqb t "") && string_forallb plain_type_char t.

Definition photo_ok (ph : Photo) : bool :=
  match ph_blob ph with
  | Some b =>
      plain_type (blob_type b) && negb (String.eqb (ph_type ph) "")
      && dimension_ok (ph_width ph) && dimension_ok (ph_height ph)
  | None => false
  end.

Definition inputs_ok (i : Inputs) : bool :=
  slot_ok (i_yarnPricePerLb i) && slot_ok (i_wastagePct i)
  && slot_ok (i_accessoriesCostDoz i) && slot_ok (i_fabricDoz i)
  && slot_ok (i_fabricCostDoz i) && slot_ok (i_fabricAttachCostDoz i)
  && slot_ok (i_timingMin i) && slot_ok (i_cmDoz i) && slot_ok (i_rocPct i).

Definition snapshot_ok (c : Snapshot) : bool :=
  slot_ok (s_lbsPerDoz c) && slot_ok (s_lbsWithWastage c)
  && slot_ok (s_yarnCostDoz c) && slot_ok (s_totalDoz c)
  && slot_ok (s_fobPerPc c) && slot_ok (s_finalPerPc c).

(** A record whose numbers JSON text can carry and whose photo is either
    absent ([null]) or holds a blob of a plain type with kept dimensions. *)
Definition exportable (p : Product) : bool :=
  slot_ok (p_gauge p) && slot_ok (p_weightGm p)
  && inputs_ok (p_inputs p) && snapshot_ok (p_computed p)
  && match p_photo p with
     | Some ph => photo_ok ph
     | None => true
     end.

Section Engine.

(** The conversion of a string to a number performed by [Number(v)]; it
    belongs to the language, not to the program. *)
Variable StringToNumber : string -> float.

(** [Number(v)]. *)
Definition Number (v : value) : float :=
  match v with
  | Undefined => PrimFloat.nan
  | Null => 0%float
  | Num n => n
  | Str s => StringToNumber s
  end.

Definition toNum (v : value) : float :=
  if is_blank v then 0%float
  else let n := Number v in
       if Number_isFinite n then n else 0%float.

Definition toNumOrNull (v : value) : option float :=
  if is_blank v then None
  else let n := Number v in
       if Number_isFinite n then Some n else None.

Definition computeAll (s : WizardState) : Computed :=
  let weightGm := toNum (weightGm s) in
  let wastagePct := toNum (wastagePct s) in
  let yarnPricePerLb := toNum (yarnPricePerLb s) in
  let lbsPerDoz :=
    if PrimFloat.ltb 0 weightGm
    then Some (weightGm / GM_PER_LB_PER_PIECE_IN_DOZEN)%float else None in
  let lbsWithWastage :=
    match lbsPerDoz with
    | Some l => Some (l * (1 + wastagePct / 100))%float
    | None => None
    end in
  let yarnCostDoz :=
    match lbsWithWastage with
    | Some l => Some (yarnPricePerLb * l)%float
    | None => None
    end in
  let accessoriesCostDoz := toNum (accessoriesCostDoz s) in
  let fabricDoz := toNum (fabricDoz s) in
  let fabricCostDoz := toNum (fabricCostDoz s) in
  let fabricAttachCostDoz := toNum (fabricAttachCostDoz s) in
  let cmDoz := toNum (cmDoz s) in
  let totalDoz :=
    (match yarnCostDoz with Some y => y | None => 0 end
     + accessoriesCostDoz + fabricDoz + fabricCostDoz
     + fabricAttachCostDoz + cmDoz)%float in
  let fobPerPc := round2 (totalDoz / PIECES_PER_DOZEN) in
  let rocPct := FIXED_ROC_PCT in
  let finalPerPc := round2 (fobPerPc * (1 + rocPct / 100)) in
  {| c_lbsPerDoz := lbsPerDoz;
     c_lbsWithWastage := lbsWithWastage;
     c_yarnCostDoz := yarnCostDoz;
     c_totalDoz := totalDoz;
     c_fobPerPc := fobPerPc;
     c_finalPerPc := finalPerPc;
     c_rocPct := rocPct |}.

(* --------------------------------------------------------------------- *)
(** *** Validation (app.js, lines 218-260) *)
(* --------------------------------------------------------------------- *)

Definition isPercentValid (x : value) : bool :=
  let n := Number x in
  Number_isFinite n && PrimFloat.leb 0 n && PrimFloat.leb n 100.

Definition isNonNegativeNumber (x : value) : bool :=
  let n := Number x in
  Number_isFinite n && PrimFloat.leb 0 n.

(** [GAUGE_OPTIONS.includes(n)]: membership by SameValueZero. *)
Definition includes (l : list float) (n : float) : bool :=
  existsb (fun g => PrimFloat.eqb g n || (is_nan g && is_nan n)) l.

(** [s[step.key]] for the keys of the draft; a step without a key and a key
    the draft does not have read [undefined]. *)
Definition get_field (s : WizardState) (key : option string) : value :=
  match key with
  | None => Undefined
  | Some k =>
      if String.eqb k "yarnPricePerLb" then yarnPricePerLb s
      else if String.eqb k "weightGm" then weightGm s
      else if String.eqb k "wastagePct" then wastagePct s
      else if String.eqb k "accessoriesCostDoz" then accessoriesCostDoz s
      else if String.eqb k "fabricDoz" then fabricDoz s
      else if String.eqb k "fabricCostDoz" then fabricCostDoz s
      else if String.eqb k "fabricAttachCostDoz" then fabricAttachCostDoz s
      else if String.eqb k "timingMin" then timingMin s
      else if String.eqb k "cmDoz" then cmDoz s
      else if String.eqb k "rocPct" then rocPct s
      else if String.eqb k "gauge" then gauge s
      else if String.eqb k "styleName" then Str (styleName s)
      else if String.eqb k "yarnDesc" then Str (yarnDesc s)
      else if String.eqb k "composition" then Str (composition s)
      else if String.eqb k "currency" then Str (currency s)
      else Undefined
  end.

(** The value [validateStep] examines: [s[step.key] ?? '']. *)
Definition examined (step : Step) (s : WizardState) : value :=
  match get_field s (key step) with
  | Undefined | Null => Str ""
  | x => x
  end.

(** [s.photo?.blob] is present. *)
Definition has_photo_blob (s : WizardState) : bool :=
  match photo s with
  | Some ph => match ph_blob ph with Some _ => true | None => false end
  | None => false
  end.

Definition validateStep (step : Step) (s : WizardState) : Validation :=
  match kind step with
  | KStyle =>
      if String.eqb (trim (styleName s)) "" then reject "Style Name is required."
      else if String.eqb (trim (yarnDesc s)) "" then reject "Yarn Description is required."
      else if negb (has_photo_blob s) then reject "Product Photo is required."
      else if negb (includes GAUGE_OPTIONS (Number (gauge s))) then reject "Please select a Gauge."
      else if negb (PrimFloat.ltb 0 (toNum (weightGm s)))
           then reject "Garment Weight (grams) must be greater than 0."
      else accept
  | KNumber | KMoneyDoz | KInt =>
      let v := examined step s in
      if required step && is_blank v then reject (title step ++ " is required.")
      else if is_blank v then accept
      else if negb (isNonNegativeNumber v)
           then reject (title step ++ " must be a non-negative number.")
      else if is_int step && negb (Number_isInteger (Number v))
           then reject (title step ++ " must be a whole number.")
      else accept
  | KPercent =>
      let v := examined step s in
      if required step && is_blank v then reject (title step ++ " is required.")
      else if is_blank v then accept
      else if negb (isPercentValid v)
           then reject (title step ++ " must be between 0 and 100.")
      else accept
  | KComputed | KPreview => accept
  end.

(* --------------------------------------------------------------------- *)
(** *** Record builder (app.js, lines 812-891) *)
(* --------------------------------------------------------------------- *)

(** [[...].filter(Boolean)] on the looked-up descriptors. *)
Fixpoint filter_Boolean (l : list (option Step)) : list Step :=
  match l with
  | [] => []
  | Some st :: r => st :: filter_Boolean r
  | None :: r => filter_Boolean r
  end.

Definition requiredChecks : list Step :=
  filter_Boolean
    [ step_at 0;
      find_step "yarnPricePerLb";
      find_step "weightGm";
      find_step "wastagePct";
      find_step "cmDoz";
      find_step "rocPct" ].

(** The validation loop: the first check that fails, if any. *)
Fixpoint first_failure (checks : list Step) (s : WizardState) : option Validation :=
  match checks with
  | [] => None
  | st :: r =>
      let v := validateStep st s in
      if ok v then first_failure r s else Some v
  end.

(** The record literal [product] of [calculateAndSave]. *)
Definition buildProduct (io : IO) (s : WizardState) : Product :=
  let computed := computeAll s in
  {| p_id := uuid io;
     p_createdAt := now io;
     p_updatedAt := now io;
     p_appVersion := APP_VERSION;
     p_calcVersion := CALC_VERSION;
     p_styleName := trim (styleName s);
     p_yarnDesc := trim (yarnDesc s);
     p_composition := trim (composition s);
     p_gauge := Some (Number (gauge s));
     p_weightGm := Some (toNum (weightGm s));
     p_currency := trim (or_default (currency s) DEFAULT_CURRENCY);
     p_photo :=
       Some {| ph_blob := match photo s with Some ph => ph_blob ph | None => None end;
               ph_type := or_default
                            (match photo s with Some ph => ph_type ph | None => "" end)
                            "image/jpeg";
               ph_width := or_null
                             (match photo s with Some ph => ph_width ph | None => Undefined end);
               ph_height := or_null
                              (match photo s with Some ph => ph_height ph | None => Undefined end) |};
     p_inputs :=
       {| i_yarnPricePerLb := Some (toNum (yarnPricePerLb s));
          i_wastagePct := Some (toNum (wastagePct s));
          i_accessoriesCostDoz := Some (toNum (accessoriesCostDoz s));
          i_fabricDoz := Some (toNum (fabricDoz s));
          i_fabricCostDoz := Some (toNum (fabricCostDoz s));
          i_fabricAttachCostDoz := Some (toNum (fabricAttachCostDoz s));
          i_timingMin := Some (Math_trunc (toNum (timingMin s)));
          i_cmDoz := Some (toNum (cmDoz s));
          i_rocPct := Some (toNum (rocPct s)) |};
     p_computed :=
       {| s_lbsPerDoz := c_lbsPerDoz computed;
          s_lbsWithWastage := c_lbsWithWastage computed;
          s_yarnCostDoz := c_yarnCostDoz computed;
          s_totalDoz := Some (c_totalDoz computed);
          s_fobPerPc := Some (c_fobPerPc computed);
          s_finalPerPc := Some (c_finalPerPc computed) |} |}.

(** [calculateAndSave].  With no draft in memory the first check throws
    before anything is changed.  [loadAndRenderList] only redraws the list
    and catches its own errors; it is left out. *)
Definition calculateAndSave (io : IO) (a : App) : App :=
  match wizardState a with
  | None => a
  | Some s =>
      match first_failure requiredChecks s with
      | Some v =>
          showWizardError
            (match message v with Some m => or_default m "Please correct the input."
                                | None => "Please correct the input." end) a
      | None =>
          let product := buildProduct io s in
          if putProduct_ok io then
            let a := set_db (putProduct product (db a)) a in
            let a := clearDraft io a in
            let a := set_wizardState None a in
            let a := set_wizardStepIndex 0 a in
            openDetail product a
          else
            showWizardError "Could not save this costing. Please try again." a
      end
  end.

(** The record [calculateAndSave] hands to the store, when it gets that far. *)
Definition builtRecord (io : IO) (a : App) : option Product :=
  match wizardState a with
  | None => None
  | Some s =>
      match first_failure requiredChecks s with
      | Some _ => None
      | None => Some (buildProduct io s)
      end
  end.

(* --------------------------------------------------------------------- *)
(** *** Wizard navigation (app.js, lines 748-807) *)
(* --------------------------------------------------------------------- *)

(** [validateStep(step, wizardState)] as [wizardNext] calls it: reading the
    kind of a missing step, or a field of a missing draft, throws ([None]). *)
Definition validateCurrent (a : App) : option (Step * Validation) :=
  match step_at (wizardStepIndex a) with
  | None => None
  | Some step =>
      match wizardState a with
      | Some s => Some (step, validateStep step s)
      | None =>
          match kind step with
          | KComputed | KPreview => Some (step, accept)
          | _ => None
          end
      end
  end.

Definition wizardNext (io : IO) (a : App) : App :=
  match validateCurrent a with
  | None => a
  | Some (step, v) =>
      if negb (ok v) then
        showWizardError
          (match message v with Some m => or_default m "Please correct the input."
                              | None => "Please correct the input." end) a
      else
        let a := clearWizardError a in
        if is_preview step then calculateAndSave io a
        else
          let a := set_wizardStepIndex
                     (Z.min (STEPS_length - 1) (wizardStepIndex a + 1)) a in
          let a := saveDraft io (wizardState a) a in
          renderWizardStep a
  end.

Definition wizardPrev (io : IO) (a : App) : App :=
  let a := clearWizardError a in
  let a := set_wizardStepIndex (Z.max 0 (wizardStepIndex a - 1)) a in
  let a := saveDraft io (wizardState a) a in
  renderWizardStep a.

(** The click handler of a preview row with [data-jump] equal to [jump]. *)
Definition jumpTo (jump : Z) (a : App) : App :=
  let a := set_wizardStepIndex (Z.max 0 (Z.min (STEPS_length - 1) jump)) a in
  renderWizardStep a.

Definition openWizard (io : IO) (resume : bool) (baseData : option WizardState)
  (a : App) : App :=
  let draft := if resume then loadDraft io a else None in
  let ws := match baseData with
            | Some b => b
            | None => match draft with Some d => d | None => defaultWizardState end
            end in
  let ws := {| styleName := styleName ws; yarnDesc := yarnDesc ws;
               composition := composition ws; gauge := gauge ws;
               weightGm := weightGm ws; photo := photo ws;
               currency := trim (or_default (currency ws) DEFAULT_CURRENCY);
               yarnPricePerLb := yarnPricePerLb ws;
               wastagePct := if is_blank (wastagePct ws) then Num 8 else wastagePct ws;
               accessoriesCostDoz := accessoriesCostDoz ws; fabricDoz := fabricDoz ws;
               fabricCostDoz := fabricCostDoz ws;
               fabricAttachCostDoz := fabricAttachCostDoz ws;
               timingMin := timingMin ws; cmDoz := cmDoz ws;
               rocPct := if is_blank (rocPct ws) then Num 0 else rocPct ws |} in
  let a := set_wizardState (Some ws) a in
  let a := set_wizardStepIndex 0 a in
  let a := showView ViewWizard a in
  renderWizardStep a.

(** The operations a user can perform on an open wizard. *)
Inductive WizardOp : Type :=
| OpAdvance (io : IO)
| OpRetreat (io : IO)
| OpJump (jump : Z).

Definition run_op (op : WizardOp) (a : App) : App :=
  match op with
  | OpAdvance io => wizardNext io a
  | OpRetreat io => wizardPrev io a
  | OpJump j => jumpTo j a
  end.

Definition run_ops (ops : list WizardOp) (a : App) : App :=
  fold_left (fun st op => run_op op st) ops a.

(* ===================================================================== *)
(** ** Sample data *)
(* ===================================================================== *)

(** [StringToNumber] on unsigned decimal integer literals below 2^53, which
    are read exactly; it is only used to run the engine on sample drafts. *)
Fixpoint digits_value (acc : Z) (s : string) : option Z :=
  match s with
  | EmptyString => Some acc
  | String c r =>
      let n := Z.of_N (N_of_ascii c) in
      if (48 <=? n) && (n <=? 57) then digits_value (10 * acc + (n - 48)) r
      else None
  end.

Definition integerLiteral (s : string) : float :=
  match digits_value 0 s with
  | Some k => if k <? 2 ^ 53 then float_of_Z false k else PrimFloat.nan
  | None => PrimFloat.nan
  end.

Definition samplePhoto : Photo :=
  {| ph_blob := Some {| blob_bytes := [Byte.xff; Byte.xd8; Byte.xff; Byte.xe0];
                        blob_type := "image/jpeg" |};
     ph_type := "image/jpeg";
     ph_width := Num 1024;
     ph_height := Num 768 |}.

(** Scenario A: 378 g, 5 % wastage, yarn at 2 per pound, accessories 3,
    cut-and-make 6 per dozen. *)
Definition scenarioA : WizardState :=
  {| styleName := "1683N L - Pullover";
     yarnDesc := "70% viscose / 30% polyamide";
     composition := "";
     gauge := Num 7;
     weightGm := Num 378;
     photo := Some samplePhoto;
     currency := "$";
     yarnPricePerLb := Num 2;
     wastagePct := Num 5;
     accessoriesCostDoz := Num 3;
     fabricDoz := Num 0;
     fabricCostDoz := Num 0;
     fabricAttachCostDoz := Num 0;
     timingMin := Num 0;
     cmDoz := Num 6;
     rocPct := Num FIXED_ROC_PCT |}.

(** [s] with its [rocPct] field replaced. *)
Definition with_rocPct (v : value) (s : WizardState) : WizardState :=
  {| styleName := styleName s; yarnDesc := yarnDesc s;
     composition := composition s; gauge := gauge s;
     weightGm := weightGm s; photo := photo s; currency := currency s;
     yarnPricePerLb := yarnPricePerLb s; wastagePct := wastagePct s;
     accessoriesCostDoz := accessoriesCostDoz s; fabricDoz := fabricDoz s;
     fabricCostDoz := fabricCostDoz s;
     fabricAttachCostDoz := fabricAttachCostDoz s;
     timingMin := timingMin s; cmDoz := cmDoz s; rocPct := v |}.

(** [s] with its [weightGm] field replaced. *)
Definition with_weightGm (v : value) (s : WizardState) : WizardState :=
  {| styleName := styleName s; yarnDesc := yarnDesc s;
     composition := composition s; gauge := gauge s;
     weightGm := v; photo := photo s; currency := currency s;
     yarnPricePerLb := yarnPricePerLb s; wastagePct := wastagePct s;
     accessoriesCostDoz := accessoriesCostDoz s; fabricDoz := fabricDoz s;
     fabricCostDoz := fabricCostDoz s;
     fabricAttachCostDoz := fabricAttachCostDoz s;
     timingMin := timingMin s; cmDoz := cmDoz s; rocPct := rocPct s |}.

Definition sampleIO : IO :=
  {| now := "2026-01-15T09:30:00.000Z";
     uuid := "id-7f3a-19b2";
     putDraft_ok := true;
     getDraft_ok := true;
     clearDraft_ok := true;
     putProduct_ok := true |}.

Definition emptyDB : DB := {| products := ∅; drafts := ∅ |}.

(** [s] with its [wastagePct] field replaced. *)
Definition with_wastagePct (v : value) (s : WizardState) : WizardState :=
  {| styleName := styleName s; yarnDesc := yarnDesc s;
     composition := composition s; gauge := gauge s;
     weightGm := weightGm s; photo := photo s; currency := currency s;
     yarnPricePerLb := yarnPricePerLb s; wastagePct := v;
     accessoriesCostDoz := accessoriesCostDoz s; fabricDoz := fabricDoz s;
     fabricCostDoz := fabricCostDoz s;
     fabricAttachCostDoz := fabricAttachCostDoz s;
     timingMin := timingMin s; cmDoz := cmDoz s; rocPct := rocPct s |}.

(** An open wizard on step [i] holding the draft [s], with empty stores. *)
Definition wizardAt (i : Z) (s : WizardState) : App :=
  {| wizardState := Some s; wizardStepIndex := i; wizardError := None;
     currentDetail := None; view := ViewWizard; db := emptyDB |}.

(** The list view with [s] saved in the draft slot. *)
Definition appWithDraft (s : WizardState) : App :=
  {| wizardState := None; wizardStepIndex := 0; wizardError := None;
     currentDetail := None; view := ViewList;
     db := {| products := ∅;
              drafts := {[ DRAFT_ID := mkDraft DRAFT_ID "2026-01-14T17:02:11.000Z" (Some s) ]} |} |}.

(** Scenario C: scenario A with a wastage of 150 percent. *)
Definition scenarioC : WizardState := with_wastagePct (Num 150) scenarioA.

(** Scenario A with 150 in the markup field, as a duplicated or restored
    record can bring it. *)
Definition markup150 : WizardState := with_rocPct (Num 150) scenarioA.

(** Scenario A saved with the wastage and markup fields blank. *)
Definition blankPercents : WizardState :=
  with_rocPct (Str "") (with_wastagePct (Str "") scenarioA).

(** The store refuses the record. *)
Definition failingIO : IO :=
  {| now := now sampleIO; uuid := uuid sampleIO;
     putDraft_ok := true; getDraft_ok := true; clearDraft_ok := true;
     putProduct_ok := false |}.

(** A record without a photo blob, as the record builder writes it for a
    draft that has no photo. *)
Definition photolessRecord : Product :=
  {| p_id := "id-0c44-5e1a";
     p_createdAt := "2025-11-02T08:15:00.000Z";
     p_updatedAt := "2025-11-02T08:15:00.000Z";
     p_appVersion := APP_VERSION;
     p_calcVersion := CALC_VERSION;
     p_styleName := "1683N L - Pullover";
     p_yarnDesc := "70% viscose / 30% polyamide";
     p_composition := "";
     p_gauge := Some 7%float;
     p_weightGm := Some 378%float;
     p_currency := "$";
     p_photo := Some {| ph_blob := None; ph_type := "image/jpeg";
                        ph_width := Null; ph_height := Null |};
     p_inputs := (mkInputs (Some 2) (Some 5) (Some 3) (Some 0) (Some 0) (Some 0)
                    (Some 0) (Some 6) (Some 2.5))%float;
     p_computed := (mkSnapshot (Some 9.9999999999999982) (Some 10.499999999999998)
                      (Some 20.999999999999996) (Some 29.999999999999996)
                      (Some 2.5) (Some 2.56))%float |}.

(** Scenario A with a weight and a yarn price of 1e308. *)
Definition hugeDraft : WizardState :=
  {| styleName := styleName scenarioA; yarnDesc := yarnDesc scenarioA;
     composition := composition scenarioA; gauge := gauge scenarioA;
     weightGm := Num 1e308; photo := photo scenarioA;
     currency := currency scenarioA;
     yarnPricePerLb := Num 1e308; wastagePct := wastagePct scenarioA;
     accessoriesCostDoz := accessoriesCostDoz scenarioA;
     fabricDoz := fabricDoz scenarioA; fabricCostDoz := fabricCostDoz scenarioA;
     fabricAttachCostDoz := fabricAttachCostDoz scenarioA;
     timingMin := timingMin scenarioA; cmDoz := cmDoz scenarioA;
     rocPct := rocPct scenarioA |}.

(** Scenario D: only the required inputs are filled in; the other
    dozen-rate costs are blank. *)
Definition scenarioD : WizardState :=
  {| styleName := styleName scenarioA; yarnDesc := yarnDesc scenarioA;
     composition := ""; gauge := gauge scenarioA;
     weightGm := Str "378"; photo := photo scenarioA; currency := "$";
     yarnPricePerLb := Str "2"; wastagePct := Str "5";
     accessoriesCostDoz := Str ""; fabricDoz := Str "";
     fabricCostDoz := Str ""; fabricAttachCostDoz := Str "";
     timingMin := Str ""; cmDoz := Str "6"; rocPct := Num FIXED_ROC_PCT |}.




(* ===================================================================== *)
(** ** More of the program *)
(* ===================================================================== *)

(** *** HTML escaping (app.js, lines 42-49) *)

(** [s.replaceAll(c, rep)] for a one-character pattern. *)
Fixpoint replaceAll (c : ascii) (rep : string) (s : string) : string :=
  match s with
  | EmptyString => EmptyString
  | String d r =>
      if Ascii.eqb d c then rep ++ replaceAll c rep r
      else String d (replaceAll c rep r)
  end.

(** [escapeHtml], on a string; the double quote is code unit 34. *)
Definition escapeHtml (str : string) : string :=
  replaceAll "'" "&#39;"
    (replaceAll "034" "&quot;"
       (replaceAll ">" "&gt;"
          (replaceAll "<" "&lt;"
             (replaceAll "&" "&amp;" str)))).

(** The entity that stands for one character. *)
Definition entity (c : ascii) : string :=
  if Ascii.eqb c "&" then "&amp;"
  else if Ascii.eqb c "<" then "&lt;"
  else if Ascii.eqb c ">" then "&gt;"
  else if Ascii.eqb c "034" then "&quot;"
  else if Ascii.eqb c "'" then "&#39;"
  else String c "".

Fixpoint concat_entities (s : string) : string :=
  match s with
  | EmptyString => EmptyString
  | String c r => entity c ++ concat_entities r
  end.

(** The characters with a meaning in HTML text and attribute values. *)
Definition is_markup (c : ascii) : bool :=
  Ascii.eqb c "<" || Ascii.eqb c ">" || Ascii.eqb c "034" || Ascii.eqb c "'".

(** Every [&] of [s] begins one of the five entities. *)
Fixpoint ampersands_are_entities (s : string) : bool :=
  match s with
  | EmptyString => true
  | String c r =>
      (negb (Ascii.eqb c "&")
       || starts_with "amp;" r || starts_with "lt;" r || starts_with "gt;" r
       || starts_with "quot;" r || starts_with "#39;" r)
      && ampersands_are_entities r
  end.

(** *** The record store (db.js, lines 53-99) *)

(** [GCDB.getProduct]: [req.result || null]. *)
Definition getProduct (k : string) (d : DB) : option Product := products d !! k.

(** [GCDB.deleteProduct], when the request completes. *)
Definition deleteProduct (k : string) (d : DB) : DB :=
  mkDB (delete k (products d)) (drafts d).

(** [GCDB.bulkPut], when the transaction completes: the records are put
    one after the other. *)
Definition bulkPut (ps : list Product) (d : DB) : DB :=
  fold_left (fun st p => putProduct p st) ps d.

(** The store keeps every record under its own [id] (the key path). *)
Definition keyed_by_id (m : gmap string Product) : Prop :=
  forall k p, m !! k = Some p -> p_id p = k.

(** The last record of [ps] with the id [k]. *)
Fixpoint last_with_id (k : string) (ps : list Product) : option Product :=
  match ps with
  | [] => None
  | p :: r =>
      match last_with_id k r with
      | Some q => Some q
      | None => if String.eqb (p_id p) k then Some p else None
      end
  end.

(** *** Progress bar and preview rows (app.js, lines 402-407 and 701-755) *)

(** [Math.round(((wizardStepIndex + 1) / STEPS.length) * 100)]. *)
Definition progressPercent (i : Z) : float :=
  Math_round
    (PrimFloat.mul
       (PrimFloat.div (float_of_Z (i + 1 <? 0) (i + 1))
          (float_of_Z false STEPS_length)) 100).

Inductive RowKind : Type := RowInput | RowAuto.

(** A row of the preview table; its displayed value is left out. *)
Record PreviewRow : Type := mkRow {
  row_title : string;
  row_kind : RowKind;
  row_jump : Z
}.

Definition previewRows : list PreviewRow :=
  [ mkRow "Style Name / Style Number" RowInput 0;
    mkRow "Yarn Description" RowInput 0;
    mkRow "Fabric composition" RowInput 0;
    mkRow "Gauge" RowInput 0;
    mkRow "Garments Weight (grams)" RowInput 2;
    mkRow "Yarn price / LBS" RowInput 1;
    mkRow "Garments Weight (LBS / Doz)" RowAuto 3;
    mkRow "Wastage %" RowInput 4;
    mkRow "Garments Weight LBS (Including Wastage @ %)" RowAuto 5;
    mkRow "Yarn Cost" RowAuto 6;
    mkRow "Accessories Cost" RowInput 7;
    mkRow "Fabric" RowInput 8;
    mkRow "Fabric Cost" RowInput 9;
    mkRow "Fabric Attachment CM" RowInput 10;
    mkRow "Timing" RowInput 11;
    mkRow "CM" RowInput 12;
    mkRow "Costing price / FOB" RowAuto 13;
    mkRow "Final (ROC 2.50%)" RowAuto 14 ].

(** A step that shows an editable field. *)
Definition is_editable (st : Step) : bool :=
  match kind st with
  | KStyle | KNumber | KMoneyDoz | KInt | KPercent => true
  | KComputed | KPreview => false
  end.

(** *** File names of shared images (app.js, lines 1386-1390) *)

(** A character matched by [\w]: a letter, a digit or the underscore. *)
Definition is_word_char (c : ascii) : bool :=
  let n := N_of_ascii c in
  (((48 <=? n) && (n <=? 57)) || ((65 <=? n) && (n <=? 90))
   || ((97 <=? n) && (n <=? 122)) || (n =? 95))%N.

(** A character that the class [[^\w\-]] does not match. *)
Definition is_kept (c : ascii) : bool := is_word_char c || Ascii.eqb c "-".

(** [s.replace(/[^\w\-]+/g, '_')]: every maximal run of other characters
    becomes one underscore; [in_run] tells that such a run has begun. *)
Fixpoint replace_runs (in_run : bool) (s : string) : string :=
  match s with
  | EmptyString => EmptyString
  | String c r =>
      if is_kept c then String c (replace_runs false r)
      else if in_run then replace_runs true r
      else String "_" (replace_runs true r)
  end.

(** [s.slice(0, n)]. *)
Fixpoint string_take (n : nat) (s : string) : string :=
  match n, s with
  | S k, String c r => String c (string_take k r)
  | _, _ => EmptyString
  end.

Definition sanitizeFilename (name : string) : string :=
  string_take 60 (replace_runs false (or_default name "costing")).

(** *** Walking through the wizard *)

(** The draft passes the validation of every step of the schema. *)
Definition passes_every_step (s : WizardState) : bool :=
  forallb (fun st => ok (validateStep st s)) STEPS.

(** The advance operations of a list of operations carry these ids. *)
Fixpoint advance_ids (ops : list WizardOp) : list string :=
  match ops with
  | [] => []
  | OpAdvance io :: r => uuid io :: advance_ids r
  | _ :: r => advance_ids r
  end.

(** What [openWizard] makes of a loaded draft. *)
Definition normalized (s : WizardState) : bool :=
  negb (is_blank (wastagePct s)) && negb (is_blank (rocPct s))
  && String.eqb (trim (currency s)) (currency s)
  && negb (String.eqb (currency s) "").

(** The draft store holds nothing outside the slot [DRAFT_ID]. *)
Definition single_slot (d : DB) : Prop :=
  forall k x, drafts d !! k = Some x -> k = DRAFT_ID /\ d_id x = DRAFT_ID.

(** A string that does not begin with a character [trim] strips. *)
Definition starts_clean (s : string) : bool :=
  match s with
  | EmptyString => true
  | String c _ => negb (is_trim_space c)
  end.

(** An open wizard on step [i] holding the draft [s], with the record [p]
    in the store. *)
Definition wizardWithRecord (p : Product) (i : Z) (s : WizardState) : App :=
  {| wizardState := Some s; wizardStepIndex := i; wizardError := None;
     currentDetail := None; view := ViewWizard;
     db := {| products := {[ p_id p := p ]}; drafts := ∅ |} |}.

(** A backup item whose photo text is not a data URL. *)
Definition brokenItem : ExportedItem :=
  with_photo photolessRecord
    (Some {| e_base64 := "not a data url"; e_type := "image/jpeg";
             e_width := Null; e_height := Null |}).

(** *** Duplicate and recalculate (app.js, lines 1236-1260) *)

(** The text [String(n)] of a number; like [StringToNumber] it belongs to
    the language. *)
Variable NumberToString : float -> string.

(** [String(x)] for a number-or-null slot. *)
Definition String_of_slot (x : number_or_null) : string :=
  match x with
  | Some n => NumberToString n
  | None => "null"
  end.

(** [x ?? 0] for a number-or-null slot, as a field value. *)
Definition or_zero (x : number_or_null) : value :=
  match x with
  | Some n => Num n
  | None => Num 0
  end.

(** The draft [baseData] that [duplicateProduct] builds from a record. *)
Definition duplicateData (product : Product) : WizardState :=
  {| styleName := p_styleName product;
     yarnDesc := p_yarnDesc product;
     composition := or_default (p_composition product) "";
     gauge := match p_gauge product with Some g => Num g | None => Null end;
     weightGm := Str (String_of_slot (p_weightGm product));
     photo := match p_photo product with
              | Some ph =>
                  Some {| ph_blob := ph_blob ph; ph_type := ph_type ph;
                          ph_width := ph_width ph; ph_height := ph_height ph |}
              | None => None
              end;
     currency := or_default (p_currency product) DEFAULT_CURRENCY;
     yarnPricePerLb :=
       Str (match i_yarnPricePerLb (p_inputs product) with
            | Some n => NumberToString n
            | None => ""
            end);
     wastagePct := or_zero (i_wastagePct (p_inputs product));
     accessoriesCostDoz := or_zero (i_accessoriesCostDoz (p_inputs product));
     fabricDoz := or_zero (i_fabricDoz (p_inputs product));
     fabricCostDoz := or_zero (i_fabricCostDoz (p_inputs product));
     fabricAttachCostDoz := or_zero (i_fabricAttachCostDoz (p_inputs product));
     timingMin := or_zero (i_timingMin (p_inputs product));
     cmDoz := or_zero (i_cmDoz (p_inputs product));
     rocPct := or_zero (i_rocPct (p_inputs product)) |}.

Definition duplicateProduct (io : IO) (product : Product) (a : App) : App :=
  let baseData := duplicateData product in
  let a := saveDraft io (Some baseData) a in
  openWizard io true None a.

(** *** Typing into a number field (app.js, lines 631-646) *)

(** [Math.max(0, x)]: NaN for NaN, zero for a negative number and for
    either zero. *)
Definition Math_max0 (x : float) : float :=
  if is_nan x then x else if PrimFloat.ltb 0 x then x else 0%float.

(** [s[key] = v] for the keys of the input steps. *)
Definition set_field (key : option string) (v : value) (s : WizardState)
  : WizardState :=
  let upd (k : string) (old : value) : value :=
    match key with
    | Some k' => if String.eqb k' k then v else old
    | None => old
    end in
  {| styleName := styleName s; yarnDesc := yarnDesc s;
     composition := composition s; gauge := gauge s;
     weightGm := upd "weightGm" (weightGm s);
     photo := photo s; currency := currency s;
     yarnPricePerLb := upd "yarnPricePerLb" (yarnPricePerLb s);
     wastagePct := upd "wastagePct" (wastagePct s);
     accessoriesCostDoz := upd "accessoriesCostDoz" (accessoriesCostDoz s);
     fabricDoz := upd "fabricDoz" (fabricDoz s);
     fabricCostDoz := upd "fabricCostDoz" (fabricCostDoz s);
     fabricAttachCostDoz := upd "fabricAttachCostDoz" (fabricAttachCostDoz s);
     timingMin := upd "timingMin" (timingMin s);
     cmDoz := upd "cmDoz" (cmDoz s);
     rocPct := upd "rocPct" (rocPct s) |}.

(** The number the handler keeps of the typed text [raw]. *)
Definition typedNumber (step : Step) (raw : string) : float :=
  if is_int step then Math_max0 (Math_trunc (Number (Str raw)))
  else Math_max0 (Number (Str raw)).

(** What the [input] handler of a number field makes of the draft when the
    field holds the text [raw]. *)
Definition onInput (step : Step) (raw : string) (s : WizardState) : WizardState :=
  set_field (key step)
    (if String.eqb raw "" then Str ""
     else Str (NumberToString (typedNumber step raw))) s.

(** The handler: the draft is changed in memory and then saved.  Without a
    draft in memory the assignment throws. *)
Definition inputHandler (io : IO) (step : Step) (raw : string) (a : App) : App :=
  match wizardState a with
  | Some s =>
      let s' := onInput step raw s in
      saveDraft io (Some s') (set_wizardState (Some s') a)
  | None => a
  end.

(** [String(n)] on non-negative whole numbers below 2^53, for sample runs. *)
Fixpoint decimal_digits (fuel : nat) (n : Z) (acc : string) : string :=
  match fuel with
  | O => acc
  | S f =>
      let acc' := String (ascii_of_N (Z.to_N (48 + n mod 10))) acc in
      if n <? 10 then acc' else decimal_digits f (n / 10) acc'
  end.

Definition integerString (x : float) : string :=
  match Prim2SF x with
  | S754_zero _ => "0"
  | S754_finite false m e =>
      if 0 <=? e then decimal_digits 400 (Z.pos m * 2 ^ e) ""
      else if Z.pos m mod 2 ^ (- e) =? 0
           then decimal_digits 400 (Z.pos m / 2 ^ (- e)) ""
           else "NaN"
  | _ => "NaN"
  end.

(* ===================================================================== *)
(** ** Facts about numbers *)
(* ===================================================================== *)

Lemma SFcompare_antisym (x y : spec_float) (c : comparison) :
  SFcompare x y = Some c -> SFcompare y x = Some (CompOpp c).
Proof.
  destruct x as [sx| sx | |sx mx ex], y as [sy|sy| |sy my ey]; simpl;
    try discriminate; intros H; injection H as <-;
    try (destruct sx; reflexivity); try (destruct sy; reflexivity);
    try (destruct sx, sy; reflexivity).
  f_equal.
  destruct sx, sy; try reflexivity;
    rewrite (Z.compare_antisym ey ex);
    destruct (ey ?= ex) eqn:E; simpl; try reflexivity;
    rewrite (Pos.compare_cont_antisym mx my Eq); simpl;
    try reflexivity.
Qed.

Lemma ltb_true_leb_false (x y : float) :
  PrimFloat.ltb x y = true -> PrimFloat.leb y x = false.
Proof.
  rewrite ltb_spec, leb_spec. unfold SFltb, SFleb.
  destruct (SFcompare (Prim2SF x) (Prim2SF y)) as [c|] eqn:E; try discriminate.
  rewrite (SFcompare_antisym _ _ _ E).
  destruct c; simpl; congruence.
Qed.

Lemma leb_true_ltb_false (x y : float) :
  PrimFloat.leb x y = true -> PrimFloat.ltb y x = false.
Proof.
  rewrite ltb_spec, leb_spec. unfold SFltb, SFleb.
  destruct (SFcompare (Prim2SF x) (Prim2SF y)) as [c|] eqn:E; try discriminate.
  rewrite (SFcompare_antisym _ _ _ E).
  destruct c; simpl; congruence.
Qed.

(** A number that is not NaN is below, or at least, any other such number. *)
Lemma finite_ltb_or_leb (x y : float) :
  Number_isFinite x = true -> Number_isFinite y = true ->
  PrimFloat.ltb x y = true \/ PrimFloat.leb y x = true.
Proof.
  unfold Number_isFinite. rewrite ltb_spec, leb_spec. unfold SFltb, SFleb.
  intros Hx Hy.
  destruct (SFcompare (Prim2SF x) (Prim2SF y)) as [c|] eqn:E.
  - rewrite (SFcompare_antisym _ _ _ E). destruct c; simpl; auto.
  - destruct (Prim2SF x), (Prim2SF y); simpl in *; discriminate.
Qed.

(** The runtime model on known values of the language. *)
Example Math_round_values :
  Math_round 2.5 = 3%float /\ Math_round (-2.5) = (-2)%float
  /\ Math_round 0.49999999999999994 = 0%float
  /\ Math_round (-0.2) = (-0)%float /\ Math_round (-2.6) = (-3)%float
  /\ Math_round PrimFloat.infinity = PrimFloat.infinity
  /\ Math_trunc (-7.9) = (-7)%float /\ Math_trunc 7.9 = 7%float
  /\ Number_isInteger 3 = true /\ Number_isInteger 3.5 = false.
Proof. repeat split; vm_compute; reflexivity. Qed.

Example round2_values :
  round2 1.005 = 1.01%float /\ round2 2.5625 = 2.56%float
  /\ round2 2.4999999999999996 = 2.5%float /\ round2 PrimFloat.nan = 0%float
  /\ round2 (-1.234) = (-1.23)%float.
Proof. repeat split; vm_compute; reflexivity. Qed.

Example trim_values :
  trim "  1683N L  " = "1683N L" /\ trim "   " = "" /\ trim "" = "".
Proof. repeat split; reflexivity. Qed.

(** Two numbers that [===] tells apart are different. *)
Lemma float_neq (x y : float) :
  PrimFloat.eqb x y = false -> PrimFloat.eqb y y = true -> x <> y.
Proof. intros H1 H2 ->. congruence. Qed.

Lemma Some_float_neq (x y : float) :
  PrimFloat.eqb x y = false -> PrimFloat.eqb y y = true -> Some x <> Some y.
Proof.
  intros H1 H2 E. apply (float_neq x y H1 H2).
  exact (f_equal (fun o => match o with Some f => f | None => x end) E).
Qed.

Lemma toNum_finite (v : value) : Number_isFinite (toNum v) = true.
Proof.
  unfold toNum. destruct (is_blank v); [reflexivity|].
  simpl. destruct (Number_isFinite (Number v)) eqn:E; [exact E | reflexivity].
Qed.

(** The divisor of the engine is not the double written 37.8. *)
Lemma GM_is_not_37_8 :
  GM_PER_LB_PER_PIECE_IN_DOZEN = 37.800000000000004%float
  /\ PrimFloat.eqb GM_PER_LB_PER_PIECE_IN_DOZEN 37.8 = false.
Proof. split; vm_compute; reflexivity. Qed.

(* ===================================================================== *)
(** ** The validation engine *)
(* ===================================================================== *)

(** A percent step rejects every present value above 100 or below 0. *)
Lemma validateStep_percent_rejects (step : Step) (s : WizardState) :
  kind step = KPercent ->
  is_blank (examined step s) = false ->
  PrimFloat.ltb 100 (Number (examined step s)) = true
  \/ PrimFloat.ltb (Number (examined step s)) 0 = true ->
  validateStep step s = reject (title step ++ " must be between 0 and 100.").
Proof.
  intros K B H. unfold validateStep. rewrite K.
  rewrite B, andb_false_r. simpl.
  assert (V : isPercentValid (examined step s) = false).
  { unfold isPercentValid. destruct H as [H|H];
      apply ltb_true_leb_false in H; rewrite H;
      [apply andb_false_r | rewrite andb_false_r; reflexivity]. }
  rewrite V. reflexivity.
Qed.

(** A percent step accepts the present values 0 and 100. *)
Lemma validateStep_percent_accepts_bounds (step : Step) (s : WizardState) :
  kind step = KPercent ->
  is_blank (examined step s) = false ->
  Number (examined step s) = 0%float \/ Number (examined step s) = 100%float ->
  validateStep step s = accept.
Proof.
  intros K B H. unfold validateStep. rewrite K.
  rewrite B, andb_false_r. simpl.
  assert (V : isPercentValid (examined step s) = true).
  { unfold isPercentValid. destruct H as [-> | ->]; vm_compute; reflexivity. }
  rewrite V. reflexivity.
Qed.

(** The schema has one percent step, the wastage step, and its markup step
    is a computed step. *)
Lemma schema_percent_steps :
  find_step "wastagePct"
  = Some (mkStep "wastagePct" KPercent (Some "wastagePct") true "Wastage %")
  /\ find_step "rocPct"
     = Some (mkStep "rocPct" KComputed None false "Final (ROC 2.50%)")
  /\ List.filter (fun st => match kind st with KPercent => true | _ => false end) STEPS
     = [mkStep "wastagePct" KPercent (Some "wastagePct") true "Wastage %"].
Proof. repeat split; reflexivity. Qed.

(** The markup step of the schema accepts every draft, whatever its
    [rocPct] field holds, and the checks of the record builder do not
    depend on that field: no range check is ever applied to the markup. *)
Lemma markup_is_never_range_checked (s : WizardState) (v : value) :
  validateStep (mkStep "rocPct" KComputed None false "Final (ROC 2.50%)")
    (with_rocPct v s) = accept
  /\ first_failure requiredChecks (with_rocPct v s)
     = first_failure requiredChecks s.
Proof. split; reflexivity. Qed.

(* ===================================================================== *)
(** ** The formula engine *)
(* ===================================================================== *)

Lemma computeAll_positive_weight (s : WizardState) :
  PrimFloat.ltb 0 (toNum (weightGm s)) = true ->
  c_lbsPerDoz (computeAll s)
  = Some (toNum (weightGm s) / GM_PER_LB_PER_PIECE_IN_DOZEN)%float
  /\ c_lbsWithWastage (computeAll s)
     = Some (toNum (weightGm s) / GM_PER_LB_PER_PIECE_IN_DOZEN
             * (1 + toNum (wastagePct s) / 100))%float
  /\ c_yarnCostDoz (computeAll s)
     = Some (toNum (yarnPricePerLb s)
             * (toNum (weightGm s) / GM_PER_LB_PER_PIECE_IN_DOZEN
                * (1 + toNum (wastagePct s) / 100)))%float.
Proof. intros H. unfold computeAll. rewrite H. simpl. auto. Qed.

Lemma computeAll_nonpositive_weight (s : WizardState) :
  PrimFloat.leb (toNum (weightGm s)) 0 = true ->
  c_lbsPerDoz (computeAll s) = None
  /\ c_lbsWithWastage (computeAll s) = None
  /\ c_yarnCostDoz (computeAll s) = None
  /\ c_totalDoz (computeAll s)
     = (0 + toNum (accessoriesCostDoz s) + toNum (fabricDoz s)
        + toNum (fabricCostDoz s) + toNum (fabricAttachCostDoz s)
        + toNum (cmDoz s))%float.
Proof.
  intros H. apply leb_true_ltb_false in H. unfold computeAll. rewrite H.
  simpl. auto.
Qed.

(** C1, as amended.  For every draft, with [w] the numeric value of its
    weight: when [w > 0], pounds-per-dozen is [w] divided by the constant
    [GM_PER_LB_PER_PIECE_IN_DOZEN = 453.6 / 12] (the double
    37.800000000000004, not the double 37.8) and the two values derived from
    it are present; when [w <= 0] (blank included) the three values are
    null and the total per dozen is the sum of the five dozen-rate costs
    with 0 in place of the yarn cost.  One of the two cases always holds. *)
Theorem computeAll_weight_cases (s : WizardState) :
  let w := toNum (weightGm s) in
  let r := computeAll s in
  (PrimFloat.ltb 0 w = true ->
     c_lbsPerDoz r = Some (w / GM_PER_LB_PER_PIECE_IN_DOZEN)%float
     /\ c_lbsWithWastage r
        = Some (w / GM_PER_LB_PER_PIECE_IN_DOZEN
                * (1 + toNum (wastagePct s) / 100))%float
     /\ c_yarnCostDoz r
        = Some (toNum (yarnPricePerLb s)
                * (w / GM_PER_LB_PER_PIECE_IN_DOZEN
                   * (1 + toNum (wastagePct s) / 100)))%float)
  /\ (PrimFloat.leb w 0 = true ->
        c_lbsPerDoz r = None /\ c_lbsWithWastage r = None
        /\ c_yarnCostDoz r = None
        /\ c_totalDoz r
           = (0 + toNum (accessoriesCostDoz s) + toNum (fabricDoz s)
              + toNum (fabricCostDoz s) + toNum (fabricAttachCostDoz s)
              + toNum (cmDoz s))%float)
  /\ (PrimFloat.ltb 0 w = true \/ PrimFloat.leb w 0 = true)
  /\ (is_blank (weightGm s) = true -> PrimFloat.leb w 0 = true).
Proof.
  intros w r. subst w r.
  split; [exact (computeAll_positive_weight s)|].
  split; [exact (computeAll_nonpositive_weight s)|].
  split.
  - apply finite_ltb_or_leb; [reflexivity | apply toNum_finite].
  - intros H. unfold toNum. rewrite H. reflexivity.
Qed.

(** C2, as amended.  On scenario A the engine returns FOB per piece 2.50 and
    final per piece 2.56 exactly; the intermediate values are the doubles
    9.9999999999999982, 10.499999999999998, 20.999999999999996 and
    29.999999999999996, which round to 10, 10.5, 21 and 30 at two
    decimals. *)
Theorem scenarioA_values :
  computeAll scenarioA
  = {| c_lbsPerDoz := Some 9.9999999999999982%float;
       c_lbsWithWastage := Some 10.499999999999998%float;
       c_yarnCostDoz := Some 20.999999999999996%float;
       c_totalDoz := 29.999999999999996%float;
       c_fobPerPc := 2.5%float;
       c_finalPerPc := 2.56%float;
       c_rocPct := 2.5%float |}
  /\ round2 9.9999999999999982 = 10%float
  /\ round2 10.499999999999998 = 10.5%float
  /\ round2 20.999999999999996 = 21%float
  /\ round2 29.999999999999996 = 30%float.
Proof. repeat split; vm_compute; reflexivity. Qed.

(** C3.  The engine never reads the [rocPct] field of the draft: two drafts
    that differ only there give the same snapshot, whose markup is the
    constant 2.5 and whose final price is the FOB price times 1.025, rounded
    to two decimals. *)
Theorem computeAll_ignores_rocPct (s : WizardState) (v : value) :
  computeAll (with_rocPct v s) = computeAll s
  /\ c_rocPct (computeAll s) = 2.5%float
  /\ c_finalPerPc (computeAll s)
     = round2 (c_fobPerPc (computeAll s) * 1.025)%float.
Proof.
  split; [reflexivity|]. split; [reflexivity|].
  unfold computeAll; simpl.
  replace (1 + FIXED_ROC_PCT / 100)%float with 1.025%float
    by (vm_compute; reflexivity).
  reflexivity.
Qed.

(* ===================================================================== *)
(** ** The wizard state machine *)
(* ===================================================================== *)

Lemma step_at_range (i : Z) (st : Step) :
  step_at i = Some st -> 0 <= i < STEPS_length.
Proof.
  unfold step_at, STEPS_length. destruct (i <? 0) eqn:E; [discriminate|].
  intros H. apply Z.ltb_ge in E.
  assert (L : (Z.to_nat i < List.length STEPS)%nat).
  { apply nth_error_Some. congruence. }
  lia.
Qed.

(** The preview step is the last one. *)
Lemma step_at_not_preview (i : Z) (st : Step) :
  step_at i = Some st -> is_preview st = false -> i < STEPS_length - 1.
Proof.
  intros H P. pose proof (step_at_range _ _ H) as R.
  change STEPS_length with 16 in *.
  destruct (Z.eq_dec i 15) as [->|N]; [|lia].
  vm_compute in H. injection H as <-. discriminate.
Qed.

Lemma wizardPrev_spec (io : IO) (a : App) :
  wizardStepIndex (wizardPrev io a) = Z.max 0 (wizardStepIndex a - 1)
  /\ wizardState (wizardPrev io a) = wizardState a.
Proof.
  unfold wizardPrev, saveDraft. destruct (putDraft_ok io); simpl; auto.
Qed.

Lemma calculateAndSave_index (io : IO) (a : App) :
  wizardStepIndex (calculateAndSave io a) = wizardStepIndex a
  \/ wizardStepIndex (calculateAndSave io a) = 0.
Proof.
  unfold calculateAndSave.
  destruct (wizardState a) as [s|]; [|auto].
  destruct (first_failure requiredChecks s); [auto|].
  destruct (putProduct_ok io); [right|auto].
  unfold clearDraft. destruct (clearDraft_ok io); reflexivity.
Qed.

Lemma wizardNext_rejected (io : IO) (a : App) (step : Step) (v : Validation) :
  validateCurrent a = Some (step, v) -> ok v = false ->
  wizardStepIndex (wizardNext io a) = wizardStepIndex a
  /\ wizardState (wizardNext io a) = wizardState a
  /\ db (wizardNext io a) = db a.
Proof.
  intros H O. unfold wizardNext. rewrite H, O. simpl. auto.
Qed.

Lemma wizardNext_advances (io : IO) (a : App) (step : Step) (v : Validation) :
  validateCurrent a = Some (step, v) -> ok v = true -> is_preview step = false ->
  wizardStepIndex (wizardNext io a) = wizardStepIndex a + 1.
Proof.
  intros H O P. unfold wizardNext. rewrite H, O, P. simpl.
  assert (L : wizardStepIndex a < STEPS_length - 1).
  { unfold validateCurrent in H.
    destruct (step_at (wizardStepIndex a)) as [st|] eqn:E; [|discriminate].
    apply (step_at_not_preview _ st E).
    destruct (wizardState a); [congruence|].
    destruct (kind st) eqn:K; try discriminate; injection H as <- _; exact P. }
  unfold saveDraft. destruct (putDraft_ok io); simpl; lia.
Qed.

Lemma run_op_in_range (op : WizardOp) (a : App) :
  0 <= wizardStepIndex a < STEPS_length ->
  0 <= wizardStepIndex (run_op op a) < STEPS_length.
Proof.
  intros R. assert (N : STEPS_length = 16) by reflexivity.
  destruct op as [io|io|j]; cbn [run_op].
  - unfold wizardNext.
    destruct (validateCurrent a) as [[step v]|]; [|exact R].
    destruct (ok v); simpl; [|exact R].
    destruct (is_preview step).
    + destruct (calculateAndSave_index io (clearWizardError a)) as [E|E];
        rewrite E; simpl; lia.
    + unfold saveDraft. destruct (putDraft_ok io); simpl; lia.
  - destruct (wizardPrev_spec io a) as [E _]. rewrite E. lia.
  - unfold jumpTo. simpl. lia.
Qed.

Lemma run_ops_in_range (ops : list WizardOp) (a : App) :
  0 <= wizardStepIndex a < STEPS_length ->
  0 <= wizardStepIndex (run_ops ops a) < STEPS_length.
Proof.
  unfold run_ops. revert a.
  induction ops as [|op ops IH]; intros a R; simpl; [exact R|].
  apply IH. apply run_op_in_range. exact R.
Qed.

(** C5.  Retreat sets the index to [max 0 (i - 1)] whatever the draft holds;
    an advance whose validation fails leaves the index (and the draft and
    the stores) as they were; an advance whose validation succeeds on a step
    other than the preview sets the index to [i + 1]; from an index within
    [0 .. N-1] every sequence of advance, retreat and jump operations ends
    at an index within [0 .. N-1]; and so does every such sequence after
    the wizard is opened. *)
Theorem wizard_navigation :
  (forall io a,
     wizardStepIndex (wizardPrev io a) = Z.max 0 (wizardStepIndex a - 1)
     /\ wizardState (wizardPrev io a) = wizardState a)
  /\ (forall io a step v,
        validateCurrent a = Some (step, v) -> ok v = false ->
        wizardStepIndex (wizardNext io a) = wizardStepIndex a
        /\ wizardState (wizardNext io a) = wizardState a
        /\ db (wizardNext io a) = db a)
  /\ (forall io a step v,
        validateCurrent a = Some (step, v) -> ok v = true ->
        is_preview step = false ->
        wizardStepIndex (wizardNext io a) = wizardStepIndex a + 1)
  /\ (forall ops a,
        0 <= wizardStepIndex a < STEPS_length ->
        0 <= wizardStepIndex (run_ops ops a) < STEPS_length)
  /\ (forall ops io resume baseData a,
        0 <= wizardStepIndex (run_ops ops (openWizard io resume baseData a))
        < STEPS_length).
Proof.
  split; [exact wizardPrev_spec|].
  split; [exact wizardNext_rejected|].
  split; [exact wizardNext_advances|].
  split; [exact run_ops_in_range|].
  intros ops io resume baseData a. apply run_ops_in_range.
  split; reflexivity.
Qed.

(* ===================================================================== *)
(** ** The record builder *)
(* ===================================================================== *)

Lemma requiredChecks_eq :
  requiredChecks
  = [ mkStep "styleInfo" KStyle None false "STEP 1: Basic Style Information";
      mkStep "yarnPricePerLb" KNumber (Some "yarnPricePerLb") true "Yarn price / LBS";
      mkStep "weightGm" KNumber (Some "weightGm") true "Garments Weight (grams)";
      mkStep "wastagePct" KPercent (Some "wastagePct") true "Wastage %";
      mkStep "cmDoz" KMoneyDoz (Some "cmDoz") true "CM";
      mkStep "rocPct" KComputed None false "Final (ROC 2.50%)" ].
Proof. reflexivity. Qed.

(** A draft that passes the style step has a weight above 0. *)
Lemma style_step_weight (st : Step) (s : WizardState) :
  kind st = KStyle -> ok (validateStep st s) = true ->
  PrimFloat.ltb 0 (toNum (weightGm s)) = true.
Proof.
  intros K. unfold validateStep. rewrite K.
  destruct (String.eqb (trim (styleName s)) ""); [discriminate|].
  destruct (String.eqb (trim (yarnDesc s)) ""); [discriminate|].
  destruct (negb (has_photo_blob s)); [discriminate|].
  destruct (negb (includes GAUGE_OPTIONS (Number (gauge s)))); [discriminate|].
  destruct (PrimFloat.ltb 0 (toNum (weightGm s))); simpl; [reflexivity|discriminate].
Qed.

Lemma checks_passed_weight (s : WizardState) :
  first_failure requiredChecks s = None ->
  PrimFloat.ltb 0 (toNum (weightGm s)) = true.
Proof.
  rewrite requiredChecks_eq. cbn [first_failure].
  match goal with |- context [validateStep ?st s] =>
    destruct (ok (validateStep st s)) eqn:E; [|discriminate];
    intros _; exact (style_step_weight st s eq_refl E) end.
Qed.

Lemma calculateAndSave_aborts (io : IO) (a : App) (s : WizardState) :
  wizardState a = Some s ->
  first_failure requiredChecks s <> None \/ putProduct_ok io = false ->
  db (calculateAndSave io a) = db a
  /\ wizardState (calculateAndSave io a) = wizardState a
  /\ wizardStepIndex (calculateAndSave io a) = wizardStepIndex a.
Proof.
  intros W H. unfold calculateAndSave. rewrite W.
  destruct (first_failure requiredChecks s) as [v|] eqn:F; [simpl; auto|].
  destruct H as [H|H]; [contradiction|]. rewrite H. simpl. auto.
Qed.

Lemma calculateAndSave_commits (io : IO) (a : App) (s : WizardState) :
  wizardState a = Some s ->
  first_failure requiredChecks s = None -> putProduct_ok io = true ->
  products (db (calculateAndSave io a))
  = <[uuid io := buildProduct io s]> (products (db a))
  /\ drafts (db (calculateAndSave io a))
     = (if clearDraft_ok io then delete DRAFT_ID (drafts (db a))
        else drafts (db a))
  /\ wizardState (calculateAndSave io a) = None
  /\ wizardStepIndex (calculateAndSave io a) = 0.
Proof.
  intros W F P. unfold calculateAndSave. rewrite W, F, P.
  unfold clearDraft. destruct (clearDraft_ok io); simpl; auto.
Qed.

(** C6.  With a draft in memory: when a required check fails or the write
    of the record fails, the stores (records and draft slot), the draft in
    memory and the step index are left as they were; when the checks pass
    and the write succeeds, the record is stored, the draft slot is cleared
    (unless that delete itself fails) and the wizard is reset; so the draft
    slot changes only if the record was written. *)
Theorem commit_all_or_nothing (io : IO) (a : App) (s : WizardState) :
  wizardState a = Some s ->
  let a' := calculateAndSave io a in
  (first_failure requiredChecks s <> None \/ putProduct_ok io = false ->
     db a' = db a /\ wizardState a' = wizardState a
     /\ wizardStepIndex a' = wizardStepIndex a)
  /\ (first_failure requiredChecks s = None -> putProduct_ok io = true ->
        products (db a') = <[uuid io := buildProduct io s]> (products (db a))
        /\ drafts (db a')
           = (if clearDraft_ok io then delete DRAFT_ID (drafts (db a))
              else drafts (db a))
        /\ wizardState a' = None /\ wizardStepIndex a' = 0)
  /\ (drafts (db a') <> drafts (db a) ->
        putProduct_ok io = true
        /\ products (db a') !! uuid io = Some (buildProduct io s)).
Proof.
  intros W a'. subst a'.
  split; [exact (calculateAndSave_aborts io a s W)|].
  split; [exact (calculateAndSave_commits io a s W)|].
  intros N.
  destruct (first_failure requiredChecks s) as [v|] eqn:F.
  - destruct N. f_equal. apply (calculateAndSave_aborts io a s W).
    left. rewrite F. discriminate.
  - destruct (putProduct_ok io) eqn:P.
    + split; [reflexivity|].
      destruct (calculateAndSave_commits io a s W F P) as (E & _).
      rewrite E. apply lookup_insert_eq.
    + destruct N. f_equal. apply (calculateAndSave_aborts io a s W).
      right. exact P.
Qed.

(** The record store changes only by receiving the record that was built. *)
Lemma calculateAndSave_stores_builtRecord (io : IO) (a : App) :
  products (db (calculateAndSave io a))
  = match builtRecord io a with
    | Some p => if putProduct_ok io then <[p_id p := p]> (products (db a))
                else products (db a)
    | None => products (db a)
    end.
Proof.
  unfold builtRecord, calculateAndSave.
  destruct (wizardState a) as [s|]; [|reflexivity].
  destruct (first_failure requiredChecks s) as [v|]; [reflexivity|].
  destruct (putProduct_ok io); [|reflexivity].
  unfold clearDraft. destruct (clearDraft_ok io); reflexivity.
Qed.

(** C10.  Every record the commit builds and hands to the store has a
    stored weight above 0, and its frozen snapshot has pounds-per-dozen,
    pounds-with-wastage and yarn cost present (not null); when the write
    succeeds it is this record that the store receives. *)
Theorem committed_record_has_positive_weight (io : IO) (a : App) (p : Product) :
  builtRecord io a = Some p ->
  (exists w l lw y,
     p_weightGm p = Some w /\ PrimFloat.ltb 0 w = true
     /\ s_lbsPerDoz (p_computed p) = Some l
     /\ s_lbsWithWastage (p_computed p) = Some lw
     /\ s_yarnCostDoz (p_computed p) = Some y)
  /\ (putProduct_ok io = true ->
      products (db (calculateAndSave io a)) = <[p_id p := p]> (products (db a))).
Proof.
  intros B. split.
  - unfold builtRecord in B.
    destruct (wizardState a) as [s|]; [|discriminate].
    destruct (first_failure requiredChecks s) as [v|] eqn:F; [discriminate|].
    injection B as <-.
    pose proof (checks_passed_weight s F) as W.
    destruct (computeAll_positive_weight s W) as (H1 & H2 & H3).
    eexists _, _, _, _. unfold buildProduct.
    cbn [p_weightGm p_computed s_lbsPerDoz s_lbsWithWastage s_yarnCostDoz].
    rewrite H1, H2, H3. repeat split; try reflexivity. exact W.
  - intros P. rewrite calculateAndSave_stores_builtRecord, B, P. reflexivity.
Qed.

(* ===================================================================== *)
(** ** Opening the wizard *)
(* ===================================================================== *)

(** Without a draft to resume the wizard opens on step 0 with the schema
    defaults; a resumed draft keeps its fields, except that a blank wastage
    becomes 8 and a blank markup becomes 0. *)
Lemma openWizard_spec (io : IO) (a : App) :
  (loadDraft io a = None ->
   forall resume,
     wizardState (openWizard io resume None a) = Some defaultWizardState
     /\ wizardStepIndex (openWizard io resume None a) = 0)
  /\ wizardState (openWizard io false None a) = Some defaultWizardState
  /\ wastagePct defaultWizardState = Num 8
  /\ rocPct defaultWizardState = Num FIXED_ROC_PCT
  /\ (forall d, loadDraft io a = Some d ->
        exists ws, wizardState (openWizard io true None a) = Some ws
          /\ wizardStepIndex (openWizard io true None a) = 0
          /\ wastagePct ws = (if is_blank (wastagePct d) then Num 8 else wastagePct d)
          /\ rocPct ws = (if is_blank (rocPct d) then Num 0 else rocPct d)).
Proof.
  split; [|split; [|split; [|split]]]; try reflexivity.
  - intros L resume. unfold openWizard. rewrite L.
    destruct resume; split; reflexivity.
  - intros d L. unfold openWizard. rewrite L. eexists. simpl.
    split; [reflexivity|]. auto.
Qed.

End Engine.

(* ===================================================================== *)
(** ** Rounding to two decimals *)
(* ===================================================================== *)


(** *** Rounding to nearest in the specification of binary64 *)





















(** *** One [round2] on a two-decimal amount *)







(* ===================================================================== *)
(** ** The formula engine on sample drafts *)
(* ===================================================================== *)

Lemma computeAll_weight_cases_witness :
  c_lbsPerDoz (computeAll integerLiteral scenarioA)
  = Some (378 / GM_PER_LB_PER_PIECE_IN_DOZEN)%float
  /\ c_lbsPerDoz (computeAll integerLiteral defaultWizardState) = None.
Proof.
  split.
  - destruct (computeAll_weight_cases integerLiteral scenarioA) as (H & _).
    apply H. vm_compute. reflexivity.
  - destruct (computeAll_weight_cases integerLiteral defaultWizardState)
      as (_ & H & _).
    apply H. vm_compute. reflexivity.
Defined.

(** C1, as stated, fails: at 378 grams the engine returns
    9.9999999999999982, while 378 divided by 37.8 is 10. *)
Lemma lbsPerDoz_is_not_weight_over_37_8 :
  PrimFloat.ltb 0 (toNum integerLiteral (weightGm scenarioA)) = true
  /\ c_lbsPerDoz (computeAll integerLiteral scenarioA)
     = Some 9.9999999999999982%float
  /\ (toNum integerLiteral (weightGm scenarioA) / 37.8)%float = 10%float
  /\ c_lbsPerDoz (computeAll integerLiteral scenarioA)
     <> Some (toNum integerLiteral (weightGm scenarioA) / 37.8)%float.
Proof.
  split; [vm_compute; reflexivity|]. split; [vm_compute; reflexivity|].
  split; [vm_compute; reflexivity|].
  apply Some_float_neq; vm_compute; reflexivity.
Qed.

(** C2, as stated, fails: pounds-per-dozen of scenario A is not 10.0. *)
Lemma scenarioA_lbsPerDoz_is_not_10 :
  c_lbsPerDoz (computeAll integerLiteral scenarioA) <> Some 10%float.
Proof.
  apply Some_float_neq; vm_compute; reflexivity.
Qed.

(* ===================================================================== *)
(** ** The wizard on sample drafts *)
(* ===================================================================== *)

(** C4.  With 150 in the markup field the markup step of the schema accepts
    the draft, all checks of the record builder pass, and the record that
    is stored carries 150 as its markup percent; the percent rule itself
    would reject 150. *)
Theorem markup_150_is_accepted_and_stored :
  find_step "rocPct" = Some (mkStep "rocPct" KComputed None false "Final (ROC 2.50%)")
  /\ validateStep integerLiteral
       (mkStep "rocPct" KComputed None false "Final (ROC 2.50%)") markup150
     = accept
  /\ first_failure integerLiteral requiredChecks markup150 = None
  /\ i_rocPct (p_inputs (buildProduct integerLiteral sampleIO markup150))
     = Some 150%float
  /\ products (db (calculateAndSave integerLiteral sampleIO (wizardAt 15 markup150)))
       !! uuid sampleIO
     = Some (buildProduct integerLiteral sampleIO markup150)
  /\ isPercentValid integerLiteral (Num 150) = false.
Proof.
  split; [reflexivity|]. split; [reflexivity|].
  split; [vm_compute; reflexivity|]. split; [vm_compute; reflexivity|].
  split; [|vm_compute; reflexivity].
  destruct (calculateAndSave_commits integerLiteral sampleIO
              (wizardAt 15 markup150) markup150 eq_refl) as (H & _);
    [vm_compute; reflexivity | reflexivity |].
  rewrite H. apply lookup_insert_eq.
Qed.

(** Scenario B: with a blank weight the style step is refused and the
    wizard stays on it. *)
Example scenarioB_weight_required :
  let a := wizardNext integerLiteral sampleIO
             (wizardAt 0 (with_weightGm (Str "") scenarioA)) in
  wizardError a = Some "Garment Weight (grams) must be greater than 0."
  /\ wizardStepIndex a = 0
  /\ builtRecord integerLiteral sampleIO
       (wizardAt 15 (with_weightGm (Str "") scenarioA)) = None.
Proof. repeat split; reflexivity. Qed.

(** Scenario C: a wastage of 150 is refused and the wizard stays on the
    wastage step. *)
Example scenarioC_wastage_out_of_range :
  let a := wizardNext integerLiteral sampleIO (wizardAt 4 scenarioC) in
  wizardError a = Some "Wastage % must be between 0 and 100."
  /\ wizardStepIndex a = 4.
Proof. split; reflexivity. Qed.

(** Scenario D: blank optional costs count as 0 and the commit goes
    through. *)
Example scenarioD_blank_costs_are_zero :
  first_failure integerLiteral requiredChecks scenarioD = None
  /\ i_accessoriesCostDoz (p_inputs (buildProduct integerLiteral sampleIO scenarioD))
     = Some 0%float
  /\ c_fobPerPc (computeAll integerLiteral scenarioD) = 2.25%float
  /\ wizardState (calculateAndSave integerLiteral sampleIO (wizardAt 15 scenarioD))
     = None.
Proof. repeat split; vm_compute; reflexivity. Qed.

Lemma wizard_navigation_witness :
  wizardStepIndex (wizardNext integerLiteral sampleIO (wizardAt 4 scenarioC)) = 4
  /\ wizardStepIndex (wizardNext integerLiteral sampleIO (wizardAt 4 scenarioA)) = 4 + 1
  /\ 0 <= wizardStepIndex
            (run_ops integerLiteral
               [OpAdvance sampleIO; OpJump 99; OpRetreat sampleIO]
               (wizardAt 0 scenarioA)) < STEPS_length.
Proof.
  destruct (wizard_navigation integerLiteral) as (_ & H2 & H3 & H4 & _).
  split; [|split].
  - eapply (H2 sampleIO (wizardAt 4 scenarioC)); reflexivity.
  - eapply (H3 sampleIO (wizardAt 4 scenarioA)); reflexivity.
  - apply H4. split; reflexivity.
Defined.

Lemma commit_all_or_nothing_witness :
  db (calculateAndSave integerLiteral failingIO (wizardAt 15 scenarioA)) = emptyDB
  /\ db (calculateAndSave integerLiteral sampleIO (wizardAt 15 scenarioC)) = emptyDB
  /\ wizardState (calculateAndSave integerLiteral sampleIO (wizardAt 15 scenarioA)) = None.
Proof.
  split; [|split].
  - destruct (commit_all_or_nothing integerLiteral failingIO
                (wizardAt 15 scenarioA) scenarioA eq_refl) as (H & _).
    apply H. right. reflexivity.
  - destruct (commit_all_or_nothing integerLiteral sampleIO
                (wizardAt 15 scenarioC) scenarioC eq_refl) as (H & _).
    apply H. left. discriminate.
  - destruct (commit_all_or_nothing integerLiteral sampleIO
                (wizardAt 15 scenarioA) scenarioA eq_refl) as (_ & H & _).
    apply H; reflexivity.
Defined.

Lemma committed_record_has_positive_weight_witness :
  exists w l lw y,
    p_weightGm (buildProduct integerLiteral sampleIO scenarioA) = Some w
    /\ PrimFloat.ltb 0 w = true
    /\ s_lbsPerDoz (p_computed (buildProduct integerLiteral sampleIO scenarioA)) = Some l
    /\ s_lbsWithWastage (p_computed (buildProduct integerLiteral sampleIO scenarioA)) = Some lw
    /\ s_yarnCostDoz (p_computed (buildProduct integerLiteral sampleIO scenarioA)) = Some y.
Proof.
  apply (committed_record_has_positive_weight integerLiteral sampleIO
           (wizardAt 15 scenarioA)).
  reflexivity.
Defined.

(** C8.  Resuming a draft saved with blank wastage and markup fields opens
    the wizard on step 0 with wastage 8 and markup 0, while the schema
    default of the markup field is the fixed constant 2.5. *)
Theorem resume_blank_markup_becomes_zero :
  let a := openWizard sampleIO true None (appWithDraft blankPercents) in
  option_map wastagePct (wizardState a) = Some (Num 8)
  /\ option_map rocPct (wizardState a) = Some (Num 0)
  /\ wizardStepIndex a = 0
  /\ rocPct defaultWizardState = Num FIXED_ROC_PCT
  /\ FIXED_ROC_PCT = 2.5%float.
Proof.
  assert (L : loadDraft sampleIO (appWithDraft blankPercents) = Some blankPercents).
  { unfold loadDraft, appWithDraft. simpl. rewrite lookup_singleton_eq. reflexivity. }
  destruct (openWizard_spec sampleIO (appWithDraft blankPercents))
    as (_ & _ & _ & _ & H).
  destruct (H _ L) as (ws & E1 & E2 & E3 & E4).
  cbv zeta. rewrite E1, E2. cbn [option_map]. rewrite E3, E4.
  repeat split; reflexivity.
Qed.

(* ===================================================================== *)
(** ** Backup and restore *)
(* ===================================================================== *)

(** *** Base64 *)

Example base64_values :
  base64_encode [Byte.x4d; Byte.x61; Byte.x6e] = "TWFu"
  /\ base64_encode [Byte.x4d; Byte.x61] = "TWE="
  /\ base64_encode [Byte.x4d] = "TQ=="
  /\ atob "TWE=" = Some "Ma" /\ atob " TW Fu " = Some "Man"
  /\ atob "TWFuT" = None /\ atob "TW-u" = None
  /\ blobToDataUrl (mkBlob [Byte.x4d; Byte.x61] "image/jpeg")
     = "data:image/jpeg;base64,TWE="
  /\ dataUrlToBlob "data:image/jpeg;base64,TWE="
     = Some (mkBlob [Byte.x4d; Byte.x61] "image/jpeg")
  /\ dataUrlToBlob "TWE=" = None.
Proof. repeat split; vm_compute; reflexivity. Qed.

Lemma list_ind3 {A : Type} (P : list A -> Prop) :
  P [] -> (forall a, P [a]) -> (forall a b, P [a; b]) ->
  (forall a b c r, P r -> P (a :: b :: c :: r)) ->
  forall l, P l.
Proof.
  intros H0 H1 H2 H3.
  assert (T : forall l, P l /\ (forall a, P (a :: l)) /\ (forall a b, P (a :: b :: l))).
  { induction l as [|x l (IH0 & IH1 & IH2)]; [auto|].
    split; [apply IH1|]. split; [intros a; apply IH2|].
    intros a b. apply H3. exact IH0. }
  intros l. apply T.
Qed.

Lemma sextet_cases (n : N) :
  (n < 64)%N -> List.In n (map N.of_nat (seq 0 64)).
Proof.
  intros H. apply List.in_map_iff. exists (N.to_nat n). split; [lia|].
  apply List.in_seq. lia.
Qed.

Lemma b64_char_facts (n : N) :
  (n < 64)%N ->
  b64_index (b64_char n) = Some n
  /\ is_ascii_whitespace (b64_char n) = false
  /\ Ascii.eqb (b64_char n) "=" = false
  /\ Ascii.eqb (b64_char n) "," = false.
Proof.
  intros H.
  assert (C : forallb
                (fun n => match b64_index (b64_char n) with
                          | Some m => N.eqb m n
                          | None => false
                          end
                          && negb (is_ascii_whitespace (b64_char n))
                          && negb (Ascii.eqb (b64_char n) "=")
                          && negb (Ascii.eqb (b64_char n) ","))
                (map N.of_nat (seq 0 64)) = true) by (vm_compute; reflexivity).
  rewrite List.forallb_forall in C. specialize (C n (sextet_cases n H)).
  repeat (apply andb_prop in C as [C ?]).
  destruct (b64_index (b64_char n)) as [m|]; [|discriminate].
  apply N.eqb_eq in C. subst m.
  repeat split; try reflexivity; apply negb_true_iff; assumption.
Qed.

Lemma byte_bound (b : Byte.byte) : (Byte.to_N b < 256)%N.
Proof. pose proof (Byte.to_N_bounded b). lia. Qed.

Lemma to_sextets_bounded (bs : list Byte.byte) :
  Forall (fun n => (n < 64)%N) (to_sextets bs).
Proof.
  induction bs as [|a|a b|a b c r IH] using list_ind3; cbn [to_sextets].
  - constructor.
  - pose proof (byte_bound a).
    repeat (constructor; [div_lia|]). constructor.
  - pose proof (byte_bound a). pose proof (byte_bound b).
    repeat (constructor; [div_lia|]). constructor.
  - pose proof (byte_bound a). pose proof (byte_bound b). pose proof (byte_bound c).
    repeat (constructor; [div_lia|]). exact IH.
Qed.


Lemma decode_to_sextets (bs : list Byte.byte) :
  decode_sextets (to_sextets bs) = map Byte.to_N bs.
Proof.
  induction bs as [|a|a b|a b c r IH] using list_ind3;
    cbn [to_sextets decode_sextets map].
  - reflexivity.
  - pose proof (byte_bound a). f_equal. div_lia.
  - pose proof (byte_bound a). pose proof (byte_bound b).
    f_equal; [|f_equal]; div_lia.
  - pose proof (byte_bound a). pose proof (byte_bound b). pose proof (byte_bound c).
    rewrite IH. f_equal; [|f_equal; [|f_equal]]; div_lia.
Qed.

Lemma padding_cases (bs : list Byte.byte) :
  padding bs = [] \/ padding bs = ["="%char] \/ padding bs = ["="; "="]%char.
Proof.
  induction bs as [|a|a b|a b c r IH] using list_ind3; cbn [padding]; auto.
Qed.

Lemma encoded_length (bs : list Byte.byte) :
  ((List.length (to_sextets bs) + List.length (padding bs)) mod 4 = 0
   /\ (padding bs = [] \/ to_sextets bs <> [])
   /\ List.length (to_sextets bs) mod 4 <> 1)%nat.
Proof.
  induction bs as [|a|a b|a b c r (IH1 & IH2 & IH3)] using list_ind3;
    cbn [to_sextets padding List.length].
  - repeat split; auto.
  - repeat split; auto.
  - repeat split; auto.
  - split; [|split].
    + div_lia.
    + right. discriminate.
    + div_lia.
Qed.

Lemma filter_all {A : Type} (f : A -> bool) (l : list A) :
  Forall (fun x => f x = true) l -> List.filter f l = l.
Proof.
  induction 1 as [|x l H _ IH]; simpl; [reflexivity|]. rewrite H, IH. reflexivity.
Qed.

Lemma strip_padding_encoded (X pad : list ascii) :
  Forall (fun c => Ascii.eqb c "=" = false) X ->
  pad = [] \/ (X <> [] /\ (pad = ["="%char] \/ pad = ["="; "="]%char)) ->
  strip_padding (X ++ pad)%list = X.
Proof.
  intros F H. unfold strip_padding. rewrite List.rev_app_distr.
  assert (L : X = [] \/ exists Y c, X = (Y ++ [c])%list /\ Ascii.eqb c "=" = false).
  { destruct X as [|x X'] using rev_ind; [auto|]. right. exists X', x.
    split; [reflexivity|]. apply List.Forall_app in F as [_ F]. inversion F; assumption. }
  destruct H as [->|[N [->| ->]]]; simpl.
  - destruct L as [->|(Y & c & -> & E)]; [reflexivity|].
    rewrite List.rev_app_distr. simpl. rewrite E. rewrite List.app_nil_r. reflexivity.
  - destruct L as [->|(Y & c & -> & E)]; [contradiction|].
    rewrite List.rev_app_distr. simpl. rewrite E.
    rewrite List.rev_involutive. reflexivity.
  - destruct L as [->|(Y & c & -> & E)]; [contradiction|].
    rewrite List.rev_involutive. reflexivity.
Qed.

Lemma sextets_of_chars (sx : list N) :
  Forall (fun n => (n < 64)%N) sx -> sextets (map b64_char sx) = Some sx.
Proof.
  induction 1 as [|n l H _ IH]; [reflexivity|]. cbn [map sextets].
  destruct (b64_char_facts n H) as (E & _). rewrite E, IH. reflexivity.
Qed.

Lemma bytes_of_binary_string (bs : list Byte.byte) :
  map byte_of_ascii
    (list_ascii_of_string
       (string_of_list_ascii (map ascii_of_N (map Byte.to_N bs)))) = bs.
Proof.
  rewrite list_ascii_of_string_of_list_ascii, List.map_map, List.map_map.
  induction bs as [|b r IH]; [reflexivity|]. cbn [map]. rewrite IH. f_equal.
  rewrite <- ascii_of_byte_via_N. apply byte_of_ascii_of_byte.
Qed.

(** [atob] undoes the encoding of every byte sequence. *)
Lemma atob_base64_encode (bs : list Byte.byte) :
  atob (base64_encode bs)
  = Some (string_of_list_ascii (map ascii_of_N (map Byte.to_N bs))).
Proof.
  unfold atob, base64_encode. rewrite list_ascii_of_string_of_list_ascii.
  pose proof (to_sextets_bounded bs) as B.
  assert (FX : Forall (fun c => Ascii.eqb c "=" = false) (map b64_char (to_sextets bs))).
  { apply List.Forall_map. eapply List.Forall_impl; [|exact B].
    intros n Hn. apply (b64_char_facts n Hn). }
  destruct (encoded_length bs) as (L1 & L2 & L3).
  rewrite filter_all.
  2:{ apply List.Forall_app. split.
      - apply List.Forall_map. eapply List.Forall_impl; [|exact B].
        intros n Hn. cbn beta. destruct (b64_char_facts n Hn) as (_ & W & _).
        rewrite W. reflexivity.
      - destruct (padding_cases bs) as [-> | [-> | ->]]; repeat constructor. }
  rewrite List.length_app, List.length_map, L1. cbn [Nat.eqb].
  rewrite strip_padding_encoded; [|exact FX|].
  2:{ destruct L2 as [L2|L2]; [left; exact L2|].
      destruct (padding_cases bs) as [P|P]; [left; exact P|].
      right. split; [|exact P]. destruct (to_sextets bs); [contradiction|discriminate]. }
  rewrite List.length_map.
  destruct (Nat.eqb (List.length (to_sextets bs) mod 4) 1) eqn:E.
  { apply Nat.eqb_eq in E. contradiction. }
  rewrite (sextets_of_chars _ B), decode_to_sextets. reflexivity.
Qed.

(** *** Data URLs *)

Lemma append_cons (c : ascii) (a b : string) : String c a ++ b = String c (a ++ b).
Proof. reflexivity. Qed.

Lemma append_nil (b : string) : "" ++ b = b.
Proof. reflexivity. Qed.

Lemma string_app_assoc (a b c : string) : (a ++ b) ++ c = a ++ (b ++ c).
Proof.
  induction a as [|x a IH]; [reflexivity|].
  rewrite !append_cons, IH. reflexivity.
Qed.

Lemma string_forallb_app (f : ascii -> bool) (a b : string) :
  string_forallb f (a ++ b) = string_forallb f a && string_forallb f b.
Proof.
  induction a as [|x a IH]; [reflexivity|].
  rewrite append_cons. cbn [string_forallb]. rewrite IH. apply andb_assoc.
Qed.

Lemma string_forallb_impl (f g : ascii -> bool) (s : string) :
  (forall c, f c = true -> g c = true) ->
  string_forallb f s = true -> string_forallb g s = true.
Proof.
  intros I. induction s as [|c s IH]; simpl; [reflexivity|].
  intros H. apply andb_prop in H as [H1 H2]. rewrite (I c H1), (IH H2). reflexivity.
Qed.

Lemma string_forallb_of_list (f : ascii -> bool) (l : list ascii) :
  Forall (fun c => f c = true) l ->
  string_forallb f (string_of_list_ascii l) = true.
Proof.
  induction 1 as [|c l H _ IH]; simpl; [reflexivity|]. rewrite H, IH. reflexivity.
Qed.

Lemma split_comma_free (s : string) :
  string_forallb not_comma s = true -> split "," s = [s].
Proof.
  induction s as [|c s IH]; simpl; [reflexivity|].
  intros H. apply andb_prop in H as [H1 H2]. unfold not_comma in H1.
  apply negb_true_iff in H1. rewrite H1, (IH H2). reflexivity.
Qed.

Lemma split_at_comma (x y : string) :
  string_forallb not_comma x = true ->
  split "," (x ++ String "," y) = x :: split "," y.
Proof.
  induction x as [|c x IH]; [reflexivity|].
  rewrite append_cons. cbn [string_forallb split].
  intros H. apply andb_prop in H as [H1 H2]. unfold not_comma in H1.
  apply negb_true_iff in H1. rewrite H1, (IH H2). reflexivity.
Qed.

Lemma plain_type_char_facts (c : ascii) :
  plain_type_char c = true ->
  printable c = true /\ lower c = c /\ not_comma c = true
  /\ Ascii.eqb ";" c = false /\ is_line_terminator c = false.
Proof.
  destruct c as [[] [] [] [] [] [] [] []]; vm_compute; intros H;
    try discriminate H; repeat split; reflexivity.
Qed.

Lemma base64_encode_comma_free (bs : list Byte.byte) :
  string_forallb not_comma (base64_encode bs) = true.
Proof.
  unfold base64_encode. apply string_forallb_of_list. apply List.Forall_app. split.
  - apply List.Forall_map. eapply List.Forall_impl; [|apply to_sextets_bounded].
    intros n Hn. cbn beta. unfold not_comma.
    destruct (b64_char_facts n Hn) as (_ & _ & _ & E). rewrite E. reflexivity.
  - destruct (padding_cases bs) as [-> | [-> | ->]]; repeat constructor.
Qed.

Lemma lazy_until_base64 (t : string) :
  string_forallb plain_type_char t = true ->
  lazy_until ";base64" (t ++ ";base64") = Some t.
Proof.
  induction t as [|c t IH]; [reflexivity|].
  intros H. cbn [string_forallb] in H. apply andb_prop in H as [H1 H2].
  destruct (plain_type_char_facts c H1) as (_ & _ & _ & S & L).
  rewrite append_cons. cbn [lazy_until starts_with]. rewrite S, L. cbn [andb].
  rewrite (IH H2). reflexivity.
Qed.

Lemma normalize_plain_type (t : string) :
  string_forallb plain_type_char t = true -> normalize_type t = t.
Proof.
  intros H. unfold normalize_type.
  rewrite (string_forallb_impl plain_type_char printable t); [|
    intros c Hc; apply (plain_type_char_facts c Hc) | exact H].
  induction t as [|c t IH]; [reflexivity|].
  cbn [string_forallb] in H. apply andb_prop in H as [H1 H2].
  cbn [string_map]. rewrite (IH H2).
  destruct (plain_type_char_facts c H1) as (_ & -> & _). reflexivity.
Qed.

Lemma or_default_nonempty (t d : string) :
  String.eqb t "" = false -> or_default t d = t.
Proof. intros H. unfold or_default. rewrite H. reflexivity. Qed.

(** Reading back the data URL of a blob of a plain type gives the blob. *)
Lemma dataUrlToBlob_blobToDataUrl (b : Blob) :
  plain_type (blob_type b) = true ->
  dataUrlToBlob (blobToDataUrl b) = Some b.
Proof.
  destruct b as [bs t]. unfold plain_type. cbn [blob_type blob_bytes].
  intros H. apply andb_prop in H as [N P]. apply negb_true_iff in N.
  unfold dataUrlToBlob, blobToDataUrl. cbn [blob_type blob_bytes].
  rewrite (or_default_nonempty _ _ N).
  assert (E : "data:" ++ t ++ ";base64," ++ base64_encode bs
              = ("data:" ++ t ++ ";base64") ++ String "," (base64_encode bs)).
  { change (";base64," ++ base64_encode bs)
      with (";base64" ++ String "," (base64_encode bs)).
    rewrite <- !string_app_assoc. reflexivity. }
  rewrite E, split_at_comma.
  2:{ rewrite !string_forallb_app.
      rewrite (string_forallb_impl plain_type_char not_comma t); [reflexivity| |exact P].
      intros c Hc. apply (plain_type_char_facts c Hc). }
  rewrite (split_comma_free _ (base64_encode_comma_free bs)).
  cbn [nth].
  assert (M : match_data_base64 ("data:" ++ t ++ ";base64") = Some t).
  { rewrite !append_cons, append_nil.
    cbn [match_data_base64 starts_with string_drop Ascii.eqb Bool.eqb andb].
    rewrite (lazy_until_base64 t P). reflexivity. }
  rewrite M, (or_default_nonempty _ _ N), atob_base64_encode.
  rewrite bytes_of_binary_string, (normalize_plain_type t P). reflexivity.
Qed.

(** *** The backup file *)

Lemma finite_not_nan (n : float) : Number_isFinite n = true -> is_nan n = false.
Proof. unfold Number_isFinite, is_nan. destruct (Prim2SF n); congruence. Qed.

Lemma eqb_zero_positive_zero (n : float) :
  is_negative_zero n = false -> PrimFloat.eqb n 0 = true -> n = 0%float.
Proof.
  unfold is_negative_zero. rewrite FloatAxioms.eqb_spec. intros Z E.
  apply Prim2SF_inj. change (Prim2SF 0) with (S754_zero false) in *.
  destruct (Prim2SF n) as [[]| | |s m e]; cbn in *; try discriminate; try reflexivity.
  all: try (destruct s; discriminate).
Qed.

Lemma JSON_number_ok (n : float) :
  Number_isFinite n = true -> is_negative_zero n = false ->
  JSON_number n = Some n.
Proof.
  intros F Z. unfold JSON_number. rewrite F.
  destruct (PrimFloat.eqb n 0) eqn:E; [|reflexivity].
  rewrite (eqb_zero_positive_zero n Z E). reflexivity.
Qed.

Lemma JSON_slot_ok (x : number_or_null) : slot_ok x = true -> JSON_slot x = x.
Proof.
  destruct x as [n|]; [|reflexivity]. cbn [slot_ok JSON_slot].
  intros H. apply andb_prop in H as [F Z]. apply negb_true_iff in Z.
  apply JSON_number_ok; assumption.
Qed.

Lemma dimension_kept (v : value) :
  dimension_ok v = true -> or_null (JSON_value v) = v.
Proof.
  destruct v as [| |n|s]; cbn [dimension_ok JSON_value]; try discriminate.
  - reflexivity.
  - intros H. apply andb_prop in H as [F Z]. apply negb_true_iff in Z.
    unfold JSON_number. rewrite F, Z. unfold or_null, truthy.
    rewrite (finite_not_nan n F), Z. reflexivity.
  - intros H. unfold or_null, truthy. rewrite H. reflexivity.
Qed.

Lemma JSON_inputs_ok (i : Inputs) : inputs_ok i = true -> JSON_inputs i = i.
Proof.
  destruct i. unfold inputs_ok, JSON_inputs. cbn -[slot_ok JSON_slot].
  intros H. repeat (apply andb_prop in H as [H ?]).
  rewrite !JSON_slot_ok by assumption. reflexivity.
Qed.

Lemma JSON_snapshot_ok (c : Snapshot) : snapshot_ok c = true -> JSON_snapshot c = c.
Proof.
  destruct c. unfold snapshot_ok, JSON_snapshot. cbn -[slot_ok JSON_slot].
  intros H. repeat (apply andb_prop in H as [H ?]).
  rewrite !JSON_slot_ok by assumption. reflexivity.
Qed.

Lemma data_url_not_empty (b : Blob) : String.eqb (blobToDataUrl b) "" = false.
Proof. reflexivity. Qed.

Lemma importItem_exportItem (p : Product) :
  exportable p = true -> importItem (JSON_item (exportItem p)) = Some p.
Proof.
  destruct p as [i ca ua av cv sn yd co g w cu ph inp cmp].
  unfold exportable. cbn -[slot_ok inputs_ok snapshot_ok photo_ok].
  intros H. repeat (apply andb_prop in H as [H ?]).
  unfold importItem, JSON_item, exportItem, with_photo.
  cbn -[JSON_slot JSON_inputs JSON_snapshot blobToDataUrl dataUrlToBlob
        JSON_value or_null or_default].
  rewrite !JSON_slot_ok, JSON_inputs_ok, JSON_snapshot_ok by assumption.
  destruct ph as [[b t wd ht]|]; [|reflexivity].
  match goal with P : photo_ok _ = true |- _ => unfold photo_ok in P;
    cbn [ph_blob ph_type ph_width ph_height] in P end.
  destruct b as [b|]; [|discriminate].
  repeat match goal with P : (_ && _) = true |- _ => apply andb_prop in P as [P ?] end.
  cbn -[JSON_slot JSON_inputs JSON_snapshot blobToDataUrl dataUrlToBlob
        JSON_value or_null or_default].
  rewrite data_url_not_empty. cbn [negb].
  rewrite dataUrlToBlob_blobToDataUrl by assumption.
  match goal with P : negb (String.eqb t "") = true |- _ =>
    apply negb_true_iff in P; rewrite !(or_default_nonempty t _ P) end.
  rewrite !dimension_kept by assumption. reflexivity.
Qed.

Lemma importItems_exportItems (items : list Product) :
  forallb exportable items = true ->
  importItems (map JSON_item (map exportItem items)) = Some items.
Proof.
  induction items as [|p r IH]; [reflexivity|]. cbn [forallb map importItems].
  intros H. apply andb_prop in H as [H1 H2].
  rewrite (importItem_exportItem p H1), (IH H2). reflexivity.
Qed.

(** C9, as amended.  For every list of records whose number slots are
    [null] or finite numbers other than negative zero and whose photo is
    either [null] or carries a blob of a plain type (non-empty, lower case,
    printable, without comma or semicolon) with a non-empty type field and
    kept dimensions, exporting a backup and importing it gives back the same
    list: every style attribute, input, snapshot field and photo.  For every
    byte sequence, the bytes decoded from its base64 text are the bytes
    themselves. *)
Theorem backup_round_trip (exportedAt : string) (items : list Product) :
  forallb exportable items = true ->
  importBackup (JSON_roundtrip (exportBackup exportedAt items)) = Some items
  /\ (forall bs : list Byte.byte,
        option_map (fun bin => map byte_of_ascii (list_ascii_of_string bin))
          (atob (base64_encode bs)) = Some bs).
Proof.
  intros H. split.
  - unfold importBackup, JSON_roundtrip, exportBackup. cbn [b_items].
    apply importItems_exportItems. exact H.
  - intros bs. rewrite atob_base64_encode. cbn [option_map].
    rewrite bytes_of_binary_string. reflexivity.
Qed.

Lemma backup_round_trip_witness :
  importBackup
    (JSON_roundtrip
       (exportBackup "2026-02-01T10:00:00.000Z"
          [buildProduct integerLiteral sampleIO scenarioA]))
  = Some [buildProduct integerLiteral sampleIO scenarioA].
Proof.
  apply (backup_round_trip "2026-02-01T10:00:00.000Z"
           [buildProduct integerLiteral sampleIO scenarioA]).
  vm_compute. reflexivity.
Defined.

(** C9, as stated, fails.  A record whose photo has no blob is exported
    with [photo: null] and comes back without its photo object; and the
    record the wizard builds from a draft with weight and yarn price 1e308,
    which passes every check, has an infinite yarn cost that comes back as
    [null]. *)
Lemma backup_round_trip_loses_fields :
  importBackup (JSON_roundtrip (exportBackup "2026-02-01T10:00:00.000Z" [photolessRecord]))
  = Some [with_photo photolessRecord None]
  /\ importBackup (JSON_roundtrip (exportBackup "2026-02-01T10:00:00.000Z" [photolessRecord]))
     <> Some [photolessRecord]
  /\ first_failure integerLiteral requiredChecks hugeDraft = None
  /\ s_yarnCostDoz (p_computed (buildProduct integerLiteral sampleIO hugeDraft))
     = Some PrimFloat.infinity
  /\ option_map (map (fun p => s_yarnCostDoz (p_computed p)))
       (importBackup
          (JSON_roundtrip
             (exportBackup "2026-02-01T10:00:00.000Z"
                [buildProduct integerLiteral sampleIO hugeDraft])))
     = Some [None].
Proof.
  assert (E : importBackup
                (JSON_roundtrip
                   (exportBackup "2026-02-01T10:00:00.000Z" [photolessRecord]))
              = Some [with_photo photolessRecord None]) by reflexivity.
  split; [exact E|]. split.
  - rewrite E. intros H.
    apply (f_equal (fun o => match o with
                             | Some [p] => match p_photo p with Some _ => true | None => false end
                             | _ => false
                             end)) in H.
    discriminate H.
  - repeat split; vm_compute; reflexivity.
Qed.

(* ===================================================================== *)
(** ** Text: trimming and escaping *)
(* ===================================================================== *)

Lemma trim_start_clean (s : string) : starts_clean (trim_start s) = true.
Proof.
  induction s as [|c s IH]; [reflexivity|]. cbn [trim_start].
  destruct (is_trim_space c) eqn:E; [exact IH|]. cbn. rewrite E. reflexivity.
Qed.

Lemma trim_start_of_clean (s : string) :
  starts_clean s = true -> trim_start s = s.
Proof.
  destruct s as [|c s]; [reflexivity|]. cbn. intros H.
  apply negb_true_iff in H. rewrite H. reflexivity.
Qed.

Lemma trim_start_suffix (s : string) : exists w, s = w ++ trim_start s.
Proof.
  induction s as [|c s [w IH]]; [exists ""; reflexivity|]. cbn [trim_start].
  destruct (is_trim_space c).
  - exists (String c w). rewrite append_cons. f_equal. exact IH.
  - exists "". reflexivity.
Qed.

Lemma append_empty_r (s : string) : s ++ "" = s.
Proof. induction s as [|c s IH]; [reflexivity|]. rewrite append_cons, IH. reflexivity. Qed.

Lemma rev_string_acc (s acc : string) :
  rev_string acc s = rev_string "" s ++ acc.
Proof.
  revert acc. induction s as [|c s IH]; intros acc; [reflexivity|].
  cbn [rev_string]. rewrite (IH (String c acc)), (IH (String c "")).
  rewrite string_app_assoc. reflexivity.
Qed.

Lemma rev_string_append (a b : string) :
  rev_string "" (a ++ b) = rev_string "" b ++ rev_string "" a.
Proof.
  induction a as [|c a IH]; [rewrite append_nil, append_empty_r; reflexivity|].
  rewrite append_cons. cbn [rev_string].
  rewrite (rev_string_acc (a ++ b) (String c "")), IH,
    (rev_string_acc a (String c "")), string_app_assoc.
  reflexivity.
Qed.

Lemma rev_string_involutive (s : string) : rev_string "" (rev_string "" s) = s.
Proof.
  induction s as [|c s IH]; [reflexivity|]. cbn [rev_string].
  rewrite (rev_string_acc s (String c "")), rev_string_append, IH. reflexivity.
Qed.

Lemma trim_end_prefix (t : string) : exists w, t = trim_end t ++ w.
Proof.
  unfold trim_end. destruct (trim_start_suffix (rev_string "" t)) as [w E].
  exists (rev_string "" w).
  rewrite <- rev_string_append, <- E, rev_string_involutive. reflexivity.
Qed.

Lemma trim_end_clean (t : string) :
  starts_clean t = true -> starts_clean (trim_end t) = true.
Proof.
  intros H. destruct (trim_end_prefix t) as [w E].
  destruct (trim_end t) as [|c u]; [reflexivity|].
  rewrite E in H. exact H.
Qed.

Lemma trim_end_idempotent (t : string) : trim_end (trim_end t) = trim_end t.
Proof.
  unfold trim_end. rewrite rev_string_involutive.
  rewrite (trim_start_of_clean _ (trim_start_clean _)). reflexivity.
Qed.

Lemma trim_idempotent (s : string) : trim (trim s) = trim s.
Proof.
  unfold trim.
  rewrite (trim_start_of_clean (trim_end (trim_start s))).
  - apply trim_end_idempotent.
  - apply trim_end_clean, trim_start_clean.
Qed.

(* ---------------- escapeHtml ---------------- *)

Lemma replaceAll_app (c : ascii) (rep a b : string) :
  replaceAll c rep (a ++ b) = replaceAll c rep a ++ replaceAll c rep b.
Proof.
  induction a as [|d a IH]; [reflexivity|].
  rewrite append_cons. cbn [replaceAll]. rewrite IH.
  destruct (Ascii.eqb d c); [rewrite string_app_assoc|]; reflexivity.
Qed.

Lemma escapeHtml_cons (d : ascii) (r : string) :
  escapeHtml (String d r) = entity d ++ escapeHtml r.
Proof.
  unfold escapeHtml, entity. cbn [replaceAll].
  destruct (Ascii.eqb d "&") eqn:E1; [rewrite !replaceAll_app; reflexivity|].
  cbn [replaceAll].
  destruct (Ascii.eqb d "<") eqn:E2; [rewrite !replaceAll_app; reflexivity|].
  cbn [replaceAll].
  destruct (Ascii.eqb d ">") eqn:E3; [rewrite !replaceAll_app; reflexivity|].
  cbn [replaceAll].
  destruct (Ascii.eqb d "034") eqn:E4; [rewrite !replaceAll_app; reflexivity|].
  cbn [replaceAll].
  destruct (Ascii.eqb d "'") eqn:E5; reflexivity.
Qed.

Lemma escapeHtml_concat (s : string) : escapeHtml s = concat_entities s.
Proof.
  induction s as [|d r IH]; [reflexivity|].
  rewrite escapeHtml_cons, IH. reflexivity.
Qed.

Lemma entity_no_markup (d : ascii) (x : string) :
  string_forallb (fun c => negb (is_markup c)) (entity d ++ x)
  = string_forallb (fun c => negb (is_markup c)) x.
Proof. destruct d as [[] [] [] [] [] [] [] []]; reflexivity. Qed.

Lemma entity_ampersands (d : ascii) (x : string) :
  ampersands_are_entities (entity d ++ x) = ampersands_are_entities x.
Proof. destruct d as [[] [] [] [] [] [] [] []]; reflexivity. Qed.

Lemma entity_plain (d : ascii) :
  is_markup d = false -> Ascii.eqb d "&" = false -> entity d = String d "".
Proof. destruct d as [[] [] [] [] [] [] [] []]; vm_compute; congruence. Qed.

(** The first character of an entity tells a plain character from [&]. *)
Lemma entity_head (c : ascii) :
  (is_markup c || Ascii.eqb c "&" = true
   /\ exists t, entity c = String "&" t
        /\ forall d, is_markup d || Ascii.eqb d "&" = true ->
           forall x y, entity c ++ x = entity d ++ y -> c = d /\ x = y)
  \/ (is_markup c || Ascii.eqb c "&" = false /\ entity c = String c "").
Proof.
  destruct c as [[] [] [] [] [] [] [] []];
    try (right; split; reflexivity);
    (left; split; [reflexivity|]; eexists; split; [reflexivity|];
     intros d Hd x y;
     destruct d as [[] [] [] [] [] [] [] []]; try discriminate Hd;
     intros H; cbv in H;
     try discriminate H; injection H as H; subst; split; reflexivity).
Qed.

Lemma concat_entities_inj (a b : string) :
  concat_entities a = concat_entities b -> a = b.
Proof.
  revert b. induction a as [|c a IH]; intros [|d b]; cbn [concat_entities].
  - reflexivity.
  - intros H. destruct (entity_head d) as [(_ & t & E & _)|(_ & E)];
      rewrite E, append_cons in H; discriminate H.
  - intros H. destruct (entity_head c) as [(_ & t & E & _)|(_ & E)];
      rewrite E, append_cons in H; discriminate H.
  - intros H.
    destruct (entity_head c) as [(Sc & t & Ec & Ic)|(Pc & Ec)];
      destruct (entity_head d) as [(Sd & u & Ed & Id)|(Pd & Ed)].
    + destruct (Ic d Sd _ _ H) as [-> E]. f_equal. apply IH. exact E.
    + rewrite Ec, Ed, !append_cons in H. injection H as H1 H2. subst d.
      discriminate Pd.
    + rewrite Ec, Ed, !append_cons in H. injection H as H1 H2. subst c.
      discriminate Pc.
    + rewrite Ec, Ed, !append_cons, !append_nil in H. injection H as -> H.
      f_equal. apply IH. exact H.
Qed.

(** X1.  The text [escapeHtml] returns holds none of the characters [<],
    [>], double quote and apostrophe, every [&] in it begins one of the five
    entities the function writes, and two different texts never get the
    same escaped text. *)
Theorem escapeHtml_is_safe_and_lossless (s : string) :
  string_forallb (fun c => negb (is_markup c)) (escapeHtml s) = true
  /\ ampersands_are_entities (escapeHtml s) = true
  /\ (forall t, escapeHtml s = escapeHtml t -> s = t).
Proof.
  split; [|split].
  - rewrite escapeHtml_concat. induction s as [|c s IH]; [reflexivity|].
    cbn [concat_entities]. rewrite entity_no_markup. exact IH.
  - rewrite escapeHtml_concat. induction s as [|c s IH]; [reflexivity|].
    cbn [concat_entities]. rewrite entity_ampersands. exact IH.
  - intros t H. rewrite !escapeHtml_concat in H. apply concat_entities_inj. exact H.
Qed.

(* ===================================================================== *)
(** ** The wizard as a whole *)
(* ===================================================================== *)

Section Coverage.

Variable StringToNumber : string -> float.
Variable NumberToString : float -> string.

Lemma ltb_true_leb_true (x y : float) :
  PrimFloat.ltb x y = true -> PrimFloat.leb x y = true.
Proof.
  rewrite ltb_spec, leb_spec. unfold SFltb, SFleb.
  destruct (SFcompare (Prim2SF x) (Prim2SF y)) as [[]|]; congruence.
Qed.

Lemma toNum_of_finite (v : value) :
  is_blank v = false -> Number_isFinite (Number StringToNumber v) = true ->
  toNum StringToNumber v = Number StringToNumber v.
Proof. intros B F. unfold toNum. rewrite B. cbn zeta. rewrite F. reflexivity. Qed.

Lemma toNum_of_blank (v : value) :
  is_blank v = true -> toNum StringToNumber v = 0%float.
Proof. intros B. unfold toNum. rewrite B. reflexivity. Qed.

(** X2.  [toNum] never returns NaN or an infinity; it is the value of
    [toNumOrNull] with [null] read as 0; [toNumOrNull] is [null] exactly for
    a blank value or one whose number is not finite; and reading back a
    number that [toNum] returned gives the same number. *)
Theorem toNum_is_finite_and_defaults_to_zero (v : value) :
  Number_isFinite (toNum StringToNumber v) = true
  /\ toNum StringToNumber v
     = match toNumOrNull StringToNumber v with Some n => n | None => 0%float end
  /\ (toNumOrNull StringToNumber v = None
      <-> is_blank v = true
          \/ Number_isFinite (Number StringToNumber v) = false)
  /\ toNum StringToNumber (Num (toNum StringToNumber v)) = toNum StringToNumber v.
Proof.
  split; [apply toNum_finite|]. split; [|split].
  - unfold toNum, toNumOrNull. destruct (is_blank v); [reflexivity|].
    cbn zeta. destruct (Number_isFinite (Number StringToNumber v)); reflexivity.
  - unfold toNumOrNull. destruct (is_blank v); [intuition|].
    cbn zeta. destruct (Number_isFinite (Number StringToNumber v));
      intuition discriminate.
  - unfold toNum at 1. cbn [is_blank Number]. cbv zeta.
    rewrite toNum_finite. reflexivity.
Qed.

Lemma examined_blank (step : Step) (s : WizardState) :
  is_blank (examined step s) = is_blank (get_field s (key step)).
Proof. unfold examined. destruct (get_field s (key step)); reflexivity. Qed.

Lemma examined_present (step : Step) (s : WizardState) :
  is_blank (get_field s (key step)) = false ->
  examined step s = get_field s (key step).
Proof. unfold examined. destruct (get_field s (key step)); try discriminate; reflexivity. Qed.

(** What an input step accepts, as a boolean. *)
Lemma input_step_ok (step : Step) (s : WizardState) :
  kind step = KNumber \/ kind step = KMoneyDoz \/ kind step = KInt ->
  ok (validateStep StringToNumber step s)
  = (if is_blank (examined step s) then negb (required step)
     else isNonNegativeNumber StringToNumber (examined step s)
          && (negb (is_int step)
              || Number_isInteger (Number StringToNumber (examined step s)))).
Proof.
  intros K. unfold validateStep.
  assert (E : forall (A : Type) (x y z : A),
            match kind step with
            | KStyle => x | KNumber | KMoneyDoz | KInt => y
            | KPercent => z | KComputed | KPreview => z end = y).
  { intros. destruct K as [-> | [-> | ->]]; reflexivity. }
  destruct (kind step) eqn:Kd; try (destruct K as [K|[K|K]]; discriminate K);
    destruct (required step), (is_blank (examined step s)),
      (isNonNegativeNumber StringToNumber (examined step s)), (is_int step),
      (Number_isInteger (Number StringToNumber (examined step s))); reflexivity.
Qed.

Lemma percent_step_ok (step : Step) (s : WizardState) :
  kind step = KPercent ->
  ok (validateStep StringToNumber step s)
  = (if is_blank (examined step s) then negb (required step)
     else isPercentValid StringToNumber (examined step s)).
Proof.
  intros K. unfold validateStep. rewrite K.
  destruct (required step), (is_blank (examined step s)),
    (isPercentValid StringToNumber (examined step s)); reflexivity.
Qed.

(** X3.  When a number, money, whole-number or percent step accepts the
    draft, its field is either blank, the step optional and the engine reads
    0; or present, and then the engine reads exactly the number that was
    validated: finite, at least 0, at most 100 on a percent step and whole
    on a whole-number step. *)
Theorem accepted_input_is_read_as_typed (step : Step) (s : WizardState) :
  kind step = KNumber \/ kind step = KMoneyDoz \/ kind step = KInt
  \/ kind step = KPercent ->
  ok (validateStep StringToNumber step s) = true ->
  let raw := get_field s (key step) in
  (is_blank raw = true /\ required step = false
   /\ toNum StringToNumber raw = 0%float)
  \/ (is_blank raw = false
      /\ toNum StringToNumber raw = Number StringToNumber raw
      /\ Number_isFinite (Number StringToNumber raw) = true
      /\ PrimFloat.leb 0 (toNum StringToNumber raw) = true
      /\ (kind step = KPercent ->
          PrimFloat.leb (toNum StringToNumber raw) 100 = true)
      /\ (kind step = KInt ->
          Number_isInteger (toNum StringToNumber raw) = true)).
Proof.
  intros K O raw. subst raw.
  destruct (is_blank (get_field s (key step))) eqn:B.
  - left. split; [reflexivity|]. split; [|apply toNum_of_blank; exact B].
    destruct K as [K|[K|[K|K]]];
      [rewrite input_step_ok in O by auto | rewrite input_step_ok in O by auto
      | rewrite input_step_ok in O by auto | rewrite percent_step_ok in O by auto];
      rewrite examined_blank, B in O; apply negb_true_iff in O; exact O.
  - right. split; [reflexivity|].
    pose proof (examined_present step s B) as E.
    assert (D : kind step = KPercent
                \/ (kind step = KNumber \/ kind step = KMoneyDoz \/ kind step = KInt))
      by tauto.
    destruct D as [P|N].
    + rewrite percent_step_ok in O by exact P.
      rewrite examined_blank, B, E in O. unfold isPercentValid in O.
      apply andb_prop in O as [O U]. apply andb_prop in O as [F L].
      rewrite (toNum_of_finite _ B F).
      repeat split; try assumption.
      * intros _. exact U.
      * intros I. congruence.
    + rewrite input_step_ok in O by exact N.
      rewrite examined_blank, B, E in O.
      apply andb_prop in O as [G I]. unfold isNonNegativeNumber in G.
      apply andb_prop in G as [F L].
      rewrite (toNum_of_finite _ B F).
      repeat split; try assumption.
      * intros P. destruct N as [N|[N|N]]; congruence.
      * intros P. unfold is_int in I. rewrite P in I. exact I.
Qed.

Lemma append_not_empty (a b : string) : b <> "" -> a ++ b <> "".
Proof.
  intros N. destruct a as [|c a]; [rewrite append_nil; exact N|].
  rewrite append_cons. discriminate.
Qed.

Lemma rejection_message (step : Step) (s : WizardState) :
  ok (validateStep StringToNumber step s) = false ->
  exists m, message (validateStep StringToNumber step s) = Some m /\ m <> "".
Proof.
  unfold validateStep.
  destruct (kind step).
  - destruct (String.eqb (trim (styleName s)) "");
      [intros _; eexists; split; [reflexivity|discriminate]|].
    destruct (String.eqb (trim (yarnDesc s)) "");
      [intros _; eexists; split; [reflexivity|discriminate]|].
    destruct (negb (has_photo_blob s));
      [intros _; eexists; split; [reflexivity|discriminate]|].
    destruct (negb (includes GAUGE_OPTIONS (Number StringToNumber (gauge s))));
      [intros _; eexists; split; [reflexivity|discriminate]|].
    destruct (negb (PrimFloat.ltb 0 (toNum StringToNumber (weightGm s))));
      [intros _; eexists; split; [reflexivity|discriminate]|discriminate].
  - destruct (required step && is_blank (examined step s));
      [intros _; eexists; split; [reflexivity|apply append_not_empty; discriminate]|].
    destruct (is_blank (examined step s)); [discriminate|].
    destruct (negb (isNonNegativeNumber StringToNumber (examined step s)));
      [intros _; eexists; split; [reflexivity|apply append_not_empty; discriminate]|].
    destruct (is_int step && negb (Number_isInteger (Number StringToNumber (examined step s))));
      [intros _; eexists; split; [reflexivity|apply append_not_empty; discriminate]|discriminate].
  - destruct (required step && is_blank (examined step s));
      [intros _; eexists; split; [reflexivity|apply append_not_empty; discriminate]|].
    destruct (is_blank (examined step s)); [discriminate|].
    destruct (negb (isNonNegativeNumber StringToNumber (examined step s)));
      [intros _; eexists; split; [reflexivity|apply append_not_empty; discriminate]|].
    destruct (is_int step && negb (Number_isInteger (Number StringToNumber (examined step s))));
      [intros _; eexists; split; [reflexivity|apply append_not_empty; discriminate]|discriminate].
  - destruct (required step && is_blank (examined step s));
      [intros _; eexists; split; [reflexivity|apply append_not_empty; discriminate]|].
    destruct (is_blank (examined step s)); [discriminate|].
    destruct (negb (isNonNegativeNumber StringToNumber (examined step s)));
      [intros _; eexists; split; [reflexivity|apply append_not_empty; discriminate]|].
    destruct (is_int step && negb (Number_isInteger (Number StringToNumber (examined step s))));
      [intros _; eexists; split; [reflexivity|apply append_not_empty; discriminate]|discriminate].
  - destruct (required step && is_blank (examined step s));
      [intros _; eexists; split; [reflexivity|apply append_not_empty; discriminate]|].
    destruct (is_blank (examined step s)); [discriminate|].
    destruct (negb (isPercentValid StringToNumber (examined step s)));
      [intros _; eexists; split; [reflexivity|apply append_not_empty; discriminate]|discriminate].
  - discriminate.
  - discriminate.
Qed.

(** X4.  Every rejection of [validateStep] carries a message that is not
    empty, and an advance that is rejected shows exactly that message: the
    fallback text of [wizardNext] is never shown. *)
Theorem every_rejection_is_explained (io : IO) (a : App) (step : Step) (v : Validation) :
  validateCurrent StringToNumber a = Some (step, v) -> ok v = false ->
  exists m, message v = Some m /\ m <> ""
            /\ wizardError (wizardNext StringToNumber io a) = Some m
            /\ m <> "Please correct the input.".
Proof.
  intros H O.
  assert (V : exists s, v = validateStep StringToNumber step s).
  { unfold validateCurrent in H.
    destruct (step_at (wizardStepIndex a)) as [st|]; [|discriminate].
    destruct (wizardState a) as [s|].
    - injection H as <- <-. exists s. reflexivity.
    - destruct (kind st); try discriminate; injection H as <- <-; discriminate O. }
  destruct V as [s ->].
  destruct (rejection_message step s O) as (m & M & N).
  exists m. split; [exact M|]. split; [exact N|]. split.
  - unfold wizardNext. rewrite H, O, M. cbn.
    rewrite (or_default_nonempty m _); [reflexivity|].
    destruct m; [contradiction|reflexivity].
  - revert M. clear. unfold validateStep.
    assert (R : forall t x, message (reject (t ++ x)) = Some m ->
                x = " is required." \/ x = " must be a non-negative number."
                \/ x = " must be a whole number." \/ x = " must be between 0 and 100." ->
                m <> "Please correct the input.").
    { intros t x E Hx F. cbn in E. injection E as <-.
      assert (L : forall u y, u ++ y = "Please correct the input." ->
                  exists z, "Please correct the input." = z ++ y).
      { intros u y Q. exists u. symmetry. exact Q. }
      destruct (L _ _ F) as [z Q].
      apply (f_equal (fun q => rev_string "" q)) in Q.
      rewrite rev_string_append in Q.
      destruct Hx as [-> |[-> |[-> | ->]]]; cbv in Q;
        match type of Q with _ = ?r ++ _ => idtac | _ => idtac end;
        rewrite ?append_cons in Q; discriminate Q. }
    destruct (kind step);
      repeat match goal with
             | |- context [if ?c then _ else _] => destruct c
             end;
      intros M; try discriminate M;
      try (eapply R; [exact M|tauto]);
      cbn in M; injection M as <-; discriminate.
Qed.

(** X5.  Two drafts that [toNum] reads alike on the weight, the wastage,
    the yarn price, the accessories, the three fabric fields and the
    cut-and-make get the same result from [computeAll], whatever their names,
    gauge, photo, currency, timing and markup fields hold. *)
Theorem computeAll_depends_on_eight_readings (s1 s2 : WizardState) :
  toNum StringToNumber (weightGm s1) = toNum StringToNumber (weightGm s2) ->
  toNum StringToNumber (wastagePct s1) = toNum StringToNumber (wastagePct s2) ->
  toNum StringToNumber (yarnPricePerLb s1) = toNum StringToNumber (yarnPricePerLb s2) ->
  toNum StringToNumber (accessoriesCostDoz s1)
  = toNum StringToNumber (accessoriesCostDoz s2) ->
  toNum StringToNumber (fabricDoz s1) = toNum StringToNumber (fabricDoz s2) ->
  toNum StringToNumber (fabricCostDoz s1) = toNum StringToNumber (fabricCostDoz s2) ->
  toNum StringToNumber (fabricAttachCostDoz s1)
  = toNum StringToNumber (fabricAttachCostDoz s2) ->
  toNum StringToNumber (cmDoz s1) = toNum StringToNumber (cmDoz s2) ->
  computeAll StringToNumber s1 = computeAll StringToNumber s2.
Proof.
  intros H1 H2 H3 H4 H5 H6 H7 H8. unfold computeAll.
  rewrite H1, H2, H3, H4, H5, H6, H7, H8. reflexivity.
Qed.

(* ---------------- navigation ---------------- *)

Lemma saveDraft_frame (io : IO) (st : option WizardState) (a : App) :
  products (db (saveDraft io st a)) = products (db a)
  /\ wizardState (saveDraft io st a) = wizardState a
  /\ wizardStepIndex (saveDraft io st a) = wizardStepIndex a.
Proof. unfold saveDraft. destruct (putDraft_ok io); auto. Qed.

Lemma calculateAndSave_effect (io : IO) (a : App) :
  (products (db (calculateAndSave StringToNumber io a)) = products (db a)
   /\ wizardState (calculateAndSave StringToNumber io a) = wizardState a
   /\ drafts (db (calculateAndSave StringToNumber io a)) = drafts (db a))
  \/ (exists s, wizardState a = Some s
       /\ first_failure StringToNumber requiredChecks s = None
       /\ putProduct_ok io = true
       /\ products (db (calculateAndSave StringToNumber io a))
          = <[uuid io := buildProduct StringToNumber io s]> (products (db a))
       /\ wizardState (calculateAndSave StringToNumber io a) = None
       /\ drafts (db (calculateAndSave StringToNumber io a))
          = (if clearDraft_ok io then delete DRAFT_ID (drafts (db a))
             else drafts (db a))).
Proof.
  destruct (wizardState a) as [s|] eqn:W.
  2:{ left. unfold calculateAndSave. rewrite W. auto. }
  destruct (first_failure StringToNumber requiredChecks s) as [v|] eqn:F.
  { left. destruct (calculateAndSave_aborts StringToNumber io a s W) as (E1 & E2 & _).
    { left. rewrite F. discriminate. }
    rewrite E1, E2. auto. }
  destruct (putProduct_ok io) eqn:P.
  - right. exists s.
    destruct (calculateAndSave_commits StringToNumber io a s W F P) as (E1 & E2 & E3 & _).
    auto 10.
  - left. destruct (calculateAndSave_aborts StringToNumber io a s W) as (E1 & E2 & _).
    { right. exact P. }
    rewrite E1, E2. auto.
Qed.

Lemma wizardNext_effect (io : IO) (a : App) :
  (products (db (wizardNext StringToNumber io a)) = products (db a)
   /\ wizardState (wizardNext StringToNumber io a) = wizardState a)
  \/ (exists s, wizardState a = Some s
       /\ first_failure StringToNumber requiredChecks s = None
       /\ putProduct_ok io = true
       /\ products (db (wizardNext StringToNumber io a))
          = <[uuid io := buildProduct StringToNumber io s]> (products (db a))
       /\ wizardState (wizardNext StringToNumber io a) = None).
Proof.
  unfold wizardNext.
  destruct (validateCurrent StringToNumber a) as [[step v]|]; [|auto].
  destruct (ok v); cbn [negb]; [|auto].
  destruct (is_preview step).
  - destruct (calculateAndSave_effect io (clearWizardError a))
      as [(E1 & E2 & _)|(s & W & F & P & E1 & E2 & _)].
    + left. rewrite E1, E2. auto.
    + right. exists s. auto.
  - left. unfold saveDraft. destruct (putDraft_ok io); auto.
Qed.

Lemma run_op_effect (op : WizardOp) (a : App) :
  (products (db (run_op StringToNumber op a)) = products (db a)
   /\ wizardState (run_op StringToNumber op a) = wizardState a)
  \/ (exists io s, op = OpAdvance io /\ wizardState a = Some s
       /\ products (db (run_op StringToNumber op a))
          = <[uuid io := buildProduct StringToNumber io s]> (products (db a))
       /\ wizardState (run_op StringToNumber op a) = None).
Proof.
  destruct op as [io|io|j]; cbn [run_op].
  - destruct (wizardNext_effect io a) as [H|(s & W & _ & _ & E1 & E2)];
      [left; exact H|].
    right. exists io, s. auto.
  - left. unfold wizardPrev, saveDraft. destruct (putDraft_ok io); auto.
  - left. auto.
Qed.

(** X6.  A record in the store is still there, unchanged, after any
    sequence of advance, retreat and jump operations, as long as no advance
    of the sequence was given the identifier of that record. *)
Theorem wizard_never_overwrites_a_record
  (ops : list WizardOp) (a : App) (k : string) (p : Product) :
  products (db a) !! k = Some p ->
  ~ In k (advance_ids ops) ->
  products (db (run_ops StringToNumber ops a)) !! k = Some p.
Proof.
  unfold run_ops. revert a.
  induction ops as [|op ops IH]; intros a H N; [exact H|].
  cbn [fold_left]. apply IH.
  - destruct (run_op_effect op a) as [(E & _)|(io & s & -> & _ & E & _)].
    + rewrite E. exact H.
    + rewrite E. rewrite lookup_insert_ne; [exact H|].
      intros Q. apply N. cbn [advance_ids]. left. exact Q.
  - intros Q. apply N. destruct op; cbn [advance_ids]; [right|idtac|idtac]; exact Q.
Qed.

Lemma run_op_without_draft (op : WizardOp) (a : App) :
  wizardState a = None ->
  wizardState (run_op StringToNumber op a) = None
  /\ products (db (run_op StringToNumber op a)) = products (db a).
Proof.
  intros W. destruct (run_op_effect op a) as [(E1 & E2)|(io & s & _ & W' & _)].
  - rewrite E1, E2. auto.
  - congruence.
Qed.

(** X7.  After any sequence of advance, retreat and jump operations the
    draft in memory is the one the sequence started with, or there is none
    because an advance of the sequence committed it, and then it had passed
    the checks of the record builder. *)
Theorem navigation_never_edits_the_draft (ops : list WizardOp) (a : App) :
  wizardState (run_ops StringToNumber ops a) = wizardState a
  \/ (wizardState (run_ops StringToNumber ops a) = None
      /\ exists io s, In (OpAdvance io) ops /\ wizardState a = Some s
           /\ first_failure StringToNumber requiredChecks s = None).
Proof.
  unfold run_ops. revert a.
  induction ops as [|op ops IH]; intros a; [left; reflexivity|].
  cbn [fold_left].
  destruct (IH (run_op StringToNumber op a)) as [E|(E & io & s & I & W & F)].
  - rewrite E. clear E IH.
    destruct op as [io|io|j]; cbn [run_op].
    + destruct (wizardNext_effect io a) as [(_ & E)|(s & W & F & _ & _ & E)].
      * left. exact E.
      * right. split; [exact E|]. exists io, s. split; [left; reflexivity|auto].
    + left. unfold wizardPrev, saveDraft. destruct (putDraft_ok io); reflexivity.
    + left. reflexivity.
  - destruct (run_op_effect op a) as [(_ & E')|(io' & s' & _ & W' & _ & N)].
    + right. split; [exact E|]. exists io, s. split; [right; exact I|].
      split; [congruence|exact F].
    + congruence.
Qed.

(* ---------------- the draft slot ---------------- *)

Lemma single_slot_put (d : DB) (t : string) (st : option WizardState) :
  single_slot d -> single_slot (putDraft (mkDraft DRAFT_ID t st) d).
Proof.
  intros H k x. unfold putDraft. cbn [drafts d_id].
  destruct (decide (k = DRAFT_ID)) as [->|N].
  - intros Q. apply lookup_insert_rev in Q. subst x. auto.
  - rewrite lookup_insert_ne by congruence. apply H.
Qed.

Lemma single_slot_delete (d : DB) :
  single_slot d -> single_slot (deleteDraft DRAFT_ID d).
Proof.
  intros H k x. unfold deleteDraft. cbn [drafts].
  intros Q. apply lookup_delete_Some in Q as [_ Q]. apply H. exact Q.
Qed.

Lemma single_slot_drafts (d d' : DB) :
  drafts d' = drafts d -> single_slot d -> single_slot d'.
Proof. unfold single_slot. intros ->. auto. Qed.

Lemma saveDraft_slot (io : IO) (st : option WizardState) (a : App) :
  single_slot (db a) -> single_slot (db (saveDraft io st a)).
Proof.
  intros H. unfold saveDraft. destruct (putDraft_ok io); [|exact H].
  apply single_slot_put. exact H.
Qed.

Lemma run_op_slot (op : WizardOp) (a : App) :
  single_slot (db a) -> single_slot (db (run_op StringToNumber op a)).
Proof.
  intros H. destruct op as [io|io|j]; cbn [run_op].
  - unfold wizardNext.
    destruct (validateCurrent StringToNumber a) as [[step v]|]; [|exact H].
    destruct (ok v); cbn [negb]; [|exact H].
    destruct (is_preview step).
    + destruct (calculateAndSave_effect io (clearWizardError a))
        as [(_ & _ & E)|(s & _ & _ & _ & _ & _ & E)].
      * apply (single_slot_drafts (db a)); [exact E|exact H].
      * destruct (clearDraft_ok io).
        -- intros k x. rewrite E. intros Q.
           apply lookup_delete_Some in Q as [_ Q]. apply H. exact Q.
        -- apply (single_slot_drafts (db a)); [exact E|exact H].
    + apply (saveDraft_slot io _ (set_wizardStepIndex _ (clearWizardError a))). exact H.
  - apply (saveDraft_slot io _ (set_wizardStepIndex _ (clearWizardError a))). exact H.
  - exact H.
Qed.

(** X8.  If the draft store holds nothing outside the slot [DRAFT_ID], it
    still does after any sequence of wizard operations and after duplicating
    a record: every write and delete of the program addresses that one
    slot. *)
Theorem draft_store_has_one_slot
  (ops : list WizardOp) (io : IO) (product : Product) (a : App) :
  single_slot (db a) ->
  single_slot (db (run_ops StringToNumber ops a))
  /\ single_slot (db (duplicateProduct NumberToString io product a))
  /\ (forall k, k <> DRAFT_ID ->
        drafts (db (run_ops StringToNumber ops
                      (duplicateProduct NumberToString io product a))) !! k = None).
Proof.
  intros H.
  assert (R : forall ops a, single_slot (db a) ->
                single_slot (db (run_ops StringToNumber ops a))).
  { clear. unfold run_ops. induction ops as [|op ops IH]; intros a H; [exact H|].
    cbn [fold_left]. apply IH. apply run_op_slot. exact H. }
  assert (D : single_slot (db (duplicateProduct NumberToString io product a))).
  { unfold duplicateProduct, openWizard. cbn [db renderWizardStep clearWizardError
      showView set_wizardStepIndex set_wizardState].
    apply saveDraft_slot. exact H. }
  split; [apply R; exact H|]. split; [exact D|].
  intros k N.
  destruct (drafts (db (run_ops StringToNumber ops
              (duplicateProduct NumberToString io product a))) !! k) as [x|] eqn:Q;
    [|reflexivity].
  destruct (R ops _ D k x Q) as [E _]. contradiction.
Qed.

(* ---------------- resuming ---------------- *)

Lemma normalized_fields (s : WizardState) :
  normalized s = true ->
  is_blank (wastagePct s) = false /\ is_blank (rocPct s) = false
  /\ trim (or_default (currency s) DEFAULT_CURRENCY) = currency s.
Proof.
  unfold normalized. intros H.
  apply andb_prop in H as [H H4]. apply andb_prop in H as [H H3].
  apply andb_prop in H as [H1 H2].
  apply negb_true_iff in H1, H2, H4.
  apply String.eqb_eq in H3.
  repeat split; try assumption.
  unfold or_default. destruct (currency s) as [|c r]; [discriminate H4|].
  exact H3.
Qed.

Lemma openWizard_loaded (io : IO) (a : App) (s : WizardState) :
  loadDraft io a = Some s -> normalized s = true ->
  wizardState (openWizard io true None a) = Some s.
Proof.
  intros L N. unfold openWizard. rewrite L.
  cbn [wizardState renderWizardStep clearWizardError showView set_wizardStepIndex
       set_wizardState].
  destruct (normalized_fields s N) as (B1 & B2 & C).
  rewrite B1, B2, C. destruct s; reflexivity.
Qed.

(** X9.  A draft saved by a retreat, or by an accepted advance before the
    preview, is what a later resume opens, field by field, on step 0, in the
    wizard view and whatever else the application held in memory, provided
    the draft has no blank wastage or markup and a non-empty, trimmed
    currency. *)
Theorem resume_restores_the_saved_draft
  (io io' : IO) (a b : App) (s : WizardState) :
  wizardState a = Some s -> normalized s = true ->
  putDraft_ok io = true -> getDraft_ok io' = true ->
  db b = db (wizardPrev io a)
  \/ (exists step v, validateCurrent StringToNumber a = Some (step, v)
        /\ ok v = true /\ is_preview step = false
        /\ db b = db (wizardNext StringToNumber io a)) ->
  wizardState (openWizard io' true None b) = Some s
  /\ wizardStepIndex (openWizard io' true None b) = 0
  /\ view (openWizard io' true None b) = ViewWizard.
Proof.
  intros W N P G H.
  assert (L : loadDraft io' b = Some s).
  { unfold loadDraft. rewrite G.
    destruct H as [E|(step & v & V & O & IP & E)]; rewrite E.
    - unfold wizardPrev, saveDraft. rewrite P.
      cbn [db renderWizardStep clearWizardError set_db set_wizardStepIndex
           wizardState putDraft drafts d_id].
      rewrite lookup_insert_eq. cbn [d_data]. exact W.
    - unfold wizardNext. rewrite V, O, IP. cbn [negb].
      unfold saveDraft. rewrite P.
      cbn [db renderWizardStep clearWizardError set_db set_wizardStepIndex
           wizardState putDraft drafts d_id].
      rewrite lookup_insert_eq. cbn [d_data]. exact W. }
  split; [apply openWizard_loaded; assumption|].
  split; reflexivity.
Qed.

(* ---------------- the whole walk ---------------- *)

Lemma first_failure_none (checks : list Step) (s : WizardState) :
  (forall st, In st checks -> ok (validateStep StringToNumber st s) = true) ->
  first_failure StringToNumber checks s = None.
Proof.
  induction checks as [|c r IH]; intros H; [reflexivity|].
  cbn [first_failure]. rewrite (H c) by (left; reflexivity).
  apply IH. intros st I. apply H. right. exact I.
Qed.

Lemma first_failure_all (checks : list Step) (s : WizardState) :
  first_failure StringToNumber checks s = None ->
  forall st, In st checks -> ok (validateStep StringToNumber st s) = true.
Proof.
  induction checks as [|c r IH]; intros H st I; [destruct I|].
  cbn [first_failure] in H.
  destruct (ok (validateStep StringToNumber c s)) eqn:E; [|discriminate].
  destruct I as [<-|I]; [exact E|]. apply IH; assumption.
Qed.

Lemma requiredChecks_in_STEPS (st : Step) : In st requiredChecks -> In st STEPS.
Proof.
  rewrite requiredChecks_eq. unfold STEPS. cbn [In].
  intros [<-|[<-|[<-|[<-|[<-|[<-|[]]]]]]]; auto 20.
Qed.

Lemma passes_every_step_at (s : WizardState) (i : Z) (st : Step) :
  passes_every_step StringToNumber s = true -> step_at i = Some st ->
  ok (validateStep StringToNumber st s) = true.
Proof.
  unfold passes_every_step, step_at. intros H E.
  destruct (i <? 0); [discriminate|].
  apply nth_error_In in E.
  exact (proj1 (forallb_forall _ _) H st E).
Qed.

Lemma passes_every_step_checks (s : WizardState) :
  passes_every_step StringToNumber s = true ->
  first_failure StringToNumber requiredChecks s = None.
Proof.
  intros H. apply first_failure_none. intros st I.
  apply requiredChecks_in_STEPS in I.
  exact (proj1 (forallb_forall _ _) H st I).
Qed.

Lemma step_at_defined (i : Z) :
  0 <= i < STEPS_length ->
  exists st, step_at i = Some st /\ (is_preview st = true <-> i = STEPS_length - 1).
Proof.
  intros R. assert (N : STEPS_length = 16) by reflexivity. rewrite N in *.
  assert (C : i = 0 \/ i = 1 \/ i = 2 \/ i = 3 \/ i = 4 \/ i = 5 \/ i = 6 \/ i = 7
              \/ i = 8 \/ i = 9 \/ i = 10 \/ i = 11 \/ i = 12 \/ i = 13 \/ i = 14
              \/ i = 15) by lia.
  repeat (destruct C as [->|C]; [eexists; split; [reflexivity|];
            cbn; split; [try discriminate; reflexivity | try reflexivity; lia]|]).
  subst i. eexists; split; [reflexivity|]. cbn. split; reflexivity.
Qed.

Lemma walk_steps (s : WizardState) (ios : list IO) :
  passes_every_step StringToNumber s = true ->
  forall a,
    wizardState a = Some s -> 0 <= wizardStepIndex a ->
    wizardStepIndex a + Z.of_nat (List.length ios) <= STEPS_length - 1 ->
    wizardStepIndex (run_ops StringToNumber (map OpAdvance ios) a)
    = wizardStepIndex a + Z.of_nat (List.length ios)
    /\ wizardState (run_ops StringToNumber (map OpAdvance ios) a) = Some s
    /\ products (db (run_ops StringToNumber (map OpAdvance ios) a)) = products (db a).
Proof.
  intros P. unfold run_ops.
  induction ios as [|io r IH]; intros a W L U.
  - cbn. split; [lia|auto].
  - cbn [map fold_left run_op].
    change (List.length (io :: r)) with (S (List.length r)) in *.
    destruct (step_at_defined (wizardStepIndex a)) as (st & E & V); [lia|].
    assert (NP : is_preview st = false).
    { destruct (is_preview st); [|reflexivity].
      assert (wizardStepIndex a = STEPS_length - 1) by (apply V; reflexivity). lia. }
    assert (VC : validateCurrent StringToNumber a
                 = Some (st, validateStep StringToNumber st s)).
    { unfold validateCurrent. rewrite E, W. reflexivity. }
    pose proof (passes_every_step_at s _ st P E) as O.
    pose proof (wizardNext_advances StringToNumber io a st _ VC O NP) as A.
    assert (F : wizardState (wizardNext StringToNumber io a) = Some s
                /\ products (db (wizardNext StringToNumber io a)) = products (db a)).
    { unfold wizardNext. rewrite VC, O, NP. cbn [negb].
      unfold saveDraft. destruct (putDraft_ok io); cbn; auto. }
    destruct F as [F1 F2].
    destruct (IH (wizardNext StringToNumber io a) F1) as (I1 & I2 & I3);
      [lia|lia|].
    rewrite I1, I2, I3, A, F2. split; [lia|auto].
Qed.

(** X10.  From step 0, a draft that passes the validation of every step
    is taken by fifteen advances to the preview step with the draft and the
    records untouched, and the next advance, if the store accepts the write,
    commits the record built from it, closes the draft and shows the record
    in the detail view. *)
Theorem valid_draft_walks_to_a_record
  (s : WizardState) (ios : list IO) (io : IO) (a : App) :
  passes_every_step StringToNumber s = true ->
  wizardState a = Some s -> wizardStepIndex a = 0 ->
  Z.of_nat (List.length ios) = STEPS_length - 1 ->
  putProduct_ok io = true ->
  let b := run_ops StringToNumber (map OpAdvance ios) a in
  let c := wizardNext StringToNumber io b in
  wizardStepIndex b = STEPS_length - 1 /\ wizardState b = Some s
  /\ products (db b) = products (db a)
  /\ products (db c) !! uuid io = Some (buildProduct StringToNumber io s)
  /\ wizardState c = None /\ wizardStepIndex c = 0 /\ view c = ViewDetail
  /\ currentDetail c = Some (buildProduct StringToNumber io s).
Proof.
  intros P W I L PP b c.
  destruct (walk_steps s ios P a W) as (B1 & B2 & B3); [lia|lia|].
  fold b in B1, B2, B3. rewrite I, L in B1. cbn [Z.add] in B1.
  split; [exact B1|]. split; [exact B2|]. split; [exact B3|].
  assert (VC : validateCurrent StringToNumber b
               = Some (mkStep "preview" KPreview None false
                         "Preview & Calculate Final FOB", accept)).
  { unfold validateCurrent. rewrite B1, B2. reflexivity. }
  subst c. unfold wizardNext. rewrite VC. cbn [ok accept negb is_preview kind].
  unfold calculateAndSave. cbn [wizardState clearWizardError]. rewrite B2.
  rewrite (passes_every_step_checks s P), PP.
  unfold clearDraft. destruct (clearDraft_ok io);
    cbn [db products putProduct set_db set_wizardState set_wizardStepIndex openDetail
         wizardState wizardStepIndex view currentDetail deleteDraft p_id buildProduct];
    rewrite lookup_insert_eq; auto 10.
Qed.

(* ---------------- the committed record ---------------- *)

Lemma trim_not_empty (s : string) :
  String.eqb (trim s) "" = false -> trim s <> "".
Proof. intros H E. rewrite E in H. discriminate H. Qed.

Lemma eqb_nonzero_eq (x y : float) :
  PrimFloat.eqb x y = true -> PrimFloat.eqb x 0 = false -> x = y.
Proof.
  rewrite !FloatAxioms.eqb_spec. intros E Z. apply Prim2SF_inj.
  change (Prim2SF 0) with (S754_zero false) in Z.
  destruct (Prim2SF x) as [sx|sx| |sx mx ex], (Prim2SF y) as [sy|sy| |sy my ey];
    cbn in E, Z; try discriminate;
    destruct sx, sy; try discriminate; try reflexivity;
    destruct (ex ?= ey) eqn:C; try discriminate;
    apply Z.compare_eq in C; subst ey;
    destruct (Pos.compare_cont Eq mx my) eqn:D; try discriminate;
    apply Pos.compare_eq in D; subst my; reflexivity.
Qed.

Lemma includes_gauge (n : float) :
  includes GAUGE_OPTIONS n = true -> In n GAUGE_OPTIONS.
Proof.
  unfold includes, GAUGE_OPTIONS. cbn [existsb In].
  change (is_nan 3) with false. change (is_nan 5) with false.
  change (is_nan 7) with false. change (is_nan 12) with false.
  cbn [andb]. rewrite !orb_false_r. intros H.
  repeat (apply orb_prop in H as [H|H]);
    apply eqb_nonzero_eq in H; try reflexivity; subst n; auto.
Qed.

Lemma required_reading (step : Step) (s : WizardState) :
  kind step = KNumber \/ kind step = KMoneyDoz \/ kind step = KPercent ->
  required step = true ->
  ok (validateStep StringToNumber step s) = true ->
  let raw := get_field s (key step) in
  is_blank raw = false
  /\ toNum StringToNumber raw = Number StringToNumber raw
  /\ PrimFloat.leb 0 (toNum StringToNumber raw) = true
  /\ (kind step = KPercent -> PrimFloat.leb (toNum StringToNumber raw) 100 = true).
Proof.
  intros K R O raw. subst raw.
  destruct (is_blank (get_field s (key step))) eqn:B.
  - exfalso. destruct K as [K|[K|K]];
      [rewrite input_step_ok in O by auto | rewrite input_step_ok in O by auto
      | rewrite percent_step_ok in O by auto];
      rewrite examined_blank, B, R in O; discriminate O.
  - split; [reflexivity|]. pose proof (examined_present step s B) as E.
    assert (D : kind step = KPercent \/ (kind step = KNumber \/ kind step = KMoneyDoz))
      by tauto.
    destruct D as [P|N].
    + rewrite percent_step_ok in O by exact P.
      rewrite examined_blank, B, E in O. unfold isPercentValid in O.
      apply andb_prop in O as [O U]. apply andb_prop in O as [F L].
      rewrite (toNum_of_finite _ B F). auto.
    + rewrite input_step_ok in O by tauto.
      rewrite examined_blank, B, E in O.
      apply andb_prop in O as [G _]. unfold isNonNegativeNumber in G.
      apply andb_prop in G as [F L].
      rewrite (toNum_of_finite _ B F). split; [reflexivity|]. split; [exact L|].
      intros P. destruct N as [N|N]; congruence.
Qed.

Lemma style_step_fields (st : Step) (s : WizardState) :
  kind st = KStyle -> ok (validateStep StringToNumber st s) = true ->
  String.eqb (trim (styleName s)) "" = false
  /\ String.eqb (trim (yarnDesc s)) "" = false
  /\ has_photo_blob s = true
  /\ includes GAUGE_OPTIONS (Number StringToNumber (gauge s)) = true.
Proof.
  intros K. unfold validateStep. rewrite K.
  destruct (String.eqb (trim (styleName s)) ""); [discriminate|].
  destruct (String.eqb (trim (yarnDesc s)) ""); [discriminate|].
  destruct (has_photo_blob s); [|discriminate].
  destruct (includes GAUGE_OPTIONS (Number StringToNumber (gauge s)));
    [|discriminate].
  auto.
Qed.

Lemma or_null_defined (v : value) : or_null v <> Undefined.
Proof. unfold or_null. destruct (truthy v) eqn:T; [|discriminate]. intros ->. discriminate T. Qed.

Lemma or_default_not_empty (x d : string) : d <> "" -> or_default x d <> "".
Proof.
  intros D. unfold or_default. destruct (String.eqb x "") eqn:E; [exact D|].
  intros Q. rewrite Q in E. discriminate E.
Qed.

(** X11.  A record that [calculateAndSave] builds has a style name and a
    yarn description that are trimmed and not empty, a trimmed composition
    and currency, a gauge that is one of the gauge options, a photo with its
    blob, a non-empty type and dimensions that are not [undefined], a yarn
    price and a cut-and-make of at least 0, and a wastage between 0 and
    100. *)
Theorem committed_record_is_well_formed (io : IO) (a : App) (p : Product) :
  builtRecord StringToNumber io a = Some p ->
  (p_styleName p <> "" /\ trim (p_styleName p) = p_styleName p)
  /\ (p_yarnDesc p <> "" /\ trim (p_yarnDesc p) = p_yarnDesc p)
  /\ trim (p_composition p) = p_composition p
  /\ trim (p_currency p) = p_currency p
  /\ (exists g, p_gauge p = Some g /\ In g GAUGE_OPTIONS)
  /\ (exists ph b, p_photo p = Some ph /\ ph_blob ph = Some b /\ ph_type ph <> ""
        /\ ph_width ph <> Undefined /\ ph_height ph <> Undefined)
  /\ (exists y, i_yarnPricePerLb (p_inputs p) = Some y /\ PrimFloat.leb 0 y = true)
  /\ (exists w, i_wastagePct (p_inputs p) = Some w /\ PrimFloat.leb 0 w = true
        /\ PrimFloat.leb w 100 = true)
  /\ (exists c, i_cmDoz (p_inputs p) = Some c /\ PrimFloat.leb 0 c = true).
Proof.
  unfold builtRecord.
  destruct (wizardState a) as [s|]; [|discriminate].
  destruct (first_failure StringToNumber requiredChecks s) as [v|] eqn:F;
    [discriminate|].
  intros E.
  assert (P : p = buildProduct StringToNumber io s).
  { exact (f_equal (fun o => match o with Some q => q | None => p end) (eq_sym E)). }
  subst p. clear E.
  pose proof (first_failure_all _ _ F) as A. rewrite requiredChecks_eq in A.
  pose proof (A _ (or_introl eq_refl)) as A0.
  pose proof (A _ (or_intror (or_introl eq_refl))) as A1.
  pose proof (A _ (or_intror (or_intror (or_intror (or_introl eq_refl))))) as A3.
  pose proof (A _ (or_intror (or_intror (or_intror (or_intror (or_introl eq_refl))))))
    as A4.
  clear A.
  apply style_step_fields in A0; [|reflexivity].
  destruct A0 as (S1 & S2 & S3 & S4).
  apply required_reading in A1; [|left; reflexivity|reflexivity].
  destruct A1 as (_ & _ & Y & _).
  apply required_reading in A3; [|right; right; reflexivity|reflexivity].
  destruct A3 as (_ & _ & W1 & W2).
  apply required_reading in A4; [|right; left; reflexivity|reflexivity].
  destruct A4 as (_ & _ & C & _).
  cbn [key get_field String.eqb Ascii.eqb Bool.eqb] in Y, W1, W2, C.
  cbn [buildProduct p_styleName p_yarnDesc p_composition p_currency p_gauge p_photo
       p_inputs i_yarnPricePerLb i_wastagePct i_cmDoz].
  repeat split.
  - apply trim_not_empty. exact S1.
  - apply trim_idempotent.
  - apply trim_not_empty. exact S2.
  - apply trim_idempotent.
  - apply trim_idempotent.
  - apply trim_idempotent.
  - eexists. split; [reflexivity|]. apply includes_gauge. exact S4.
  - unfold has_photo_blob in S3.
    destruct (photo s) as [ph|]; [|discriminate].
    destruct (ph_blob ph) as [b|] eqn:B; [|discriminate].
    eexists. exists b. split; [reflexivity|]. cbn [ph_blob ph_type ph_width ph_height].
    split; [reflexivity|]. split; [apply or_default_not_empty; discriminate|].
    split; apply or_null_defined.
  - eexists. split; [reflexivity|]. exact Y.
  - eexists. split; [reflexivity|]. split; [exact W1|]. apply W2. reflexivity.
  - eexists. split; [reflexivity|]. exact C.
Qed.

(* ---------------- duplicate and recalculate ---------------- *)

Lemma toNum_Num_toNum (v : value) :
  toNum StringToNumber (Num (toNum StringToNumber v)) = toNum StringToNumber v.
Proof.
  unfold toNum at 1. cbn [is_blank Number]. cbv zeta.
  rewrite toNum_finite. reflexivity.
Qed.

Lemma toNum_of_text (x : float) :
  NumberToString x <> "" -> StringToNumber (NumberToString x) = x ->
  Number_isFinite x = true ->
  toNum StringToNumber (Str (NumberToString x)) = x.
Proof.
  intros N R F. unfold toNum. cbn [is_blank Number].
  destruct (String.eqb (NumberToString x) "") eqn:E.
  - apply String.eqb_eq in E. contradiction.
  - cbv zeta. rewrite R, F. reflexivity.
Qed.

Lemma duplicateProduct_state (io : IO) (p : Product) (b : App) :
  putDraft_ok io = true -> getDraft_ok io = true ->
  wizardState (duplicateProduct NumberToString io p b)
  = wizardState (openWizard io false (Some (duplicateData NumberToString p)) b)
  /\ wizardStepIndex (duplicateProduct NumberToString io p b) = 0
  /\ view (duplicateProduct NumberToString io p b) = ViewWizard
  /\ products (db (duplicateProduct NumberToString io p b)) = products (db b).
Proof.
  intros P G. unfold duplicateProduct, openWizard, loadDraft, saveDraft.
  rewrite P, G.
  cbn [db set_db putDraft drafts d_id].
  rewrite lookup_insert_eq. cbn [d_data]. auto.
Qed.

Lemma is_blank_text (t : string) : t <> "" -> is_blank (Str t) = false.
Proof.
  intros N. cbn [is_blank]. destruct (String.eqb t "") eqn:E; [|reflexivity].
  apply String.eqb_eq in E. contradiction.
Qed.

(** X12.  Duplicating a committed record, when the draft write and read
    succeed and the texts of its weight and yarn price read back as the same
    numbers, opens the wizard on step 0 with a draft that passes the checks
    of the record builder and gets the same result from [computeAll]: the
    copy is priced as the original; the records are untouched. *)
Theorem duplicate_recalculates_the_same_prices
  (io0 io : IO) (s : WizardState) (b : App) :
  first_failure StringToNumber requiredChecks s = None ->
  (forall x, x = toNum StringToNumber (weightGm s)
             \/ x = toNum StringToNumber (yarnPricePerLb s) ->
     NumberToString x <> "" /\ StringToNumber (NumberToString x) = x) ->
  putDraft_ok io = true -> getDraft_ok io = true ->
  let p := buildProduct StringToNumber io0 s in
  exists d,
    wizardState (duplicateProduct NumberToString io p b) = Some d
    /\ wizardStepIndex (duplicateProduct NumberToString io p b) = 0
    /\ products (db (duplicateProduct NumberToString io p b)) = products (db b)
    /\ first_failure StringToNumber requiredChecks d = None
    /\ computeAll StringToNumber d = computeAll StringToNumber s
    /\ forall io1, p_computed (buildProduct StringToNumber io1 d) = p_computed p.
Proof.
  intros F RT P G p.
  destruct (duplicateProduct_state io p b P G) as (E1 & E2 & _ & E3).
  rewrite E1, E2, E3. clear E1 E2 E3.
  eexists. split; [reflexivity|]. split; [reflexivity|]. split; [reflexivity|].
  subst p.
  cbn [duplicateData buildProduct p_styleName p_yarnDesc p_composition p_gauge
       p_weightGm p_photo p_currency p_inputs i_yarnPricePerLb i_wastagePct
       i_accessoriesCostDoz i_fabricDoz i_fabricCostDoz i_fabricAttachCostDoz
       i_timingMin i_cmDoz i_rocPct String_of_slot or_zero is_blank
       styleName yarnDesc composition gauge weightGm photo currency yarnPricePerLb
       wastagePct accessoriesCostDoz fabricDoz fabricCostDoz fabricAttachCostDoz
       timingMin cmDoz rocPct ph_blob ph_type ph_width ph_height].
  match goal with |- first_failure _ _ ?r = None /\ _ => set (d := r) end.
  pose proof (first_failure_all _ _ F) as A. rewrite requiredChecks_eq in A.
  pose proof (A _ (or_introl eq_refl)) as A0.
  pose proof (A _ (or_intror (or_introl eq_refl))) as A1.
  pose proof (A _ (or_intror (or_intror (or_intror (or_introl eq_refl))))) as A3.
  pose proof (A _ (or_intror (or_intror (or_intror (or_intror (or_introl eq_refl))))))
    as A4.
  clear A.
  apply style_step_fields in A0; [|reflexivity].
  destruct A0 as (S1 & S2 & S3 & S4).
  apply required_reading in A1; [|left; reflexivity|reflexivity].
  destruct A1 as (_ & _ & Y & _).
  apply required_reading in A3; [|right; right; reflexivity|reflexivity].
  destruct A3 as (_ & _ & W1 & W2). specialize (W2 eq_refl).
  apply required_reading in A4; [|right; left; reflexivity|reflexivity].
  destruct A4 as (_ & _ & C & _).
  cbn [key get_field String.eqb Ascii.eqb Bool.eqb] in Y, W1, W2, C.
  pose proof (checks_passed_weight StringToNumber s F) as WP.
  destruct (RT _ (or_introl eq_refl)) as [NW RW].
  destruct (RT _ (or_intror eq_refl)) as [NY RY].
  assert (TW : toNum StringToNumber (weightGm d) = toNum StringToNumber (weightGm s)).
  { apply toNum_of_text; [exact NW|exact RW|apply toNum_finite]. }
  assert (TY : toNum StringToNumber (yarnPricePerLb d)
               = toNum StringToNumber (yarnPricePerLb s)).
  { apply toNum_of_text; [exact NY|exact RY|apply toNum_finite]. }
  assert (CA : computeAll StringToNumber d = computeAll StringToNumber s).
  { unfold computeAll. rewrite TW, TY. subst d.
    cbn [wastagePct accessoriesCostDoz fabricDoz fabricCostDoz fabricAttachCostDoz
         cmDoz].
    rewrite !toNum_Num_toNum. reflexivity. }
  split; [|split; [exact CA|]].
  2:{ intros io1. cbn [buildProduct p_computed]. rewrite CA. reflexivity. }
  apply first_failure_none. rewrite requiredChecks_eq.
  assert (BW : is_blank (weightGm d) = false).
  { apply is_blank_text. exact NW. }
  assert (BY : is_blank (yarnPricePerLb d) = false).
  { apply is_blank_text. exact NY. }
  intros st [<-|[<-|[<-|[<-|[<-|[<-|[]]]]]]].
  - unfold validateStep. cbn [kind]. rewrite TW, WP.
    subst d. cbn [styleName yarnDesc gauge Number].
    rewrite !trim_idempotent, S1, S2, S4.
    unfold has_photo_blob in *. cbn [photo ph_blob].
    destruct (photo s) as [ph|]; [|discriminate S3].
    destruct (ph_blob ph); [reflexivity|discriminate S3].
  - rewrite input_step_ok by (left; reflexivity).
    unfold examined. cbn [key get_field String.eqb Ascii.eqb Bool.eqb].
    unfold isNonNegativeNumber, is_int. cbn [kind negb orb andb].
    subst d. cbn [yarnPricePerLb is_blank Number] in *. rewrite BY.
    cbn [Number]. rewrite RY, toNum_finite, Y. reflexivity.
  - rewrite input_step_ok by (left; reflexivity).
    unfold examined. cbn [key get_field String.eqb Ascii.eqb Bool.eqb].
    unfold isNonNegativeNumber, is_int. cbn [kind negb orb andb].
    subst d. cbn [weightGm is_blank Number] in *. rewrite BW.
    cbn [Number]. rewrite RW, toNum_finite, (ltb_true_leb_true _ _ WP). reflexivity.
  - rewrite percent_step_ok by reflexivity.
    unfold examined. cbn [key get_field String.eqb Ascii.eqb Bool.eqb].
    subst d. cbn [wastagePct is_blank]. unfold isPercentValid. cbn [Number].
    rewrite toNum_finite, W1, W2. reflexivity.
  - rewrite input_step_ok by (right; left; reflexivity).
    unfold examined. cbn [key get_field String.eqb Ascii.eqb Bool.eqb].
    unfold isNonNegativeNumber, is_int. cbn [kind negb orb andb].
    subst d. cbn [cmDoz is_blank Number]. rewrite toNum_finite, C. reflexivity.
  - reflexivity.
Qed.

(* ---------------- opening the wizard ---------------- *)

Lemma is_blank_default (v d : value) :
  is_blank d = false -> is_blank (if is_blank v then d else v) = false.
Proof. intros D. destruct (is_blank v) eqn:E; [exact D|exact E]. Qed.

(** X13.  However the wizard is opened (new, resumed or from base data),
    its draft has a wastage and a markup that are not blank and a trimmed
    currency; it stands on step 0 without an error message, and the stores
    are as they were.  With a non-empty currency the draft is one that a
    resume restores unchanged. *)
Theorem openWizard_normalizes
  (io : IO) (resume : bool) (baseData : option WizardState) (a : App) :
  exists ws,
    wizardState (openWizard io resume baseData a) = Some ws
    /\ is_blank (wastagePct ws) = false /\ is_blank (rocPct ws) = false
    /\ trim (currency ws) = currency ws
    /\ (currency ws <> "" -> normalized ws = true)
    /\ wizardStepIndex (openWizard io resume baseData a) = 0
    /\ wizardError (openWizard io resume baseData a) = None
    /\ db (openWizard io resume baseData a) = db a.
Proof.
  unfold openWizard.
  cbn [wizardState wizardStepIndex wizardError db renderWizardStep clearWizardError
       showView set_wizardStepIndex set_wizardState].
  eexists. split; [reflexivity|].
  cbn [wastagePct rocPct currency].
  assert (B1 : forall v, is_blank (if is_blank v then Num 8 else v) = false)
    by (intros v; apply is_blank_default; reflexivity).
  assert (B2 : forall v, is_blank (if is_blank v then Num 0 else v) = false)
    by (intros v; apply is_blank_default; reflexivity).
  split; [apply B1|]. split; [apply B2|]. split; [apply trim_idempotent|].
  split; [|auto].
  intros N. unfold normalized. cbn [wastagePct rocPct currency].
  rewrite B1, B2, trim_idempotent, String.eqb_refl. cbn [negb andb].
  apply negb_true_iff, String.eqb_neq. exact N.
Qed.

(** X14.  After a commit whose draft delete succeeded there is no draft
    left to resume: the wizard then opens on the default draft at step 0,
    and the committed record can be read from the store under its
    identifier. *)
Theorem after_a_commit_the_wizard_starts_afresh
  (io io' : IO) (a : App) (s : WizardState) (resume : bool) :
  wizardState a = Some s ->
  first_failure StringToNumber requiredChecks s = None ->
  putProduct_ok io = true -> clearDraft_ok io = true ->
  let c := calculateAndSave StringToNumber io a in
  loadDraft io' c = None
  /\ wizardState (openWizard io' resume None c) = Some defaultWizardState
  /\ wizardStepIndex (openWizard io' resume None c) = 0
  /\ getProduct (uuid io) (db (openWizard io' resume None c))
     = Some (buildProduct StringToNumber io s).
Proof.
  intros W F P C c.
  destruct (calculateAndSave_commits StringToNumber io a s W F P) as (E1 & E2 & _).
  fold c in E1, E2. rewrite C in E2.
  assert (L : loadDraft io' c = None).
  { unfold loadDraft. destruct (getDraft_ok io'); [|reflexivity].
    rewrite E2, lookup_delete_eq. reflexivity. }
  split; [exact L|].
  destruct (openWizard_spec io' c) as (O & _).
  destruct (O L resume) as [O1 O2].
  split; [exact O1|]. split; [exact O2|].
  unfold getProduct, openWizard.
  cbn [db renderWizardStep clearWizardError showView set_wizardStepIndex
       set_wizardState].
  rewrite E1. apply lookup_insert_eq.
Qed.

(* ---------------- typing into a number field ---------------- *)

Lemma Math_max0_nonnegative (x : float) :
  Number_isFinite (Math_max0 x) = true -> PrimFloat.leb 0 (Math_max0 x) = true.
Proof.
  unfold Math_max0. destruct (is_nan x) eqn:N.
  - intros F. apply finite_not_nan in F. congruence.
  - destruct (PrimFloat.ltb 0 x) eqn:L; intros _.
    + apply ltb_true_leb_true. exact L.
    + reflexivity.
Qed.

Lemma get_set_field (step : Step) (v : value) (s : WizardState) :
  In step STEPS -> is_editable step = true -> kind step <> KStyle ->
  get_field (set_field (key step) v s) (key step) = v.
Proof.
  unfold STEPS. cbn [In].
  intros H E K.
  repeat (destruct H as [<-|H]; [first [discriminate E | reflexivity | (exfalso; apply K; reflexivity)]|]).
  destruct H.
Qed.

(** X21.  Typing a text that is not empty into the field of a number,
    money, whole-number or percent step stores the text of the typed number
    with negative numbers replaced by 0 (and fractions dropped on a
    whole-number step), and saves the draft.  When that text reads back as
    the same number, the stored number is 0, positive or NaN; the engine
    reads it, or 0 if it is not finite; and the step accepts the draft
    exactly when the number is finite, whole on a whole-number step and at
    most 100 on a percent step: a negative entry is never rejected. *)
Theorem typed_numbers_are_clamped_not_rejected
  (io io' : IO) (step : Step) (raw : string) (a : App) (s : WizardState) :
  In step STEPS -> is_editable step = true -> kind step <> KStyle ->
  raw <> "" -> wizardState a = Some s ->
  let y := typedNumber StringToNumber step raw in
  let s' := onInput StringToNumber NumberToString step raw s in
  let a' := inputHandler StringToNumber NumberToString io step raw a in
  NumberToString y <> "" -> StringToNumber (NumberToString y) = y ->
  wizardState a' = Some s'
  /\ (putDraft_ok io = true -> getDraft_ok io' = true -> loadDraft io' a' = Some s')
  /\ get_field s' (key step) = Str (NumberToString y)
  /\ (y = 0%float \/ PrimFloat.ltb 0 y = true \/ is_nan y = true)
  /\ toNum StringToNumber (get_field s' (key step))
     = (if Number_isFinite y then y else 0%float)
  /\ ok (validateStep StringToNumber step s')
     = Number_isFinite y
       && (negb (is_int step) || Number_isInteger y)
       && (match kind step with KPercent => PrimFloat.leb y 100 | _ => true end).
Proof.
  intros I E K R W y s' a' N RT.
  assert (G : get_field s' (key step) = Str (NumberToString y)).
  { subst s'. unfold onInput. rewrite (get_set_field _ _ _ I E K).
    destruct (String.eqb raw "") eqn:B; [apply String.eqb_eq in B; contradiction|].
    reflexivity. }
  assert (B : is_blank (get_field s' (key step)) = false).
  { rewrite G. apply is_blank_text. exact N. }
  split; [|split].
  { subst a'. unfold inputHandler, saveDraft. rewrite W.
    destruct (putDraft_ok io); reflexivity. }
  { intros P Gd. subst a'. unfold inputHandler, saveDraft, loadDraft.
    rewrite W, P, Gd.
    cbn [db set_db set_wizardState putDraft drafts d_id].
    rewrite lookup_insert_eq. reflexivity. }
  split; [exact G|]. split; [|split].
  - subst y. unfold typedNumber.
    assert (M : forall x, Math_max0 x = 0%float \/ PrimFloat.ltb 0 (Math_max0 x) = true
                          \/ is_nan (Math_max0 x) = true).
    { intros x. unfold Math_max0. destruct (is_nan x) eqn:Nx; [auto|].
      destruct (PrimFloat.ltb 0 x) eqn:L; auto. }
    destruct (is_int step); apply M.
  - unfold toNum. rewrite B, G. cbn [Number]. rewrite RT. reflexivity.
  - assert (KK : kind step = KPercent
                 \/ (kind step = KNumber \/ kind step = KMoneyDoz \/ kind step = KInt)).
    { unfold is_editable in E. destruct (kind step); try discriminate E; auto.
      exfalso. apply K. reflexivity. }
    assert (L : Number_isFinite y = true -> PrimFloat.leb 0 y = true).
    { subst y. unfold typedNumber. destruct (is_int step); apply Math_max0_nonnegative. }
    destruct KK as [P|NP].
    + rewrite percent_step_ok by exact P.
      rewrite examined_blank, B, (examined_present _ _ B), G.
      unfold isPercentValid, is_int. cbn [Number]. rewrite RT, P. cbn [negb orb].
      destruct (Number_isFinite y); [|reflexivity].
      rewrite (L eq_refl). reflexivity.
    + rewrite input_step_ok by exact NP.
      rewrite examined_blank, B, (examined_present _ _ B), G.
      unfold isNonNegativeNumber. cbn [Number]. rewrite RT.
      assert (NPc : match kind step with KPercent => PrimFloat.leb y 100 | _ => true end
                    = true).
      { destruct NP as [->|[->| ->]]; reflexivity. }
      rewrite NPc, andb_true_r.
      destruct (Number_isFinite y); [|reflexivity].
      rewrite (L eq_refl). reflexivity.
Qed.

(** X22.  Emptying the field of a number, money, whole-number or percent
    step stores the empty text: the engine then reads 0, and the step
    accepts the draft exactly when it is not a required step. *)
Theorem cleared_field_is_accepted_only_if_optional
  (step : Step) (s : WizardState) :
  In step STEPS -> is_editable step = true -> kind step <> KStyle ->
  let s' := onInput StringToNumber NumberToString step "" s in
  get_field s' (key step) = Str ""
  /\ toNum StringToNumber (get_field s' (key step)) = 0%float
  /\ ok (validateStep StringToNumber step s') = negb (required step).
Proof.
  intros I E K s'.
  assert (G : get_field s' (key step) = Str "").
  { subst s'. unfold onInput. rewrite (get_set_field _ _ _ I E K). reflexivity. }
  split; [exact G|]. split; [rewrite G; reflexivity|].
  assert (KK : kind step = KPercent
               \/ (kind step = KNumber \/ kind step = KMoneyDoz \/ kind step = KInt)).
  { unfold is_editable in E. destruct (kind step); try discriminate E; auto.
    exfalso. apply K. reflexivity. }
  destruct KK as [P|NP].
  - rewrite percent_step_ok by exact P. rewrite examined_blank, G. reflexivity.
  - rewrite input_step_ok by exact NP. rewrite examined_blank, G. reflexivity.
Qed.

End Coverage.

(* ===================================================================== *)
(** ** The record store, backups and the preview *)
(* ===================================================================== *)

(* ---------------- the record store ---------------- *)

Lemma bulkPut_cons (p : Product) (ps : list Product) (d : DB) :
  bulkPut (p :: ps) d = bulkPut ps (putProduct p d).
Proof. reflexivity. Qed.

Lemma bulkPut_lookup (ps : list Product) (d : DB) (k : string) :
  products (bulkPut ps d) !! k
  = match last_with_id k ps with
    | Some q => Some q
    | None => products d !! k
    end.
Proof.
  revert d. induction ps as [|p r IH]; intros d; [reflexivity|].
  rewrite bulkPut_cons, IH. cbn [last_with_id].
  destruct (last_with_id k r) as [q|]; [reflexivity|].
  unfold putProduct. cbn [products].
  destruct (String.eqb (p_id p) k) eqn:E.
  - apply String.eqb_eq in E. subst k. apply lookup_insert_eq.
  - apply String.eqb_neq in E. apply lookup_insert_ne. exact E.
Qed.

Lemma bulkPut_drafts (ps : list Product) (d : DB) :
  drafts (bulkPut ps d) = drafts d.
Proof.
  revert d. induction ps as [|p r IH]; intros d; [reflexivity|].
  rewrite bulkPut_cons, IH. reflexivity.
Qed.

Lemma last_with_id_In (k : string) (ps : list Product) (q : Product) :
  last_with_id k ps = Some q -> In q ps /\ p_id q = k.
Proof.
  induction ps as [|p r IH]; [discriminate|]. cbn [last_with_id In].
  destruct (last_with_id k r) as [q'|].
  - intros E. destruct IH as [I J]; [exact E|]. auto.
  - destruct (String.eqb (p_id p) k) eqn:B; [|discriminate].
    intros E. apply String.eqb_eq in B.
    assert (p = q) by exact (f_equal (fun o => match o with Some x => x | None => p end) E).
    subst q. auto.
Qed.

Lemma last_with_id_None (k : string) (ps : list Product) :
  last_with_id k ps = None -> forall q, In q ps -> p_id q <> k.
Proof.
  induction ps as [|p r IH]; [intros _ q []|]. cbn [last_with_id In].
  destruct (last_with_id k r) as [q'|]; [discriminate|].
  destruct (String.eqb (p_id p) k) eqn:B; [discriminate|].
  intros _ q [<-|I]; [apply String.eqb_neq; exact B|].
  apply IH; [reflexivity|exact I].
Qed.

(** X15.  After [bulkPut], reading an identifier gives the last record of
    the list with that identifier and, if the list has none, what the store
    held before; identifiers that the list does not mention and the draft
    store are untouched, and every record stays under its own identifier. *)
Theorem bulkPut_last_write_wins (ps : list Product) (d : DB) :
  (forall k,
     getProduct k (bulkPut ps d)
     = match last_with_id k ps with
       | Some q => Some q
       | None => getProduct k d
       end)
  /\ (forall k, (forall q, In q ps -> p_id q <> k) ->
        getProduct k (bulkPut ps d) = getProduct k d)
  /\ drafts (bulkPut ps d) = drafts d
  /\ (keyed_by_id (products d) -> keyed_by_id (products (bulkPut ps d))).
Proof.
  split; [intros k; apply bulkPut_lookup|].
  split; [|split; [apply bulkPut_drafts|]].
  - intros k N. unfold getProduct. rewrite bulkPut_lookup.
    destruct (last_with_id k ps) as [q|] eqn:E; [|reflexivity].
    apply last_with_id_In in E as [I J]. destruct (N q I J).
  - intros K k p. rewrite bulkPut_lookup.
    destruct (last_with_id k ps) as [q|] eqn:E.
    + intros Q. apply last_with_id_In in E as [_ J].
      assert (q = p) by exact (f_equal (fun o => match o with Some x => x | None => p end) Q).
      subst q. exact J.
    + apply K.
Qed.

(** X16.  Take a store whose records lie under their own identifiers and
    can be carried by a backup file, and a backup of all of them in any
    order.  Restoring it into a store adds them back over what the store
    holds, leaves the drafts alone, and undoes the deletion of any one
    record. *)
Theorem restore_rebuilds_the_store
  (exportedAt : string) (m : gmap string Product) (items : list Product) (d : DB) :
  keyed_by_id m ->
  (forall p, In p items <-> exists k, m !! k = Some p) ->
  forallb exportable items = true ->
  exists ps,
    importBackup (JSON_roundtrip (exportBackup exportedAt items)) = Some ps
    /\ products (bulkPut ps d) = m ∪ products d
    /\ drafts (bulkPut ps d) = drafts d
    /\ (forall k, products d = m ->
          products (bulkPut ps (deleteProduct k d)) = m).
Proof.
  intros K I E. exists items.
  assert (U : forall d', products (bulkPut items d') = m ∪ products d').
  { intros d'. apply map_eq. intros k. rewrite bulkPut_lookup, lookup_union.
    destruct (last_with_id k items) as [q|] eqn:L.
    + apply last_with_id_In in L as [L1 L2].
      apply I in L1 as [k' Q]. pose proof (K _ _ Q) as J.
      assert (Q' : m !! k = Some q) by (rewrite <- L2, J; exact Q).
      rewrite Q'. destruct (products d' !! k); reflexivity.
    + destruct (m !! k) as [p|] eqn:Q.
      * exfalso. apply (last_with_id_None k items L p).
        -- apply I. exists k. exact Q.
        -- apply (K _ _ Q).
      * destruct (products d' !! k); reflexivity. }
  assert (V : forall k (x : gmap string Product), x = delete k m -> m ∪ x = m).
  { intros k x ->. apply map_eq. intros j. rewrite lookup_union.
    destruct (m !! j) as [p|] eqn:Q.
    - destruct (delete k m !! j); reflexivity.
    - destruct (delete k m !! j) as [p|] eqn:Q'; [|reflexivity].
      apply lookup_delete_Some in Q' as [_ Q']. congruence. }
  split; [|split; [apply U|split; [apply bulkPut_drafts|]]].
  - unfold importBackup, JSON_roundtrip, exportBackup. cbn [b_items].
    apply importItems_exportItems. exact E.
  - intros k D. rewrite U. unfold deleteProduct. cbn [products].
    apply (V k). rewrite D. reflexivity.
Qed.

(* ---------------- a photo that cannot be decoded ---------------- *)

Lemma importItems_fails (l : list ExportedItem) (raw : ExportedItem) :
  In raw l -> importItem raw = None -> importItems l = None.
Proof.
  induction l as [|x r IH]; [intros []|]. cbn [In importItems].
  intros [->|I] N.
  - rewrite N. reflexivity.
  - destruct (importItem x); [|reflexivity]. rewrite (IH I N). reflexivity.
Qed.

(** X17.  A backup item whose photo text is not empty and has no comma
    cannot be decoded: [dataUrlToBlob] throws on it, and the import of a
    backup that contains such an item hands nothing to the store, whatever
    its other items are. *)
Theorem undecodable_photo_aborts_the_import
  (data : Backup) (raw : ExportedItem) (e : ExportedPhoto) :
  In raw (b_items data) -> p_photo raw = Some e ->
  e_base64 e <> "" -> string_forallb not_comma (e_base64 e) = true ->
  dataUrlToBlob (e_base64 e) = None
  /\ importBackup data = None
  /\ importBackup (JSON_roundtrip data) = None.
Proof.
  intros I P N C.
  assert (D : dataUrlToBlob (e_base64 e) = None).
  { unfold dataUrlToBlob. rewrite (split_comma_free _ C). reflexivity. }
  assert (R : importItem raw = None).
  { unfold importItem. rewrite P.
    destruct (String.eqb (e_base64 e) "") eqn:B;
      [apply String.eqb_eq in B; contradiction|].
    cbn [negb]. rewrite D. reflexivity. }
  split; [exact D|]. split.
  - unfold importBackup. apply (importItems_fails _ raw I R).
  - unfold importBackup, JSON_roundtrip. cbn [b_items].
    apply (importItems_fails _ (JSON_item raw)).
    + apply in_map. exact I.
    + unfold importItem, JSON_item. cbn [p_photo]. rewrite P. cbn [option_map JSON_photo e_base64].
      destruct (String.eqb (e_base64 e) "") eqn:B;
        [apply String.eqb_eq in B; contradiction|].
      cbn [negb]. rewrite D. reflexivity.
Qed.

(* ---------------- preview rows and progress ---------------- *)

(** X18.  Every row of the preview table jumps to an existing step other
    than the preview itself, without clamping; rows tagged as input lead to
    a step with an editable field and rows tagged as automatic to a computed
    step; apart from the rows of the style step, the title of the row is the
    title of its step; and every step before the preview is the target of a
    row. *)
Theorem preview_rows_lead_to_their_steps :
  (forall r a, In r previewRows ->
     exists st,
       step_at (row_jump r) = Some st
       /\ wizardStepIndex (jumpTo (row_jump r) a) = row_jump r
       /\ is_preview st = false
       /\ (is_editable st = true <-> row_kind r = RowInput)
       /\ (row_jump r <> 0 -> title st = row_title r))
  /\ (forall i, 0 <= i < STEPS_length - 1 ->
        exists r, In r previewRows /\ row_jump r = i).
Proof.
  split.
  - intros r a H. unfold previewRows in H. cbn [In] in H.
    repeat (destruct H as [<-|H];
            [eexists; split; [reflexivity|]; split; [reflexivity|];
             split; [reflexivity|]; split;
             [split; intros Q; try reflexivity; discriminate Q
             |intros N; try reflexivity; exfalso; apply N; reflexivity]|]).
    destruct H.
  - intros i R. assert (N : STEPS_length = 16) by reflexivity. rewrite N in R.
    assert (C : i = 0 \/ i = 1 \/ i = 2 \/ i = 3 \/ i = 4 \/ i = 5 \/ i = 6 \/ i = 7
                \/ i = 8 \/ i = 9 \/ i = 10 \/ i = 11 \/ i = 12 \/ i = 13 \/ i = 14)
      by lia.
    assert (E : existsb (fun r => row_jump r =? i) previewRows = true).
    { repeat (destruct C as [->|C]; [reflexivity|]). subst i. reflexivity. }
    apply existsb_exists in E as (r & I & J). exists r.
    split; [exact I|]. apply Z.eqb_eq. exact J.
Qed.

(** X19.  On every step the progress bar shows a whole percentage between
    6 and 100, strictly larger than on the step before, and 100 exactly on
    the preview step. *)
Theorem progress_is_full_only_at_the_preview (i : Z) :
  0 <= i < STEPS_length ->
  PrimFloat.leb 6 (progressPercent i) = true
  /\ PrimFloat.leb (progressPercent i) 100 = true
  /\ Number_isInteger (progressPercent i) = true
  /\ (progressPercent i = 100%float <-> i = STEPS_length - 1)
  /\ (i + 1 < STEPS_length ->
      PrimFloat.ltb (progressPercent i) (progressPercent (i + 1)) = true).
Proof.
  intros R. assert (N : STEPS_length = 16) by reflexivity. rewrite N in *.
  assert (C : i = 0 \/ i = 1 \/ i = 2 \/ i = 3 \/ i = 4 \/ i = 5 \/ i = 6 \/ i = 7
              \/ i = 8 \/ i = 9 \/ i = 10 \/ i = 11 \/ i = 12 \/ i = 13 \/ i = 14
              \/ i = 15) by lia.
  assert (D : forall x : float, PrimFloat.eqb x 100 = false -> x = 100%float -> False).
  { intros x E ->. vm_compute in E. discriminate E. }
  repeat (destruct C as [->|C];
          [split; [vm_compute; reflexivity|]; split; [vm_compute; reflexivity|];
           split; [vm_compute; reflexivity|]; split;
           [split; [intros Q; exfalso; vm_compute in Q;
                    refine (D _ _ Q); reflexivity
                   |intros Q; exfalso; lia]
           |intros _; vm_compute; reflexivity]|]).
  subst i. split; [vm_compute; reflexivity|]. split; [vm_compute; reflexivity|].
  split; [vm_compute; reflexivity|]. split; [|intros Q; exfalso; lia].
  split; [reflexivity|]. intros _. vm_compute. reflexivity.
Qed.

(* ---------------- file names ---------------- *)

Lemma replace_runs_kept (b : bool) (s : string) :
  string_forallb is_kept (replace_runs b s) = true.
Proof.
  revert b. induction s as [|c r IH]; intros b; [reflexivity|].
  cbn [replace_runs]. destruct (is_kept c) eqn:K.
  - cbn [string_forallb]. rewrite K, IH. reflexivity.
  - destruct b; [apply IH|]. cbn [string_forallb]. rewrite IH. reflexivity.
Qed.

Lemma replace_runs_of_kept (b : bool) (s : string) :
  string_forallb is_kept s = true -> replace_runs b s = s.
Proof.
  revert b. induction s as [|c r IH]; intros b H; [reflexivity|].
  cbn [string_forallb] in H. apply andb_prop in H as [K H].
  cbn [replace_runs]. rewrite K, (IH false H). reflexivity.
Qed.

Lemma string_take_kept (n : nat) (s : string) :
  string_forallb is_kept s = true -> string_forallb is_kept (string_take n s) = true.
Proof.
  revert s. induction n as [|n IH]; intros [|c r] H; try reflexivity.
  cbn [string_forallb] in H. apply andb_prop in H as [K H].
  cbn [string_take string_forallb]. rewrite K, (IH r H). reflexivity.
Qed.

Lemma string_take_length (n : nat) (s : string) :
  (String.length (string_take n s) <= n)%nat.
Proof.
  revert s. induction n as [|n IH]; intros [|c r]; cbn; try lia.
  specialize (IH r). lia.
Qed.

Lemma string_take_short (n : nat) (s : string) :
  (String.length s <= n)%nat -> string_take n s = s.
Proof.
  revert s. induction n as [|n IH]; intros [|c r] H; try reflexivity.
  - cbn in H. lia.
  - cbn [string_take]. rewrite IH; [reflexivity|]. cbn in H. lia.
Qed.

Lemma replace_runs_not_empty (s : string) :
  s <> "" -> replace_runs false s <> "".
Proof.
  destruct s as [|c r]; [congruence|]. intros _. cbn [replace_runs].
  destruct (is_kept c); discriminate.
Qed.

Lemma string_take_not_empty (n : nat) (s : string) :
  s <> "" -> string_take (S n) s <> "".
Proof. destruct s as [|c r]; [congruence|]. intros _. discriminate. Qed.

(** X20.  The file name made by [sanitizeFilename] is not empty, has at
    most 60 characters, all of them letters, digits, underscores or hyphens;
    sanitizing it again changes nothing, and a name that already has this
    form is kept as it is. *)
Theorem sanitizeFilename_is_safe_and_stable (name : string) :
  string_forallb is_kept (sanitizeFilename name) = true
  /\ (String.length (sanitizeFilename name) <= 60)%nat
  /\ sanitizeFilename name <> ""
  /\ sanitizeFilename (sanitizeFilename name) = sanitizeFilename name
  /\ (name <> "" -> string_forallb is_kept name = true ->
      (String.length name <= 60)%nat -> sanitizeFilename name = name).
Proof.
  assert (U : forall n, n <> "" -> string_forallb is_kept n = true ->
                (String.length n <= 60)%nat -> sanitizeFilename n = n).
  { intros n N K L. unfold sanitizeFilename, or_default.
    destruct (String.eqb n "") eqn:E; [apply String.eqb_eq in E; contradiction|].
    rewrite (replace_runs_of_kept false n K). apply string_take_short. exact L. }
  assert (S1 : string_forallb is_kept (sanitizeFilename name) = true).
  { apply string_take_kept, replace_runs_kept. }
  assert (S2 : (String.length (sanitizeFilename name) <= 60)%nat).
  { apply string_take_length. }
  assert (S3 : sanitizeFilename name <> "").
  { apply string_take_not_empty, replace_runs_not_empty.
    unfold or_default. destruct (String.eqb name "") eqn:E; [discriminate|].
    intros Q. rewrite Q in E. discriminate E. }
  split; [exact S1|]. split; [exact S2|]. split; [exact S3|].
  split; [apply U; assumption|exact (U name)].
Qed.

(* ---------------- sample runs ---------------- *)

Lemma accepted_input_is_read_as_typed_witness :
  PrimFloat.leb 0 (toNum integerLiteral (wastagePct scenarioA)) = true
  /\ PrimFloat.leb (toNum integerLiteral (wastagePct scenarioA)) 100 = true.
Proof.
  destruct (accepted_input_is_read_as_typed integerLiteral
              (mkStep "wastagePct" KPercent (Some "wastagePct") true "Wastage %")
              scenarioA)
    as [(B & _)|(_ & _ & _ & L & U & _)].
  - right; right; right; reflexivity.
  - reflexivity.
  - discriminate B.
  - split; [exact L|]. apply U. reflexivity.
Defined.

Lemma every_rejection_is_explained_witness :
  exists m,
    wizardError (wizardNext integerLiteral sampleIO (wizardAt 4 scenarioC)) = Some m
    /\ m <> "".
Proof.
  destruct (every_rejection_is_explained integerLiteral sampleIO
              (wizardAt 4 scenarioC)
              (mkStep "wastagePct" KPercent (Some "wastagePct") true "Wastage %")
              (reject "Wastage % must be between 0 and 100."))
    as (m & _ & N & E & _).
  - reflexivity.
  - reflexivity.
  - exists m. split; [exact E|exact N].
Defined.

Lemma computeAll_depends_on_eight_readings_witness :
  computeAll integerLiteral scenarioA = computeAll integerLiteral markup150.
Proof.
  apply (computeAll_depends_on_eight_readings integerLiteral scenarioA markup150);
    reflexivity.
Defined.

Lemma wizard_never_overwrites_a_record_witness :
  products
    (db (run_ops integerLiteral [OpAdvance sampleIO]
           (wizardWithRecord photolessRecord 15 scenarioA)))
    !! "id-0c44-5e1a"
  = Some photolessRecord.
Proof.
  apply (wizard_never_overwrites_a_record integerLiteral [OpAdvance sampleIO]
           (wizardWithRecord photolessRecord 15 scenarioA)).
  - apply lookup_singleton_eq.
  - cbn. intros [H|[]]. discriminate H.
Defined.

Lemma draft_store_has_one_slot_witness :
  single_slot
    (db (run_ops integerLiteral [OpAdvance sampleIO] (wizardAt 0 scenarioA))).
Proof.
  apply (draft_store_has_one_slot integerLiteral integerString
           [OpAdvance sampleIO] sampleIO photolessRecord (wizardAt 0 scenarioA)).
  intros k x Q. cbn in Q. rewrite lookup_empty in Q. discriminate Q.
Defined.

Lemma resume_restores_the_saved_draft_witness :
  wizardState
    (openWizard sampleIO true None (wizardPrev sampleIO (wizardAt 4 scenarioA)))
  = Some scenarioA.
Proof.
  apply (resume_restores_the_saved_draft integerLiteral sampleIO sampleIO
           (wizardAt 4 scenarioA) (wizardPrev sampleIO (wizardAt 4 scenarioA))
           scenarioA).
  - reflexivity.
  - reflexivity.
  - reflexivity.
  - reflexivity.
  - left. reflexivity.
Defined.

Lemma valid_draft_walks_to_a_record_witness :
  wizardStepIndex
    (run_ops integerLiteral (map OpAdvance (repeat sampleIO 15))
       (wizardAt 0 scenarioA))
  = STEPS_length - 1.
Proof.
  apply (valid_draft_walks_to_a_record integerLiteral scenarioA
           (repeat sampleIO 15) sampleIO (wizardAt 0 scenarioA));
    reflexivity.
Defined.

Lemma committed_record_is_well_formed_witness :
  p_styleName (buildProduct integerLiteral sampleIO scenarioA) <> "".
Proof.
  apply (committed_record_is_well_formed integerLiteral sampleIO
           (wizardAt 15 scenarioA)).
  reflexivity.
Defined.

Lemma duplicate_recalculates_the_same_prices_witness :
  exists d,
    wizardState
      (duplicateProduct integerString sampleIO
         (buildProduct integerLiteral sampleIO scenarioA) (wizardAt 0 scenarioA))
    = Some d
    /\ computeAll integerLiteral d = computeAll integerLiteral scenarioA.
Proof.
  destruct (duplicate_recalculates_the_same_prices integerLiteral integerString
              sampleIO sampleIO scenarioA (wizardAt 0 scenarioA))
    as (d & W & _ & _ & _ & C & _).
  - reflexivity.
  - intros x [->| ->]; split; vm_compute; first [discriminate|reflexivity].
  - reflexivity.
  - reflexivity.
  - exists d. split; [exact W|exact C].
Defined.

Lemma restore_rebuilds_the_store_witness :
  exists ps,
    importBackup
      (JSON_roundtrip
         (exportBackup "2026-02-01T10:00:00.000Z"
            [buildProduct integerLiteral sampleIO scenarioA]))
    = Some ps
    /\ products (bulkPut ps emptyDB)
       = {[ uuid sampleIO := buildProduct integerLiteral sampleIO scenarioA ]}
         ∪ products emptyDB.
Proof.
  destruct (restore_rebuilds_the_store "2026-02-01T10:00:00.000Z"
              {[ uuid sampleIO := buildProduct integerLiteral sampleIO scenarioA ]}
              [buildProduct integerLiteral sampleIO scenarioA] emptyDB)
    as (ps & I & P & _).
  - intros k q Q. apply lookup_singleton_Some in Q as [<- <-]. reflexivity.
  - intros q. split.
    + intros [<-|[]]. exists (uuid sampleIO). apply lookup_singleton_eq.
    + intros (k & Q). apply lookup_singleton_Some in Q as [_ <-]. left. reflexivity.
  - vm_compute. reflexivity.
  - exists ps. split; [exact I|exact P].
Defined.

Lemma undecodable_photo_aborts_the_import_witness :
  importBackup
    (mkBackup "garment-costing-backup-v2" "2026-02-01T10:00:00.000Z"
       APP_VERSION CALC_VERSION [exportItem photolessRecord; brokenItem])
  = None.
Proof.
  apply (undecodable_photo_aborts_the_import
           (mkBackup "garment-costing-backup-v2" "2026-02-01T10:00:00.000Z"
              APP_VERSION CALC_VERSION [exportItem photolessRecord; brokenItem])
           brokenItem
           {| e_base64 := "not a data url"; e_type := "image/jpeg";
              e_width := Null; e_height := Null |}).
  - right. left. reflexivity.
  - reflexivity.
  - discriminate.
  - reflexivity.
Defined.

Lemma progress_is_full_only_at_the_preview_witness :
  PrimFloat.leb 6 (progressPercent 0) = true
  /\ PrimFloat.leb (progressPercent 0) 100 = true.
Proof.
  destruct (progress_is_full_only_at_the_preview 0) as (L & U & _).
  - split; reflexivity.
  - split; [exact L|exact U].
Defined.

Lemma after_a_commit_the_wizard_starts_afresh_witness :
  wizardState
    (openWizard sampleIO true None
       (calculateAndSave integerLiteral sampleIO (wizardAt 15 scenarioA)))
  = Some defaultWizardState.
Proof.
  apply (after_a_commit_the_wizard_starts_afresh integerLiteral sampleIO sampleIO
           (wizardAt 15 scenarioA) scenarioA true); reflexivity.
Defined.

Lemma typed_numbers_are_clamped_not_rejected_witness :
  get_field
    (onInput integerLiteral integerString
       (mkStep "cmDoz" KMoneyDoz (Some "cmDoz") true "CM") "18" scenarioA)
    (Some "cmDoz")
  = Str "18".
Proof.
  destruct (typed_numbers_are_clamped_not_rejected integerLiteral integerString
              sampleIO sampleIO
              (mkStep "cmDoz" KMoneyDoz (Some "cmDoz") true "CM") "18"
              (wizardAt 12 scenarioA) scenarioA)
    as (_ & _ & G & _).
  - unfold STEPS. cbn [In]. auto 20.
  - reflexivity.
  - discriminate.
  - discriminate.
  - reflexivity.
  - vm_compute. discriminate.
  - vm_compute. reflexivity.
  - exact G.
Defined.

Lemma cleared_field_is_accepted_only_if_optional_witness :
  ok (validateStep integerLiteral
        (mkStep "cmDoz" KMoneyDoz (Some "cmDoz") true "CM")
        (onInput integerLiteral integerString
           (mkStep "cmDoz" KMoneyDoz (Some "cmDoz") true "CM") "" scenarioA))
  = false.
Proof.
  apply (cleared_field_is_accepted_only_if_optional integerLiteral integerString
           (mkStep "cmDoz" KMoneyDoz (Some "cmDoz") true "CM") scenarioA).
  - unfold STEPS. cbn [In]. auto 20.
  - reflexivity.
  - discriminate.
Defined.
